(** * sysmetrics-mcp: health classification, process limit and configuration

    A shallow embedding of the decision logic of
    [internal/handlers/handlers.go] (the threshold block of
    [HandleGetSystemHealth] and the limit handling of [HandleGetProcessList])
    and of [internal/config/config.go] ([Config.Validate]), followed by the
    other handlers and helpers of the two packages: what each handler
    selects, filters and reports, given what the host delivers, and how its
    call ends: with the result, with a tool error, or with a run-time
    panic.

    Go's [float64] is modelled by the IEEE 754 specification floats of the
    Standard Library ([spec_float] at precision 53, [emax] 1024); Go's [int]
    by [Z], with its 64-bit range written out where a conversion can leave
    it; Go strings by [string]; slices by [list] (the nil slice is [[]]). *)

From Stdlib Require Import ZArith Bool List String Ascii Lia.
From Stdlib Require Import DecimalString.
From Stdlib Require Import Floats.SpecFloat.
From Stdlib Require Import Sorting.Permutation.
Import ListNotations.
Local Open Scope Z_scope.
Local Open Scope string_scope.
Local Open Scope list_scope.

(** ** Go's float64 *)

Module F64.

Definition prec : Z := 53.
Definition emax : Z := 1024.

(** A value of Go's [float64]: a specification float in binary64 format. *)
Definition float64 : Type := spec_float.

(** The binary64 well-formedness condition: a finite value has a canonical
    mantissa and an exponent in range. *)
Definition is_float64 (f : float64) : bool := valid_binary prec emax f.

(** An untyped integer constant such as [95] used at type [float64]. *)
Definition of_int (z : Z) : float64 := binary_normalize prec emax z 0 false.

(** A decimal constant [n / d], correctly rounded (as Go converts the
    literal [95.0001]). *)
Definition of_ratio (n d : Z) : float64 := SFdiv prec emax (of_int n) (of_int d).

(** Go's comparison operators on [float64]: IEEE 754 comparisons, false
    whenever an operand is NaN. *)
Definition gt (x y : float64) : bool := SFltb y x.
Definition le (x y : float64) : bool := SFleb x y.

(** The integer part of a finite float, rounded toward zero;
    [None] for NaN and the infinities. *)
Definition trunc (f : float64) : option Z :=
  match f with
  | S754_zero _ => Some 0
  | S754_finite s m e =>
      let a := match e with
               | Z0 => Zpos m
               | Zpos p => Zpos m * 2 ^ Zpos p
               | Zneg p => Zpos m / 2 ^ Zpos p
               end in
      Some (if s then - a else a)
  | S754_infinity _ | S754_nan => None
  end.

End F64.

Import F64.

(** ** Health status constants and the classification block of
       HandleGetSystemHealth *)

Definition statusHealthy : string := "healthy".
Definition statusCritical : string := "critical".
Definition statusWarning : string := "warning".

(** The two local variables the block assigns. *)
Record verdict : Type := mkVerdict {
  status : string;
  warnings : list string
}.

(** Go's [status != statusCritical]. *)
Definition string_neq (a b : string) : bool := negb (String.eqb a b).

(** Go's [append(warnings, msg)]. *)
Definition append (ws : list string) (msg : string) : list string := ws ++ [msg].

Definition f95 : float64 := Eval vm_compute in of_int 95.
Definition f85 : float64 := Eval vm_compute in of_int 85.
Definition f80 : float64 := Eval vm_compute in of_int 80.

(** [if cpuUsage > 95 {...} else if cpuUsage > 80 {...}] *)
Definition checkCPU (cpuUsage : float64) (v : verdict) : verdict :=
  if gt cpuUsage f95 then
    mkVerdict statusCritical (append (warnings v) "CPU usage is critical (>95%)")
  else if gt cpuUsage f80 then
    mkVerdict (if string_neq (status v) statusCritical then statusWarning else status v)
              (append (warnings v) "CPU usage is high (>80%)")
  else v.

(** [if memInfo.UsedPercent > 95 {...} else if memInfo.UsedPercent > 85 {...}] *)
Definition checkMemory (memUsedPercent : float64) (v : verdict) : verdict :=
  if gt memUsedPercent f95 then
    mkVerdict statusCritical (append (warnings v) "Memory usage is critical (>95%)")
  else if gt memUsedPercent f85 then
    mkVerdict (if string_neq (status v) statusCritical then statusWarning else status v)
              (append (warnings v) "Memory usage is high (>85%)")
  else v.

(** [if rootDisk.UsedPercent > 95 {...} else if rootDisk.UsedPercent > 85 {...}] *)
Definition checkDisk (diskUsedPercent : float64) (v : verdict) : verdict :=
  if gt diskUsedPercent f95 then
    mkVerdict statusCritical (append (warnings v) "Disk usage is critical (>95%)")
  else if gt diskUsedPercent f85 then
    mkVerdict (if string_neq (status v) statusCritical then statusWarning else status v)
              (append (warnings v) "Disk usage is high (>85%)")
  else v.

(** [status := statusHealthy; var warnings []string] *)
Definition initial : verdict := mkVerdict statusHealthy [].

(** The whole block: CPU, then memory, then disk. *)
Definition classify (cpuUsage memUsedPercent diskUsedPercent : float64) : verdict :=
  checkDisk diskUsedPercent (checkMemory memUsedPercent (checkCPU cpuUsage initial)).

(** *** Evaluation order

    The block runs the three checks in the order CPU, memory, disk.  To talk
    about other orders the checks are indexed by the metric they read. *)

Inductive metric : Type := CPU | Memory | Disk.

Record MetricSample : Type := mkSample {
  cpuUsagePercent : float64;
  memoryUsagePercent : float64;
  diskUsagePercent : float64
}.

Definition check (s : MetricSample) (k : metric) : verdict -> verdict :=
  match k with
  | CPU => checkCPU (cpuUsagePercent s)
  | Memory => checkMemory (memoryUsagePercent s)
  | Disk => checkDisk (diskUsagePercent s)
  end.

(** The checks of [order], run from the initial state, first to last. *)
Definition run (s : MetricSample) (order : list metric) (v : verdict) : verdict :=
  fold_left (fun acc k => check s k acc) order v.

Definition classifyIn (order : list metric) (s : MetricSample) : verdict :=
  run s order initial.

Definition sourceOrder : list metric := [CPU; Memory; Disk].

(** The message a single metric contributes, if any. *)
Definition message (s : MetricSample) (k : metric) : list string :=
  match k with
  | CPU =>
      if gt (cpuUsagePercent s) f95 then ["CPU usage is critical (>95%)"]
      else if gt (cpuUsagePercent s) f80 then ["CPU usage is high (>80%)"]
      else []
  | Memory =>
      if gt (memoryUsagePercent s) f95 then ["Memory usage is critical (>95%)"]
      else if gt (memoryUsagePercent s) f85 then ["Memory usage is high (>85%)"]
      else []
  | Disk =>
      if gt (diskUsagePercent s) f95 then ["Disk usage is critical (>95%)"]
      else if gt (diskUsagePercent s) f85 then ["Disk usage is high (>85%)"]
      else []
  end.

(** *** The invariant of the specification, in its own words

    "status is the maximum severity (critical > warning > healthy) implied by
    any individual metric". *)

Definition rank (st : string) : nat :=
  if String.eqb st statusCritical then 2
  else if String.eqb st statusWarning then 1
  else 0.

Definition maxSeverity (a b : string) : string :=
  if Nat.ltb (rank a) (rank b) then b else a.

Definition warnThreshold (k : metric) : float64 :=
  match k with CPU => f80 | Memory => f85 | Disk => f85 end.

Definition criticalThreshold (k : metric) : float64 :=
  match k with CPU => f95 | Memory => f95 | Disk => f95 end.

Definition reading (s : MetricSample) (k : metric) : float64 :=
  match k with
  | CPU => cpuUsagePercent s
  | Memory => memoryUsagePercent s
  | Disk => diskUsagePercent s
  end.

(** The severity one metric implies against its own thresholds. *)
Definition severity (s : MetricSample) (k : metric) : string :=
  if gt (reading s k) (criticalThreshold k) then statusCritical
  else if gt (reading s k) (warnThreshold k) then statusWarning
  else statusHealthy.

Definition spec_status (s : MetricSample) : string :=
  maxSeverity (severity s CPU) (maxSeverity (severity s Memory) (severity s Disk)).

(** The running status after the checks of [order], started from status
    [st]: each check raises the status to the severity its metric implies. *)
Definition statusAfter (s : MetricSample) (order : list metric) (st : string) : string :=
  fold_left (fun acc k => maxSeverity acc (severity s k)) order st.

(** ** internal/config: Config and Validate *)

(** Temperature unit constants. *)
Definition UnitCelsius : string := "celsius".
Definition UnitFahrenheit : string := "fahrenheit".
Definition UnitKelvin : string := "kelvin".

(** Config holds the server configuration from CLI args. *)
Record Config : Type := mkConfig {
  TempUnit : string;
  MaxProcesses : Z;
  MountPoints : list string;
  Interfaces : list string;
  EnableGPU : bool;
  MountPointsStr : string;
  InterfacesStr : string
}.

(** Go's [error]: [None] is [nil]. *)
Definition error : Type := option string.

(** The functions of Go's [strings] package that the repository calls.
    They are library code: the embedding takes them as parameters. *)
Record StringsPkg : Type := mkStringsPkg {
  ToLower : string -> string;
  Split : string -> string -> list string;
  TrimSpace : string -> string
}.

Section ConfigValidate.

Variable strings : StringsPkg.

(** SplitAndTrim splits a comma-separated string and trims whitespace. *)
Definition SplitAndTrim (s : string) : list string :=
  let parts := Split strings s "," in
  fold_left
    (fun result part =>
       let trimmed := TrimSpace strings part in
       if string_neq trimmed "" then append result trimmed else result)
    parts [].

(** A configuration whose temperature unit Validate accepts. *)
Definition validTempUnit (c : Config) : Prop :=
  In (ToLower strings (TempUnit c)) [UnitCelsius; UnitFahrenheit; UnitKelvin].

(** Validate checks the configuration and parses string lists.  The
    receiver is updated in place: the result is the configuration after
    the call, paired with the returned error. *)
Definition Validate (c : Config) : Config * error :=
  let unit := ToLower strings (TempUnit c) in
  let c1 := mkConfig unit (MaxProcesses c) (MountPoints c) (Interfaces c)
                     (EnableGPU c) (MountPointsStr c) (InterfacesStr c) in
  if string_neq unit UnitCelsius && string_neq unit UnitFahrenheit
     && string_neq unit UnitKelvin
  then
    (c1, Some ("invalid temp-unit: " ++ unit
               ++ " (must be celsius, fahrenheit, or kelvin)")%string)
  else
    let mp1 := if (MaxProcesses c1 <? 1)%Z then 10 else MaxProcesses c1 in
    let mp2 := if (mp1 >? 50)%Z then 50 else mp1 in
    let mounts := if string_neq (MountPointsStr c1) ""
                  then SplitAndTrim (MountPointsStr c1) else MountPoints c1 in
    let ifaces := if string_neq (InterfacesStr c1) ""
                  then SplitAndTrim (InterfacesStr c1) else Interfaces c1 in
    (mkConfig unit mp2 mounts ifaces (EnableGPU c1)
              (MountPointsStr c1) (InterfacesStr c1), None).

End ConfigValidate.

(** An ASCII instance of the [strings] functions, to run the model on the
    inputs of the repository's tests (which are ASCII). *)
Module AsciiStrings.

Definition lowerChar (c : ascii) : ascii :=
  let n := nat_of_ascii c in
  if (Nat.leb 65 n && Nat.leb n 90)%bool then ascii_of_nat (n + 32) else c.

Fixpoint toLower (s : string) : string :=
  match s with
  | EmptyString => EmptyString
  | String c r => String (lowerChar c) (toLower r)
  end.

(** Split on a one-character separator. *)
Fixpoint splitChar (sep : ascii) (s : string) : list string :=
  match s with
  | EmptyString => [EmptyString]
  | String c r =>
      if Ascii.eqb c sep then EmptyString :: splitChar sep r
      else match splitChar sep r with
           | p :: ps => String c p :: ps
           | [] => [String c EmptyString]
           end
  end.

Definition split (s sep : string) : list string :=
  match sep with
  | String c EmptyString => splitChar c s
  | _ => [s]
  end.

Definition isSpace (c : ascii) : bool :=
  let n := nat_of_ascii c in
  (Nat.eqb n 32 || (Nat.leb 9 n && Nat.leb n 13))%bool.

Fixpoint trimLeft (s : string) : string :=
  match s with
  | String c r => if isSpace c then trimLeft r else s
  | EmptyString => EmptyString
  end.

Fixpoint trimRight (s : string) : string :=
  match s with
  | EmptyString => EmptyString
  | String c r =>
      match trimRight r with
      | EmptyString => if isSpace c then EmptyString else String c EmptyString
      | r' => String c r'
      end
  end.

Definition trimSpace (s : string) : string := trimRight (trimLeft s).

Definition pkg : StringsPkg := mkStringsPkg toLower split trimSpace.

End AsciiStrings.

(** ** HandleGetProcessList: the limit argument and the truncation of the
       sorted list *)

(** Go's [int], at its width on the 64-bit platforms (amd64, arm64). *)
Definition MinInt : Z := - 2 ^ 63.
Definition MaxInt : Z := 2 ^ 63 - 1.

(** A dynamically typed argument value ([interface{}]) as [encoding/json]
    decodes it: every JSON number arrives as a [float64]. *)
Inductive any : Type :=
| AFloat (f : float64)
| AString (s : string)
| ABool (b : bool)
| ANil
| AOther.   (* arrays and objects *)

(** [request.Params.Arguments.(map[string]interface{})]: the lookup of a
    key, [None] when the key is absent. *)
Definition Arguments : Type := string -> option any.

Record procInfo : Type := mkProcInfo {
  PID : Z;
  Name : string;
  CPUPercent : float64;
  MemoryPercent : spec_float;   (* float32 in the source *)
  RSS : Z;
  Status : list string;
  CreateTime : Z
}.

(** The [result] map of the handler, before it is serialized. *)
Record processListResult : Type := mkProcessListResult {
  processes : list procInfo;
  total : Z;
  shown : Z;
  sort_by : string
}.

(** What a call of the handler can do: build its result, return a tool
    error, or panic at run time. *)
Inductive outcome (A : Type) : Type :=
| Result (a : A)
| ToolError (msg : string)
| Panic.
Arguments Result {A} a.
Arguments ToolError {A} msg.
Arguments Panic {A}.

(** *** The last step of a handler: json.Marshal

    The result maps of the handlers hold strings, booleans, integers,
    floats, and slices, maps and structs of these.  Among such values
    [json.Marshal] refuses exactly the floats (float64 or float32) that are
    NaN or infinite, with an UnsupportedValueError for the first one the
    encoder meets; it writes the keys of a map in sorted order, the fields of
    a struct in declaration order and the elements of a slice in order.
    The results of the network, disk I/O, connection and service handlers
    hold no float, so that these handlers return their result as it is. *)
Definition unsupportedValue (f : spec_float) : bool :=
  match f with
  | S754_nan | S754_infinity _ => true
  | S754_zero _ | S754_finite _ _ _ => false
  end.

(** [encoding/json]: the text of the UnsupportedValueError for a float (what
    [%v] prints of the error). *)
Record JsonPkg : Type := mkJsonPkg {
  UnsupportedValueError : spec_float -> string
}.

(** [jsonBytes, err := json.Marshal(result)], the tool error when [err] is
    not nil, the text result otherwise.  [floats] are the floats of the
    result in the order of the encoder; [Result result] stands for the text
    that encodes [result]. *)
Definition marshalResult {A : Type} (json : JsonPkg) (floats : list spec_float)
           (result : A) : outcome A :=
  match find unsupportedValue floats with
  | Some f => ToolError ("Failed to marshal result: " ++ UnsupportedValueError json f)%string
  | None => Result result
  end.

(** The error texts of Go's encoding/json. *)
Module EncodingJson.

Definition unsupportedValueError (f : spec_float) : string :=
  ("json: unsupported value: "
   ++ match f with
      | S754_nan => "NaN"
      | S754_infinity false => "+Inf"
      | S754_infinity true => "-Inf"
      | _ => ""
      end)%string.

Definition pkg : JsonPkg := mkJsonPkg unsupportedValueError.

End EncodingJson.

(** [process.MemoryInfoStat], with the field the handler reads. *)
Record MemoryInfoStat : Type := mkMemoryInfoStat {
  memoryInfoRSS : Z
}.

(** A [*process.Process] with what its six queries deliver.  The handler
    discards the error of each query and uses the value returned with it;
    [MemoryInfo] returns a pointer, which is nil ([None]) when the query
    fails. *)
Record Process : Type := mkProcess {
  Pid : Z;
  process_Name : string;
  process_CPUPercent : float64;
  process_MemoryPercent : spec_float;   (* float32 *)
  process_MemoryInfo : option MemoryInfoStat;
  process_Status : list string;
  process_CreateTime : Z   (* milliseconds *)
}.

(** [sort.Slice]: reorders the slice in place by swaps, so the result is a
    permutation of the input whatever the comparison function is (the sort
    is not stable, so the order among equal elements is not fixed). *)
Record SortSlice : Type := mkSortSlice {
  sortWith :> (procInfo -> procInfo -> bool) -> list procInfo -> list procInfo;
  sortWith_perm : forall less l, Permutation l (sortWith less l)
}.

(** [s[:n]] for [n <= len(s)]: a negative bound panics. *)
Definition sliceTo {A : Type} (l : list A) (n : Z) : option (list A) :=
  if (n <? 0)%Z then None else Some (firstn (Z.to_nat n) l).

Section ProcessList.

Variable strings : StringsPkg.
Variable sortSlice : SortSlice.
Variable json : JsonPkg.

(** The conversion [int(l)] of a [float64].  The Go specification fixes
    the result (the value truncated toward zero) only when it fits the
    integer type; otherwise the conversion succeeds with an
    implementation-dependent value, given here by [unrepresentable]. *)
Variable unrepresentable : float64 -> Z.

Definition int_of_float64 (l : float64) : Z :=
  match trunc l with
  | Some z => if ((MinInt <=? z) && (z <=? MaxInt))%Z then z else unrepresentable l
  | None => unrepresentable l
  end.

Definition zero : float64 := S754_zero false.

(** [limit := h.cfg.MaxProcesses], overridden by a positive numeric
    "limit" argument, capped at 50. *)
Definition requestLimit (cfg : Config) (arguments : option Arguments) : Z :=
  match arguments with
  | Some args =>
      match args "limit" with
      | Some (AFloat l) =>
          if gt l zero then
            let limit := int_of_float64 l in
            if (limit >? 50)%Z then 50 else limit
          else MaxProcesses cfg
      | _ => MaxProcesses cfg
      end
  | None => MaxProcesses cfg
  end.

(** [sortBy := "cpu"], overridden by a non-empty string "sort_by"
    argument, lower-cased. *)
Definition requestSortBy (arguments : option Arguments) : string :=
  match arguments with
  | Some args =>
      match args "sort_by" with
      | Some (AString s) => if string_neq s "" then ToLower strings s else "cpu"
      | _ => "cpu"
      end
  | None => "cpu"
  end.

(** The [switch sortBy] block. *)
Definition sortProcesses (sortBy : string) (procList : list procInfo) : list procInfo :=
  if String.eqb sortBy "memory" then
    sortSlice (fun a b => SFltb (MemoryPercent b) (MemoryPercent a)) procList
  else if String.eqb sortBy "pid" then
    sortSlice (fun a b => (PID a <? PID b)%Z) procList
  else
    sortSlice (fun a b => gt (CPUPercent a) (CPUPercent b)) procList.

(** The struct literal of the loop body; [memInfo] is the target of the
    pointer.  [createTime / 1000] is Go's integer division, which truncates
    toward zero. *)
Definition procInfoOf (p : Process) (memInfo : MemoryInfoStat) : procInfo :=
  mkProcInfo (Pid p) (process_Name p) (process_CPUPercent p) (process_MemoryPercent p)
             (memoryInfoRSS memInfo) (process_Status p)
             (Z.quot (process_CreateTime p) 1000).

(** The loop [for _, p := range processes] from the [procList] built so
    far: [memInfo.RSS] dereferences a nil pointer, a run-time panic
    ([None]), at the first process whose [MemoryInfo] failed. *)
Fixpoint gatherProcesses (procList : list procInfo) (processes : list Process)
  : option (list procInfo) :=
  match processes with
  | [] => Some procList
  | p :: rest =>
      match process_MemoryInfo p with
      | None => None
      | Some memInfo => gatherProcesses (procList ++ [procInfoOf p memInfo]) rest
      end
  end.

(** The floats of the result in the order of the encoder: for each process
    shown, cpu_percent and then memory_percent. *)
Definition processListFloats (procList : list procInfo) : list spec_float :=
  flat_map (fun p => [CPUPercent p; MemoryPercent p]) procList.

(** The handler.  [listed] is what [process.Processes()] returns: an error,
    or the processes. *)
Definition HandleGetProcessList (cfg : Config) (arguments : option Arguments)
           (listed : string + list Process) : outcome processListResult :=
  let limit := requestLimit cfg arguments in
  let sortBy := requestSortBy arguments in
  match listed with
  | inl err => ToolError ("Failed to get processes: " ++ err)%string
  | inr processes =>
      match gatherProcesses [] processes with
      | None => Panic
      | Some gathered =>
          let procList := sortProcesses sortBy gathered in
          let len := Z.of_nat (List.length procList) in
          let limited := if (len >? limit)%Z then sliceTo procList limit
                         else Some procList in
          match limited with
          | None => Panic
          | Some procList' =>
              marshalResult json (processListFloats procList')
                (mkProcessListResult procList'
                   (Z.of_nat (List.length processes))
                   (Z.of_nat (List.length procList'))
                   sortBy)
          end
      end
  end.

End ProcessList.

(** An insertion sort as an instance of [sort.Slice], to run the model. *)
Module InsertionSort.

Fixpoint insert (less : procInfo -> procInfo -> bool) (x : procInfo)
         (l : list procInfo) : list procInfo :=
  match l with
  | [] => [x]
  | y :: r => if less y x then y :: insert less x r else x :: l
  end.

Fixpoint sort (less : procInfo -> procInfo -> bool) (l : list procInfo) : list procInfo :=
  match l with
  | [] => []
  | x :: r => insert less x (sort less r)
  end.

Lemma insert_perm less x l : Permutation (x :: l) (insert less x l).
Proof.
  induction l as [|y r IH]; simpl; [reflexivity|].
  destruct (less y x); [|reflexivity].
  rewrite perm_swap. now apply perm_skip.
Qed.

Lemma sort_perm less l : Permutation l (sort less l).
Proof.
  induction l as [|x r IH]; simpl; [constructor|].
  rewrite <- insert_perm. now apply perm_skip.
Qed.

Definition slice : SortSlice := mkSortSlice sort sort_perm.

End InsertionSort.

(** Two implementations of the out-of-range conversion.  The x86-64
    conversion instruction (CVTTSD2SI), which compiled Go code has used on
    amd64, yields the "integer indefinite" value, the minimum integer, for
    every unrepresentable operand; the 64-bit ARM instruction (FCVTZS)
    saturates and maps NaN to zero. *)
Definition indefinite_x86_64 (l : float64) : Z := MinInt.

Definition saturate_arm64 (l : float64) : Z :=
  match l with
  | S754_nan => 0
  | S754_infinity s | S754_finite s _ _ | S754_zero s => if s then MinInt else MaxInt
  end.

(** ** HandleGetSystemHealth: from the gopsutil calls to the result map *)

Record AvgStat : Type := mkAvgStat {
  Load1 : float64;
  Load5 : float64;
  Load15 : float64
}.

Record VirtualMemoryStat : Type := mkVirtualMemoryStat {
  memUsedPercent : float64;
  memAvailable : Z;
  memTotal : Z
}.

Record UsageStat : Type := mkUsageStat {
  diskUsedPercent : float64;
  diskFree : Z;
  diskTotal : Z
}.

Record InfoStat : Type := mkInfoStat {
  Uptime : Z;
  Hostname : string
}.

(** What the five library calls of the handler deliver; [inl] is a non-nil
    error. *)
Record Providers : Type := mkProviders {
  cpu_Percent : string + list float64;
  load_Avg : string + AvgStat;
  mem_VirtualMemory : string + VirtualMemoryStat;
  disk_Usage : string + UsageStat;
  host_Info : string + InfoStat
}.

(** The nested maps of [result]. *)
Record cpuSection : Type := mkCpuSection {
  cpu_usage_percent : float64;
  load_1m : float64;
  load_5m : float64;
  load_15m : float64
}.

Record memorySection : Type := mkMemorySection {
  memory_usage_percent : float64;
  available_bytes : Z;
  available_human : string;
  memory_total_human : string
}.

Record diskSection : Type := mkDiskSection {
  mount_point : string;
  disk_usage_percent : float64;
  free_bytes : Z;
  free_human : string;
  disk_total_human : string
}.

Record uptimeSection : Type := mkUptimeSection {
  seconds : Z;
  human : string
}.

Record healthResult : Type := mkHealthResult {
  result_status : string;
  result_warnings : list string;
  result_cpu : cpuSection;
  result_memory : memorySection;
  result_disk : diskSection;
  result_uptime : uptimeSection;
  result_hostname : string
}.

(** Signed 64-bit wrap-around, as in [time.Duration(info.Uptime) * time.Second]. *)
Definition wrap64 (z : Z) : Z := (z + 2 ^ 63) mod 2 ^ 64 - 2 ^ 63.

Section SystemHealth.

(** The two formatters the result uses: [config.BytesToHuman] and
    [time.Duration.String]. *)
Variable BytesToHuman : Z -> string.
Variable DurationString : Z -> string.
Variable json : JsonPkg.

(** The floats of the result in the order of the encoder: the keys "cpu",
    "disk", "memory" of the result, and "load_15m", "load_1m", "load_5m",
    "usage_percent" inside "cpu". *)
Definition healthFloats (r : healthResult) : list spec_float :=
  [load_15m (result_cpu r); load_1m (result_cpu r); load_5m (result_cpu r);
   cpu_usage_percent (result_cpu r); disk_usage_percent (result_disk r);
   memory_usage_percent (result_memory r)].

(** The handler.  Neither the configuration nor the request is read. *)
Definition HandleGetSystemHealth (cfg : Config) (arguments : option Arguments)
           (p : Providers) : outcome healthResult :=
  let cpuPercent := match cpu_Percent p with
                    | inl _ => [S754_zero false]
                    | inr l => l
                    end in
  match cpuPercent with
  | [] => Panic   (* cpuPercent[0] on an empty slice *)
  | cpuUsage :: _ =>
      let loadAvg := match load_Avg p with
                     | inl _ => mkAvgStat (S754_zero false) (S754_zero false)
                                          (S754_zero false)
                     | inr a => a
                     end in
      match mem_VirtualMemory p with
      | inl err => ToolError ("Failed to get memory info: " ++ err)%string
      | inr memInfo =>
          match disk_Usage p with
          | inl err => ToolError ("Failed to get root disk info: " ++ err)%string
          | inr rootDisk =>
              match host_Info p with
              | inl err => ToolError ("Failed to get system info: " ++ err)%string
              | inr info =>
                  let uptime := wrap64 (wrap64 (Uptime info) * 1000000000) in
                  let v := classify cpuUsage (memUsedPercent memInfo)
                                    (diskUsedPercent rootDisk) in
                  let result :=
                    mkHealthResult (status v) (warnings v)
                       (mkCpuSection cpuUsage (Load1 loadAvg) (Load5 loadAvg)
                                     (Load15 loadAvg))
                       (mkMemorySection (memUsedPercent memInfo) (memAvailable memInfo)
                                        (BytesToHuman (memAvailable memInfo))
                                        (BytesToHuman (memTotal memInfo)))
                       (mkDiskSection "/" (diskUsedPercent rootDisk) (diskFree rootDisk)
                                      (BytesToHuman (diskFree rootDisk))
                                      (BytesToHuman (diskTotal rootDisk)))
                       (mkUptimeSection (Uptime info) (DurationString uptime))
                       (Hostname info) in
                  marshalResult json (healthFloats result) result
              end
          end
      end
  end.

End SystemHealth.

(** Inputs on which the handlers are run below. *)
Definition quietProviders : Providers :=
  mkProviders (inr [of_int 12])
              (inr (mkAvgStat (of_ratio 1 2) (of_ratio 1 4) (S754_zero false)))
              (inr (mkVirtualMemoryStat (of_int 91) 1024 8192))
              (inr (mkUsageStat (of_int (-1)) 0 0))
              (inr (mkInfoStat 3600 "pi")).

Definition limitArguments (l : float64) : Arguments :=
  fun key => if String.eqb key "limit" then Some (AFloat l) else None.

Definition defaultConfig : Config := mkConfig "celsius" 10 [] [] true "" "".

Definition threeProcesses : list Process :=
  [ mkProcess 1 "init" (of_int 5) (of_int 1) (Some (mkMemoryInfoStat 4096)) ["S"]
              1700000000123;
    mkProcess 7 "sshd" (of_int 7) (of_int 2) (Some (mkMemoryInfoStat 8192)) ["S"]
              1700000001456;
    mkProcess 9 "go" (of_int 1) (of_int 3) (Some (mkMemoryInfoStat 16384)) ["R"]
              1700000002789 ].

(** The same processes when the second one exits while it is queried: its
    [MemoryInfo] fails. *)
Definition oneProcessGone : list Process :=
  [ mkProcess 1 "init" (of_int 5) (of_int 1) (Some (mkMemoryInfoStat 4096)) ["S"]
              1700000000123;
    mkProcess 7 "" (S754_zero false) (S754_zero false) None [""] 0;
    mkProcess 9 "go" (of_int 1) (of_int 3) (Some (mkMemoryInfoStat 16384)) ["R"]
              1700000002789 ].

(** And when the CPU usage of the last one is reported as NaN. *)
Definition oneProcessNaN : list Process :=
  [ mkProcess 1 "init" (of_int 5) (of_int 1) (Some (mkMemoryInfoStat 4096)) ["S"]
              1700000000123;
    mkProcess 7 "sshd" (of_int 7) (of_int 2) (Some (mkMemoryInfoStat 8192)) ["S"]
              1700000001456;
    mkProcess 9 "go" S754_nan (of_int 3) (Some (mkMemoryInfoStat 16384)) ["R"]
              1700000002789 ].

(** ** More of internal/config: the unit conversion, the Raspberry Pi
       probes and BytesToHuman *)

(** The functions of Go's [strconv] package that the repository calls;
    [None] is a non-nil error. *)
Record StrconvPkg : Type := mkStrconvPkg {
  ParseFloat : string -> option float64;      (* ParseFloat(s, 64) *)
  ParseUint : string -> Z -> Z -> option Z    (* ParseUint(s, base, bitSize) *)
}.

(** [strings.HasPrefix], [TrimPrefix], [HasSuffix] and [Index] compare
    bytes, so they are written out. *)
Definition HasPrefix (s pre : string) : bool := String.prefix pre s.

Definition TrimPrefix (s pre : string) : string :=
  if HasPrefix s pre
  then substring (String.length pre) (String.length s - String.length pre) s
  else s.

Definition HasSuffix (s suf : string) : bool :=
  (Nat.leb (String.length suf) (String.length s)
   && String.eqb (substring (String.length s - String.length suf)
                            (String.length suf) s) suf)%bool.

Definition Index (s substr : string) : Z :=
  match String.index 0 substr s with
  | Some n => Z.of_nat n
  | None => -1
  end.

(** A [map[string]V] with few keys: an association list with at most one
    entry per key. *)
Definition mapGet {V : Type} (m : list (string * V)) (key : string) : option V :=
  match find (fun kv => String.eqb (fst kv) key) m with
  | Some kv => Some (snd kv)
  | None => None
  end.

Definition mapSet {V : Type} (m : list (string * V)) (key : string) (v : V)
  : list (string * V) :=
  filter (fun kv => string_neq (fst kv) key) m ++ [(key, v)].

Definition f9 : float64 := Eval vm_compute in of_int 9.
Definition f5 : float64 := Eval vm_compute in of_int 5.
Definition f32 : float64 := Eval vm_compute in of_int 32.
Definition f1000 : float64 := Eval vm_compute in of_int 1000.
Definition f273_15 : float64 := Eval vm_compute in of_ratio 27315 100.

(** ConvertTemperature converts Celsius to the requested unit. *)
Definition ConvertTemperature (strings : StringsPkg) (celsius : float64) (unit : string)
  : list (string * float64) :=
  let result := [(UnitCelsius, celsius)] in
  let u := ToLower strings unit in
  if String.eqb u UnitFahrenheit then
    mapSet result UnitFahrenheit
           (SFadd prec emax (SFdiv prec emax (SFmul prec emax celsius f9) f5) f32)
  else if String.eqb u UnitKelvin then
    mapSet result UnitKelvin (SFadd prec emax celsius f273_15)
  else result.

Definition thermalZonePaths : list string :=
  ["/sys/class/thermal/thermal_zone0/temp"; "/sys/class/thermal/thermal_zone1/temp"].

(** The loop of GetRaspberryPiTemp over the remaining [paths];
    [ReadFile path] is [inl] when [os.ReadFile] fails. *)
Fixpoint readFirstTemp (strconv : StrconvPkg) (strings : StringsPkg)
         (ReadFile : string -> string + string) (paths : list string)
  : float64 * bool :=
  match paths with
  | [] => (S754_zero false, false)
  | path :: rest =>
      match ReadFile path with
      | inr data =>
          match ParseFloat strconv (TrimSpace strings data) with
          | Some tempMilli => (SFdiv prec emax tempMilli f1000, true)
          | None => readFirstTemp strconv strings ReadFile rest
          end
      | inl _ => readFirstTemp strconv strings ReadFile rest
      end
  end.

(** GetRaspberryPiTemp reads CPU temperature from Pi thermal zone. *)
Definition GetRaspberryPiTemp (strconv : StrconvPkg) (strings : StringsPkg)
           (ReadFile : string -> string + string) : float64 * bool :=
  readFirstTemp strconv strings ReadFile thermalZonePaths.

(** GetRaspberryPiGPUTemp; [output] is what [vcgencmd measure_temp]
    printed, or [inl] when the command failed. *)
Definition GetRaspberryPiGPUTemp (strconv : StrconvPkg) (output : string + string)
  : float64 * bool :=
  match output with
  | inl _ => (S754_zero false, false)
  | inr outputStr =>
      if HasPrefix outputStr "temp=" then
        let start := 5 in
        let end_ := Index outputStr "'C" in
        if (end_ >? start)%Z then
          let tempStr := substring (Z.to_nat start) (Z.to_nat end_ - Z.to_nat start)
                                   outputStr in
          match ParseFloat strconv tempStr with
          | Some temp => (temp, true)
          | None => (S754_zero false, false)
          end
        else (S754_zero false, false)
      else (S754_zero false, false)
  end.

(** The map GetThrottledStatus returns. *)
Record throttledStatus : Type := mkThrottledStatus {
  under_voltage_now : bool;
  arm_frequency_capped : bool;
  currently_throttled : bool;
  soft_temp_limit_active : bool;
  under_voltage_occurred : bool;
  freq_capped_occurred : bool;
  throttling_occurred : bool;
  soft_temp_occurred : bool;
  raw_value : string
}.

(** [value&mask != 0] *)
Definition flagSet (value mask : Z) : bool := negb (Z.land value mask =? 0)%Z.

(** The flags of a parsed value. *)
Definition decodeThrottled (value : Z) (hexStr : string) : throttledStatus :=
  mkThrottledStatus
    (flagSet value 1) (flagSet value 2) (flagSet value 4) (flagSet value 8)
    (flagSet value 65536) (flagSet value 131072) (flagSet value 262144)
    (flagSet value 524288) hexStr.

(** GetThrottledStatus; [output] is what [vcgencmd get_throttled] printed,
    or [inl] when the command failed.  [None] is the [(nil, false)] return. *)
Definition GetThrottledStatus (strconv : StrconvPkg) (strings : StringsPkg)
           (output : string + string) : option throttledStatus :=
  match output with
  | inl _ => None
  | inr out =>
      let outputStr := TrimSpace strings out in
      if negb (HasPrefix outputStr "throttled=0x") then None
      else
        let hexStr := TrimPrefix outputStr "throttled=0x" in
        match ParseUint strconv hexStr 16 32 with
        | None => None
        | Some value => Some (decodeThrottled value hexStr)
        end
  end.

(** The two [fmt.Sprintf] verbs BytesToHuman uses. *)
Record FmtPkg : Type := mkFmtPkg {
  sprintf_d : Z -> string;          (* "%d" *)
  sprintf_1f : float64 -> string    (* "%.1f" *)
}.

(** [uint64] arithmetic wraps around. *)
Definition uint64_wrap (z : Z) : Z := z mod 2 ^ 64.

(** The loop [for n := bytes / unit; n >= unit; n /= unit { div *= unit; exp++ }]
    from the state [(n, div, exp)]; [None] when [fuel] iterations do not
    reach the exit. *)
Fixpoint unitLoop (fuel : nat) (n div : Z) (exp : nat) : option (Z * nat) :=
  if (n >=? 1024)%Z then
    match fuel with
    | O => None
    | S fuel' => unitLoop fuel' (n / 1024) (uint64_wrap (div * 1024)) (S exp)
    end
  else Some (div, exp).

(** BytesToHuman converts bytes to human-readable format.  [None] stands
    for a call that returns no string: the loop outliving its fuel, or the
    index expression ["KMGTPE"[exp]] out of range. *)
Definition BytesToHuman (fmt : FmtPkg) (bytes : Z) : option string :=
  if (bytes <? 1024)%Z then Some (sprintf_d fmt bytes ++ " B")%string
  else
    match unitLoop 64 (bytes / 1024) 1024 0 with
    | None => None
    | Some (div, exp) =>
        match String.get exp "KMGTPE" with
        | None => None
        | Some c =>
            Some (sprintf_1f fmt (SFdiv prec emax (of_int bytes) (of_int div))
                  ++ " " ++ String c "B")%string
        end
    end.

(** ** The other handlers of internal/handlers *)

(** [if s, ok := args[key].(string); ok && s != ""]: the non-empty string
    argument [key], if the request carries one. *)
Definition stringArg (arguments : option Arguments) (key : string) : option string :=
  match arguments with
  | Some args =>
      match args key with
      | Some (AString s) => if string_neq s "" then Some s else None
      | _ => None
      end
  | None => None
  end.

(** [if b, ok := args[key].(bool); ok] *)
Definition boolArg (arguments : option Arguments) (key : string) : option bool :=
  match arguments with
  | Some args =>
      match args key with
      | Some (ABool b) => Some b
      | _ => None
      end
  | None => None
  end.

(** contains checks if a string slice contains a value. *)
Fixpoint contains (slice : list string) (item : string) : bool :=
  match slice with
  | [] => false
  | s :: rest => if String.eqb s item then true else contains rest item
  end.

(** A [for ... range] loop that builds a slice: on each element the body
    either appends one entry ([Some]) or skips it with [continue] ([None]). *)
Definition forEach {A B : Type} (l : list A) (body : A -> option B) : list B :=
  fold_left (fun acc x => match body x with
                          | Some y => acc ++ [y]
                          | None => acc
                          end) l [].

(** *** HandleGetDiskMetrics *)

Record PartitionStat : Type := mkPartitionStat {
  Mountpoint : string;
  Fstype : string
}.

(** [disk.UsageStat], with the fields this handler reads. *)
Record DiskUsageStat : Type := mkDiskUsageStat {
  usageTotal : Z;
  usageUsed : Z;
  usageFree : Z;
  usageUsedPercent : float64;
  usageFstype : string
}.

Record diskInfo : Type := mkDiskInfo {
  di_mount_point : string;
  di_total_bytes : Z;
  di_used_bytes : Z;
  di_free_bytes : Z;
  di_usage_percent : float64;
  di_fstype : string;
  di_total_human : option string;
  di_used_human : option string;
  di_free_human : option string
}.

Definition isSpecialFilesystem (fstype : string) : bool :=
  (String.eqb fstype "tmpfs" || String.eqb fstype "devtmpfs"
   || String.eqb fstype "squashfs")%bool.

(** *** HandleGetNetworkMetrics *)

Record IOCountersStat : Type := mkIOCountersStat {
  ioName : string;
  BytesSent : Z;
  BytesRecv : Z;
  PacketsSent : Z;
  PacketsRecv : Z;
  Errin : Z;
  Errout : Z;
  Dropin : Z;
  Dropout : Z
}.

Record InterfaceStat : Type := mkInterfaceStat {
  ifName : string;
  Addrs : list string
}.

Record netInfo : Type := mkNetInfo {
  ni_interface : string;
  ni_counters : IOCountersStat;
  ni_ip_addresses : list string
}.

(** *** HandleGetDiskIOMetrics *)

Record DiskIOCountersStat : Type := mkDiskIOCountersStat {
  ReadCount : Z;
  WriteCount : Z;
  ReadBytes : Z;
  WriteBytes : Z;
  ReadTime : Z;
  WriteTime : Z;
  IoTime : Z;
  WeightedIO : Z;
  IopsInProgress : Z
}.

Record diskIOInfo : Type := mkDiskIOInfo {
  dio_device : string;
  dio_counters : DiskIOCountersStat;
  dio_read_human : string;
  dio_write_human : string
}.

Record diskIOResult : Type := mkDiskIOResult {
  dio_devices : list diskIOInfo;
  dio_total : Z
}.

(** *** HandleGetNetworkConnections *)

Definition kindTCP : string := "tcp".
Definition kindUDP : string := "udp".
Definition kindAll : string := "all".

Record Addr : Type := mkAddr {
  IP : string;
  Port : Z
}.

Record ConnectionStat : Type := mkConnectionStat {
  connType : Z;
  connStatus : string;
  Laddr : Addr;
  Raddr : Addr;
  connPid : Z
}.

Record connInfo : Type := mkConnInfo {
  ci_type : string;
  ci_status : string;
  ci_local_addr : string;
  ci_pid : Z;
  ci_remote_addr : string
}.

Record connectionsResult : Type := mkConnectionsResult {
  cr_connections : list connInfo;
  cr_total : Z;
  cr_kind : string;
  cr_status_filter : option string
}.

(** *** HandleGetServiceStatus *)

Record serviceInfo : Type := mkServiceInfo {
  svc_name : string;
  svc_available : bool;
  svc_error : option string;
  svc_load_state : option string;
  svc_active_state : option string;
  svc_sub_state : option string;
  svc_description : option string;
  svc_main_pid : option string
}.

Record serviceResult : Type := mkServiceResult {
  sr_services : list serviceInfo;
  sr_total : Z
}.

(** [strings.SplitN(line, "=", 2)]: [None] when the result has one element
    (no separator), else the text before and after the first separator. *)
Fixpoint splitAtFirst (sep : ascii) (line : string) : option (string * string) :=
  match line with
  | EmptyString => None
  | String c rest =>
      if Ascii.eqb c sep then Some (EmptyString, rest)
      else match splitAtFirst sep rest with
           | Some (before, after) => Some (String c before, after)
           | None => None
           end
  end.

(** *** HandleGetThermalStatus *)

Record cpuTemperature : Type := mkCpuTemperature {
  ct_available : bool;
  ct_celsius : float64;
  ct_converted : list (string * float64);
  ct_unit : string
}.

Record gpuTemperature : Type := mkGpuTemperature {
  gt_available : bool;
  gt_celsius : option float64;
  gt_converted : option (list (string * float64))
}.

Record throttling : Type := mkThrottling {
  th_available : bool;
  th_status : option throttledStatus
}.

Record thermalResult : Type := mkThermalResult {
  tr_cpu_temperature : cpuTemperature;
  tr_gpu_temperature : gpuTemperature;
  tr_throttling : throttling;
  tr_platform : string
}.

(** What the handlers read from the host: the gopsutil calls, the files
    and the commands.  [inl] is a non-nil error. *)
Record Host : Type := mkHost {
  disk_Partitions : string + list PartitionStat;
  disk_UsageOf : string -> string + DiskUsageStat;
  net_IOCounters : string + list IOCountersStat;
  net_Interfaces : string + list InterfaceStat;
  disk_IOCounters : string + list (string * DiskIOCountersStat);
  net_Connections : string -> string + list ConnectionStat;
  systemctl_show : string -> string + string;
  os_ReadFile : string -> string + string;
  vcgencmd_measure_temp : string + string;
  vcgencmd_get_throttled : string + string
}.

Section Handlers.

Variable strings : StringsPkg.
Variable strconv : StrconvPkg.
Variable fmt : FmtPkg.
(** [strings.ToUpper] *)
Variable ToUpper : string -> string.
(** [config.BytesToHuman], as a function that returns. *)
Variable human : Z -> string.
Variable json : JsonPkg.

(** [mountPoints := h.cfg.MountPoints], overridden by a non-empty
    "mount_points" argument. *)
Definition requestMountPoints (cfg : Config) (arguments : option Arguments)
  : list string :=
  match stringArg arguments "mount_points" with
  | Some mpStr => SplitAndTrim strings mpStr
  | None => MountPoints cfg
  end.

(** [humanReadable := true], overridden by a boolean "human_readable"
    argument. *)
Definition requestHumanReadable (arguments : option Arguments) : bool :=
  match boolArg arguments "human_readable" with
  | Some hr => hr
  | None => true
  end.

(** The mount points the handler queries: the requested ones, or, when
    there are none, those of the partitions that are not special
    filesystems. *)
Definition selectMountPoints (mountPoints : list string) (host : Host)
  : string + list string :=
  if Nat.eqb (List.length mountPoints) 0 then
    match disk_Partitions host with
    | inl err => inl err
    | inr partitions =>
        inr (mountPoints
             ++ forEach partitions
                  (fun p => if isSpecialFilesystem (Fstype p) then None
                            else Some (Mountpoint p)))
    end
  else inr mountPoints.

(** The floats of the result in the order of the encoder: the
    usage_percent of each disk. *)
Definition diskFloats (diskData : list diskInfo) : list spec_float :=
  map di_usage_percent diskData.

Definition HandleGetDiskMetrics (cfg : Config) (arguments : option Arguments)
           (host : Host) : outcome (list diskInfo) :=
  let humanReadable := requestHumanReadable arguments in
  match selectMountPoints (requestMountPoints cfg arguments) host with
  | inl err => ToolError ("Failed to get disk partitions: " ++ err)%string
  | inr mountPoints =>
      let diskData :=
        forEach mountPoints
           (fun mp =>
              match disk_UsageOf host mp with
              | inl _ => None
              | inr usage =>
                  Some (mkDiskInfo mp (usageTotal usage) (usageUsed usage)
                          (usageFree usage) (usageUsedPercent usage)
                          (usageFstype usage)
                          (if humanReadable then Some (human (usageTotal usage)) else None)
                          (if humanReadable then Some (human (usageUsed usage)) else None)
                          (if humanReadable then Some (human (usageFree usage)) else None))
              end) in
      marshalResult json (diskFloats diskData) diskData
  end.

(** [addrMap[iface.Name] = addrs] for every interface, in order. *)
Definition buildAddrMap (interfacesList : list InterfaceStat)
  : list (string * list string) :=
  fold_left (fun addrMap iface =>
               mapSet addrMap (ifName iface) (forEach (Addrs iface) Some))
            interfacesList [].

(** [interfaces := h.cfg.Interfaces], overridden by a non-empty
    "interfaces" argument. *)
Definition requestInterfaces (cfg : Config) (arguments : option Arguments)
  : list string :=
  match stringArg arguments "interfaces" with
  | Some ifStr => SplitAndTrim strings ifStr
  | None => Interfaces cfg
  end.

Definition HandleGetNetworkMetrics (cfg : Config) (arguments : option Arguments)
           (host : Host) : outcome (list netInfo) :=
  let interfaces := requestInterfaces cfg arguments in
  match net_IOCounters host with
  | inl err => ToolError ("Failed to get network stats: " ++ err)%string
  | inr netIO =>
      let interfacesList := match net_Interfaces host with
                            | inl _ => []
                            | inr l => l
                            end in
      let addrMap := buildAddrMap interfacesList in
      Result
        (forEach netIO
           (fun io =>
              if (String.eqb (ioName io) "lo" && negb (contains interfaces "lo"))%bool
              then None
              else if (Nat.ltb 0 (List.length interfaces)
                       && negb (contains interfaces (ioName io)))%bool
              then None
              else Some (mkNetInfo (ioName io) io
                           (match mapGet addrMap (ioName io) with
                            | Some addrs => addrs
                            | None => []
                            end))))
  end.

(** The entries of [ioCounters] come in the order the runtime iterates the
    map, which [disk_IOCounters] fixes. *)
Definition requestDevices (arguments : option Arguments) : list string :=
  match stringArg arguments "devices" with
  | Some devStr => SplitAndTrim strings devStr
  | None => []
  end.

Definition HandleGetDiskIOMetrics (arguments : option Arguments) (host : Host)
  : outcome diskIOResult :=
  let devices := requestDevices arguments in
  match disk_IOCounters host with
  | inl err => ToolError ("Failed to get disk I/O stats: " ++ err)%string
  | inr ioCounters =>
      let diskIOData :=
        forEach ioCounters
          (fun entry =>
             let name := fst entry in
             let io := snd entry in
             if (Nat.ltb 0 (List.length devices) && negb (contains devices name))%bool
             then None
             else Some (mkDiskIOInfo name io (human (ReadBytes io))
                                     (human (WriteBytes io)))) in
      Result (mkDiskIOResult diskIOData (Z.of_nat (List.length diskIOData)))
  end.

(** connTypeToString converts a connection type uint32 to a human-readable
    string. *)
Definition connTypeToString (connType : Z) : string :=
  if (connType =? 1)%Z then kindTCP
  else if (connType =? 2)%Z then kindUDP
  else ("unknown(" ++ sprintf_d fmt connType ++ ")")%string.

(** [fmt.Sprintf("%s:%d", a.IP, a.Port)] *)
Definition formatAddr (a : Addr) : string :=
  (IP a ++ ":" ++ sprintf_d fmt (Port a))%string.

(** The kind the handler passes to [net.Connections]. *)
Definition requestKind (arguments : option Arguments) : string :=
  let kind := match stringArg arguments "kind" with
              | Some k => ToLower strings k
              | None => kindAll
              end in
  if (string_neq kind kindTCP && string_neq kind kindUDP)%bool then kindAll else kind.

Definition requestStatusFilter (arguments : option Arguments) : string :=
  match stringArg arguments "status" with
  | Some s => ToUpper s
  | None => ""
  end.

Definition HandleGetNetworkConnections (arguments : option Arguments) (host : Host)
  : outcome connectionsResult :=
  let kind := requestKind arguments in
  let statusFilter := requestStatusFilter arguments in
  match net_Connections host kind with
  | inl err => ToolError ("Failed to get network connections: " ++ err)%string
  | inr connections =>
      let connData :=
        forEach connections
          (fun c =>
             if (string_neq statusFilter "" && string_neq (connStatus c) statusFilter)%bool
             then None
             else Some (mkConnInfo (connTypeToString (connType c)) (connStatus c)
                          (formatAddr (Laddr c)) (connPid c)
                          (if string_neq (IP (Raddr c)) "" then formatAddr (Raddr c)
                           else ""))) in
      Result (mkConnectionsResult connData (Z.of_nat (List.length connData)) kind
                (if string_neq statusFilter "" then Some statusFilter else None))
  end.

(** The unit name getServiceInfo queries. *)
Definition serviceUnitName (serviceName : string) : string :=
  if negb (HasSuffix serviceName ".service")
  then (serviceName ++ ".service")%string
  else serviceName.

(** One line of the [systemctl show] output, applied to [result]. *)
Definition applyProperty (result : serviceInfo) (line : string) : serviceInfo :=
  match splitAtFirst "=" line with
  | None => result
  | Some (part0, part1) =>
      let key := TrimSpace strings part0 in
      let value := TrimSpace strings part1 in
      let set_load v := mkServiceInfo (svc_name result) (svc_available result)
                          (svc_error result) v (svc_active_state result)
                          (svc_sub_state result) (svc_description result)
                          (svc_main_pid result) in
      let set_active v := mkServiceInfo (svc_name result) (svc_available result)
                            (svc_error result) (svc_load_state result) v
                            (svc_sub_state result) (svc_description result)
                            (svc_main_pid result) in
      let set_sub v := mkServiceInfo (svc_name result) (svc_available result)
                         (svc_error result) (svc_load_state result)
                         (svc_active_state result) v (svc_description result)
                         (svc_main_pid result) in
      let set_description v := mkServiceInfo (svc_name result) (svc_available result)
                                 (svc_error result) (svc_load_state result)
                                 (svc_active_state result) (svc_sub_state result) v
                                 (svc_main_pid result) in
      let set_pid v := mkServiceInfo (svc_name result) (svc_available result)
                         (svc_error result) (svc_load_state result)
                         (svc_active_state result) (svc_sub_state result)
                         (svc_description result) v in
      if String.eqb key "LoadState" then set_load (Some value)
      else if String.eqb key "ActiveState" then set_active (Some value)
      else if String.eqb key "SubState" then set_sub (Some value)
      else if String.eqb key "Description" then set_description (Some value)
      else if String.eqb key "MainPID" then set_pid (Some value)
      else result
  end.

(** getServiceInfo queries systemctl for service information. *)
Definition getServiceInfo (host : Host) (serviceName : string) : serviceInfo :=
  let unitName := serviceUnitName serviceName in
  match systemctl_show host unitName with
  | inl err =>
      mkServiceInfo serviceName false
        (Some ("Failed to query service: " ++ err)%string) None None None None None
  | inr output =>
      let lines := Split strings (TrimSpace strings output) (String "010" "") in
      fold_left applyProperty lines
                (mkServiceInfo serviceName true None None None None None None)
  end.

Definition requestServices (arguments : option Arguments) : list string :=
  match stringArg arguments "services" with
  | Some svcStr => SplitAndTrim strings svcStr
  | None => []
  end.

Definition HandleGetServiceStatus (arguments : option Arguments) (host : Host)
  : outcome serviceResult :=
  let services := requestServices arguments in
  if Nat.eqb (List.length services) 0 then
    ToolError "services parameter is required"
  else
    let serviceData := forEach services (fun svc => Some (getServiceInfo host svc)) in
    Result (mkServiceResult serviceData (Z.of_nat (List.length serviceData))).

(** [tempUnit := h.cfg.TempUnit], overridden by a non-empty "temp_unit"
    argument, lower-cased (and not validated). *)
Definition requestTempUnit (cfg : Config) (arguments : option Arguments) : string :=
  match stringArg arguments "temp_unit" with
  | Some unit => ToLower strings unit
  | None => TempUnit cfg
  end.

(** The [result] map that HandleGetThermalStatus builds and hands to
    [json.Marshal]. *)
Definition HandleGetThermalStatus (cfg : Config) (arguments : option Arguments)
           (host : Host) : thermalResult :=
  let tempUnit := requestTempUnit cfg arguments in
  let '(cpuTempC, hasCPUTemp) := GetRaspberryPiTemp strconv strings (os_ReadFile host) in
  let '(gpuTempC, hasGPUTemp) :=
    if EnableGPU cfg then GetRaspberryPiGPUTemp strconv (vcgencmd_measure_temp host)
    else (S754_zero false, false) in
  let throttleStatus :=
    if EnableGPU cfg then GetThrottledStatus strconv strings (vcgencmd_get_throttled host)
    else None in
  mkThermalResult
    (mkCpuTemperature hasCPUTemp cpuTempC
       (ConvertTemperature strings cpuTempC tempUnit) tempUnit)
    (if hasGPUTemp
     then mkGpuTemperature true (Some gpuTempC)
            (Some (ConvertTemperature strings gpuTempC tempUnit))
     else mkGpuTemperature false None None)
    (match throttleStatus with
     | Some st => mkThrottling true (Some st)
     | None => mkThrottling false None
     end)
    (match throttleStatus with
     | Some _ => "raspberry_pi"
     | None => "generic_linux"
     end).

End Handlers.

(** ** Instances of the library functions, to run the model *)

Module AsciiFmt.

(** ["%d"] *)
Definition decimal (z : Z) : string := NilZero.string_of_int (Z.to_int z).

(** ["%.1f"] of a finite value: the exact value, rounded to one decimal
    with ties to even. *)
Definition oneDecimal (f : float64) : string :=
  match f with
  | S754_zero s => if s then "-0.0" else "0.0"
  | S754_infinity s => if s then "-Inf" else "+Inf"
  | S754_nan => "NaN"
  | S754_finite s m e =>
      let num := if (0 <=? e)%Z then Zpos m * 2 ^ e else Zpos m in
      let den := if (0 <=? e)%Z then 1 else 2 ^ (- e) in
      let t := 10 * num in
      let q0 := t / den in
      let r := t mod den in
      let q := if (2 * r <? den)%Z then q0
               else if (den <? 2 * r)%Z then q0 + 1
               else if Z.even q0 then q0 else q0 + 1 in
      ((if s then "-" else "") ++ decimal (q / 10) ++ "." ++ decimal (q mod 10))%string
  end.

Definition pkg : FmtPkg := mkFmtPkg decimal oneDecimal.

End AsciiFmt.

Module AsciiStrconv.

Definition hexDigit (c : ascii) : option Z :=
  let n := Z.of_nat (nat_of_ascii c) in
  if ((48 <=? n) && (n <=? 57))%Z then Some (n - 48)
  else if ((97 <=? n) && (n <=? 102))%Z then Some (n - 87)
  else if ((65 <=? n) && (n <=? 70))%Z then Some (n - 55)
  else None.

Fixpoint parseHex (limit acc : Z) (s : string) : option Z :=
  match s with
  | EmptyString => Some acc
  | String c rest =>
      match hexDigit c with
      | None => None
      | Some d =>
          let acc' := acc * 16 + d in
          if (limit <? acc')%Z then None else parseHex limit acc' rest
      end
  end.

(** [ParseUint(s, 16, bitSize)]; other bases are not provided. *)
Definition parseUint (s : string) (base bitSize : Z) : option Z :=
  if negb (base =? 16)%Z then None
  else match s with
       | EmptyString => None
       | _ => parseHex (2 ^ bitSize - 1) 0 s
       end.

Definition decDigit (c : ascii) : option Z :=
  let n := Z.of_nat (nat_of_ascii c) in
  if ((48 <=? n) && (n <=? 57))%Z then Some (n - 48) else None.

(** Digits with at most one point: the numerator and the power of ten. *)
Fixpoint parseDecimal (seenPoint : bool) (num den : Z) (s : string) : option (Z * Z) :=
  match s with
  | EmptyString => Some (num, den)
  | String c rest =>
      if Ascii.eqb c "." then
        if seenPoint then None else parseDecimal true num den rest
      else match decDigit c with
           | None => None
           | Some d => parseDecimal seenPoint (num * 10 + d)
                                    (if seenPoint then den * 10 else den) rest
           end
  end.

(** [ParseFloat(s, 64)] on short unsigned decimals. *)
Definition parseFloat (s : string) : option float64 :=
  match s with
  | EmptyString => None
  | _ => match parseDecimal false 0 1 s with
         | Some (num, den) => Some (of_ratio num den)
         | None => None
         end
  end.

Definition pkg : StrconvPkg := mkStrconvPkg parseFloat parseUint.

End AsciiStrconv.

(** ASCII upper-casing, for [strings.ToUpper]. *)
Fixpoint asciiToUpper (s : string) : string :=
  match s with
  | EmptyString => EmptyString
  | String c r =>
      let n := nat_of_ascii c in
      String (if (Nat.leb 97 n && Nat.leb n 122)%bool then ascii_of_nat (n - 32) else c)
             (asciiToUpper r)
  end.

(** A host with two disks and a tmpfs, three network interfaces, two
    block devices, and a Raspberry Pi that reports past under-voltage. *)
Definition sampleHost : Host :=
  mkHost
    (inr [mkPartitionStat "/" "ext4"; mkPartitionStat "/run" "tmpfs";
          mkPartitionStat "/data" "xfs"])
    (fun mp => if String.eqb mp "/" then inr (mkDiskUsageStat 1000 400 600 (of_int 40) "ext4")
               else if String.eqb mp "/run" then inr (mkDiskUsageStat 100 1 99 (of_int 1) "tmpfs")
               else inl "no such file or directory")
    (inr [mkIOCountersStat "lo" 1 1 1 1 0 0 0 0; mkIOCountersStat "eth0" 9 8 7 6 0 0 0 0;
          mkIOCountersStat "wlan0" 5 4 3 2 0 0 0 0])
    (inr [mkInterfaceStat "eth0" ["192.168.1.2/24"]; mkInterfaceStat "lo" ["127.0.0.1/8"]])
    (inr [("sda", mkDiskIOCountersStat 10 20 4096 8192 1 2 3 4 0);
          ("mmcblk0", mkDiskIOCountersStat 1 2 512 1024 1 1 1 1 0)])
    (fun kind => inr [mkConnectionStat 1 "LISTEN" (mkAddr "0.0.0.0" 22) (mkAddr "" 0) 700;
                      mkConnectionStat 1 "ESTABLISHED" (mkAddr "10.0.0.5" 22)
                                       (mkAddr "10.0.0.9" 50122) 812;
                      mkConnectionStat 2 "NONE" (mkAddr "0.0.0.0" 68) (mkAddr "" 0) 411])
    (fun unitName =>
       if String.eqb unitName "ssh.service"
       then inr ("LoadState=loaded" ++ String "010" "ActiveState=active"
                 ++ String "010" "SubState=running" ++ String "010"
                 "Description=OpenBSD Secure Shell server" ++ String "010"
                 "MainPID=700" ++ String "010" "")%string
       else inl "exit status 1")
    (fun path => if String.eqb path "/sys/class/thermal/thermal_zone0/temp"
                 then inr ("48312" ++ String "010" "")%string
                 else inl "no such file or directory")
    (inr ("temp=45.2'C" ++ String "010" "")%string)
    (inr ("throttled=0x50005" ++ String "010" "")%string).

Definition stringArguments (key value : string) : Arguments :=
  fun k => if String.eqb k key then Some (AString value) else None.

(** A host whose usage query reports a NaN percentage for /proc. *)
Definition proneHost : Host :=
  mkHost
    (inl "permission denied")
    (fun mp => if String.eqb mp "/proc" then inr (mkDiskUsageStat 0 0 0 S754_nan "proc")
               else inl "no such file or directory")
    (inl "") (inl "") (inl "") (fun kind => inl "") (fun unitName => inl "")
    (fun path => inl "") (inl "") (inl "").

(** *** HandleGetDockerMetrics *)

Record CgroupDockerStat : Type := mkCgroupDockerStat {
  ContainerID : string;
  containerName : string;
  Image : string;
  containerStatus : string;
  Running : bool
}.

Record CgroupCPUStat : Type := mkCgroupCPUStat {
  cpuUser : float64;
  cpuSystem : float64;
  cpuUsageTotal : float64
}.

Record CgroupMemStat : Type := mkCgroupMemStat {
  memCache : Z;
  memRSS : Z;
  memMappedFile : Z
}.

(** The "memory" map of a container: the three counters and rss_human. *)
Record containerInfo : Type := mkContainerInfo {
  con_container : CgroupDockerStat;
  con_cpu : option CgroupCPUStat;
  con_memory : option (CgroupMemStat * string)
}.

Record dockerResult : Type := mkDockerResult {
  dr_containers : list containerInfo;
  dr_total : Z
}.

(** The three gopsutil docker calls. *)
Record DockerHost : Type := mkDockerHost {
  docker_GetDockerStat : string + list CgroupDockerStat;
  docker_CgroupCPU : string -> string + CgroupCPUStat;
  docker_CgroupMem : string -> string + CgroupMemStat
}.

Definition requestContainerFilter (arguments : option Arguments) : string :=
  match stringArg arguments "container_id" with
  | Some cid => cid
  | None => ""
  end.

(** The floats of the result in the order of the encoder: for each
    container with a "cpu" map, its keys "system", "usage" and "user". *)
Definition dockerFloats (containerData : list containerInfo) : list spec_float :=
  flat_map (fun c => match con_cpu c with
                     | Some cpuStat => [cpuSystem cpuStat; cpuUsageTotal cpuStat;
                                        cpuUser cpuStat]
                     | None => []
                     end) containerData.

Definition HandleGetDockerMetrics (human : Z -> string) (json : JsonPkg)
           (arguments : option Arguments) (docker : DockerHost) : outcome dockerResult :=
  let containerFilter := requestContainerFilter arguments in
  match docker_GetDockerStat docker with
  | inl err =>
      ToolError ("Docker not available or no containers found: " ++ err)%string
  | inr containers =>
      let containerData :=
        forEach containers
          (fun c =>
             if (string_neq containerFilter ""
                 && string_neq (ContainerID c) containerFilter
                 && string_neq (containerName c) containerFilter)%bool
             then None
             else Some (mkContainerInfo c
                          (match docker_CgroupCPU docker (ContainerID c) with
                           | inr cpuStat => Some cpuStat
                           | inl _ => None
                           end)
                          (match docker_CgroupMem docker (ContainerID c) with
                           | inr memStat => Some (memStat, human (memRSS memStat))
                           | inl _ => None
                           end))) in
      marshalResult json (dockerFloats containerData)
        (mkDockerResult containerData (Z.of_nat (List.length containerData)))
  end.

Definition sampleDocker : DockerHost :=
  mkDockerHost
    (inr [mkCgroupDockerStat "4f2a" "web" "nginx:1.25" "Up 2 hours" true;
          mkCgroupDockerStat "9c1d" "db" "postgres:16" "Exited (0)" false;
          mkCgroupDockerStat "web" "cache" "redis:7" "Up 1 hour" true])
    (fun id => if String.eqb id "9c1d" then inl "no such cgroup"
               else inr (mkCgroupCPUStat (of_int 1) (of_int 2) (of_int 3)))
    (fun id => if String.eqb id "9c1d" then inl "no such cgroup"
               else inr (mkCgroupMemStat 10 2048 0)).

(** * Properties *)

(** ** The marshalling step *)

Lemma marshalResult_supported {A : Type} (json : JsonPkg) (floats : list spec_float)
      (result : A) :
  Forall (fun f => unsupportedValue f = false) floats ->
  marshalResult json floats result = Result result.
Proof.
  intros Hall. unfold marshalResult.
  destruct (find unsupportedValue floats) as [f|] eqn:Hfind; [|reflexivity].
  apply find_some in Hfind. destruct Hfind as [Hin Hf].
  rewrite Forall_forall in Hall. rewrite (Hall f Hin) in Hf. discriminate Hf.
Qed.

Lemma marshalResult_Result {A : Type} (json : JsonPkg) (floats : list spec_float)
      (result r : A) :
  marshalResult json floats result = Result r ->
  r = result /\ Forall (fun f => unsupportedValue f = false) floats.
Proof.
  unfold marshalResult.
  destruct (find unsupportedValue floats) as [f|] eqn:Hfind; [discriminate|].
  intros H. injection H as <-. split; [reflexivity|].
  apply Forall_forall. intros f Hin.
  pose proof (find_none _ _ Hfind f Hin) as Hf. exact Hf.
Qed.

Lemma marshalResult_ToolError {A : Type} (json : JsonPkg) (floats : list spec_float)
      (result : A) (msg : string) :
  marshalResult json floats result = ToolError msg ->
  exists f, In f floats /\ unsupportedValue f = true
            /\ msg = ("Failed to marshal result: " ++ UnsupportedValueError json f)%string.
Proof.
  unfold marshalResult.
  destruct (find unsupportedValue floats) as [f|] eqn:Hfind; [|discriminate].
  intros H. injection H as <-.
  apply find_some in Hfind. destruct Hfind as [Hin Hf].
  exists f. repeat split; assumption.
Qed.

Lemma marshalResult_unsupported {A : Type} (json : JsonPkg) (floats : list spec_float)
      (result : A) (f : spec_float) :
  In f floats -> unsupportedValue f = true ->
  exists msg, marshalResult json floats result = ToolError msg.
Proof.
  intros Hin Hf. unfold marshalResult.
  destruct (find unsupportedValue floats) as [g|] eqn:Hfind.
  - eexists. reflexivity.
  - rewrite (find_none _ _ Hfind f Hin) in Hf. discriminate Hf.
Qed.

Lemma marshalResult_no_panic {A : Type} (json : JsonPkg) (floats : list spec_float)
      (result : A) :
  marshalResult json floats result <> Panic.
Proof.
  unfold marshalResult. destruct (find unsupportedValue floats); discriminate.
Qed.

Lemma marshalResult_cases {A : Type} (json : JsonPkg) (floats : list spec_float)
      (result : A) :
  (Forall (fun f => unsupportedValue f = false) floats
   /\ marshalResult json floats result = Result result)
  \/ (exists f, In f floats /\ unsupportedValue f = true
                /\ marshalResult json floats result
                   = ToolError ("Failed to marshal result: "
                                ++ UnsupportedValueError json f)%string).
Proof.
  destruct (marshalResult json floats result) as [r|msg|] eqn:H.
  - left. apply marshalResult_Result in H. destruct H as [-> Hall]. now split.
  - right. apply marshalResult_ToolError in H. destruct H as (f & Hin & Hf & ->).
    exists f. repeat split; assumption.
  - now apply marshalResult_no_panic in H.
Qed.

(** ** Comparisons against a positive finite constant *)

Lemma gt_pos_finite (x : float64) (m : positive) (e : Z) :
  gt x (S754_finite false m e) =
  match x with
  | S754_infinity false => true
  | S754_finite false mx ex =>
      match (e ?= ex)%Z with
      | Lt => true
      | Gt => false
      | Eq => (m <? mx)%positive
      end
  | _ => false
  end.
Proof.
  unfold gt, SFltb, SFcompare.
  destruct x as [s|s| |s mx ex]; try destruct s; try reflexivity.
  destruct (e ?= ex)%Z; reflexivity.
Qed.

Lemma le_pos_finite (x : float64) (m : positive) (e : Z) :
  le x (S754_finite false m e) =
  match x with
  | S754_nan => false
  | S754_infinity s => s
  | S754_zero _ => true
  | S754_finite true _ _ => true
  | S754_finite false mx ex =>
      match (ex ?= e)%Z with
      | Lt => true
      | Gt => false
      | Eq => (mx <=? m)%positive
      end
  end.
Proof.
  unfold le, SFleb, SFcompare.
  destruct x as [s|s| |s mx ex]; try destruct s; try reflexivity.
  destruct (ex ?= e)%Z; reflexivity.
Qed.

(** [x <= c] excludes [x > c'] for every constant [c'] at or above [c]
    (constants with the same exponent, as 80, 85 and 95 have). *)
Lemma le_excludes_gt (x : float64) (m m' : positive) (e : Z) :
  (m <= m')%positive ->
  le x (S754_finite false m e) = true ->
  gt x (S754_finite false m' e) = false.
Proof.
  intros Hm. rewrite le_pos_finite, gt_pos_finite.
  destruct x as [s|s| |s mx ex]; try destruct s; try reflexivity; try discriminate.
  destruct (Z.compare_spec ex e) as [->|Hlt|Hgt]; try discriminate.
  - rewrite Z.compare_refl. intros Hle.
    apply Pos.leb_le in Hle. apply Pos.ltb_ge. lia.
  - intros _. destruct (Z.compare_spec e ex); try reflexivity; lia.
Qed.

(** [x > c'] implies [x > c] for every constant [c] at or below [c']. *)
Lemma gt_weaken (x : float64) (m m' : positive) (e : Z) :
  (m <= m')%positive ->
  gt x (S754_finite false m' e) = true ->
  gt x (S754_finite false m e) = true.
Proof.
  intros Hm. rewrite !gt_pos_finite.
  destruct x as [s|s| |s mx ex]; try destruct s; try reflexivity; try discriminate.
  destruct (e ?= ex)%Z; try reflexivity; try discriminate.
  intros H. apply Pos.ltb_lt in H. apply Pos.ltb_lt. lia.
Qed.

Lemma le_f80_gt_f80 x : le x f80 = true -> gt x f80 = false.
Proof. apply le_excludes_gt. lia. Qed.

Lemma le_f80_gt_f95 x : le x f80 = true -> gt x f95 = false.
Proof. apply le_excludes_gt. lia. Qed.

Lemma le_f85_gt_f85 x : le x f85 = true -> gt x f85 = false.
Proof. apply le_excludes_gt. lia. Qed.

Lemma le_f85_gt_f95 x : le x f85 = true -> gt x f95 = false.
Proof. apply le_excludes_gt. lia. Qed.

Lemma gt_f95_gt_f85 x : gt x f95 = true -> gt x f85 = true.
Proof. apply gt_weaken. lia. Qed.

Lemma gt_f95_gt_f80 x : gt x f95 = true -> gt x f80 = true.
Proof. apply gt_weaken. lia. Qed.

(** The constants of the block are the binary64 values of 95, 85 and 80. *)
Lemma thresholds_are_float64 :
  f95 = of_int 95 /\ f85 = of_int 85 /\ f80 = of_int 80 /\
  is_float64 f95 = true /\ is_float64 f85 = true /\ is_float64 f80 = true.
Proof. repeat split; vm_compute; reflexivity. Qed.

(** ** The classification block *)

Ltac unfold_checks :=
  unfold classify, checkDisk, checkMemory, checkCPU, initial, append.

Ltac branch_on_comparisons :=
  repeat match goal with
         | |- context [gt ?x ?c] => destruct (gt x c) eqn:?
         end.

(** The scenarios listed in the specification, run on the model. *)
Example scenario_healthy :
  classify (of_int 10) (of_int 20) (of_int 30) = mkVerdict "healthy" [].
Proof. reflexivity. Qed.

Example scenario_cpu_critical :
  classify (of_int 96) (of_int 20) (of_int 30)
  = mkVerdict "critical" ["CPU usage is critical (>95%)"].
Proof. reflexivity. Qed.

Example scenario_cpu_high :
  classify (of_int 85) (of_int 20) (of_int 30)
  = mkVerdict "warning" ["CPU usage is high (>80%)"].
Proof. reflexivity. Qed.

(** C1: whenever at least one of the three metrics strictly exceeds 95, the
    block ends with status "critical", whatever the other two values are. *)
Theorem critical_when_any_exceeds_95 (cpu mem disk : float64) :
  gt cpu f95 = true \/ gt mem f95 = true \/ gt disk f95 = true ->
  status (classify cpu mem disk) = statusCritical.
Proof.
  intros H. unfold_checks.
  destruct (gt cpu f95) eqn:Hc, (gt mem f95) eqn:Hm, (gt disk f95) eqn:Hd;
    branch_on_comparisons; simpl; try reflexivity;
    destruct H as [H|[H|H]]; discriminate.
Qed.

Lemma critical_when_any_exceeds_95_witness :
  status (classify (of_int 20) (of_int 96) (of_int 90)) = statusCritical.
Proof.
  apply (critical_when_any_exceeds_95 (of_int 20) (of_int 96) (of_int 90)).
  right; left. vm_compute. reflexivity.
Defined.

(** C2: when CPU usage is at most 80, memory usage at most 85 and disk usage
    at most 85, the block ends with status "healthy" and no warnings. *)
Theorem healthy_when_all_within_warning (cpu mem disk : float64) :
  le cpu f80 = true -> le mem f85 = true -> le disk f85 = true ->
  status (classify cpu mem disk) = statusHealthy
  /\ warnings (classify cpu mem disk) = [].
Proof.
  intros Hc Hm Hd. unfold_checks.
  rewrite (le_f80_gt_f95 _ Hc), (le_f80_gt_f80 _ Hc).
  rewrite (le_f85_gt_f95 _ Hm), (le_f85_gt_f85 _ Hm).
  rewrite (le_f85_gt_f95 _ Hd), (le_f85_gt_f85 _ Hd).
  split; reflexivity.
Qed.

Lemma healthy_when_all_within_warning_witness :
  status (classify (of_int 80) (of_int 85) (of_int 85)) = statusHealthy
  /\ warnings (classify (of_int 80) (of_int 85) (of_int 85)) = [].
Proof.
  apply (healthy_when_all_within_warning (of_int 80) (of_int 85) (of_int 85));
    vm_compute; reflexivity.
Defined.

(** C3: when no metric strictly exceeds 95 and at least one strictly exceeds
    its warning threshold (80 for CPU, 85 for memory and disk), the block
    ends with status "warning". *)
Theorem warning_when_some_exceeds_warning (cpu mem disk : float64) :
  gt cpu f95 = false -> gt mem f95 = false -> gt disk f95 = false ->
  gt cpu f80 = true \/ gt mem f85 = true \/ gt disk f85 = true ->
  status (classify cpu mem disk) = statusWarning.
Proof.
  intros Hc Hm Hd H. unfold_checks. rewrite Hc, Hm, Hd.
  destruct (gt cpu f80) eqn:Wc, (gt mem f85) eqn:Wm, (gt disk f85) eqn:Wd;
    simpl; try reflexivity.
  destruct H as [H|[H|H]]; discriminate.
Qed.

Lemma warning_when_some_exceeds_warning_witness :
  status (classify (of_int 50) (of_int 90) (of_int 95)) = statusWarning.
Proof.
  apply (warning_when_some_exceeds_warning (of_int 50) (of_int 90) (of_int 95));
    try (vm_compute; reflexivity).
  right; left. vm_compute. reflexivity.
Defined.

(** C4, as stated, fails: 95 is not above the critical threshold, but it is
    above the warning thresholds of CPU (80) and disk (85), so the input
    {cpu: 95, memory: 85, disk: 95} is classified "warning" with two
    messages, not "healthy" with none. *)
Lemma at_threshold_scenario_is_warning :
  classify (of_int 95) (of_int 85) (of_int 95)
  = mkVerdict "warning" ["CPU usage is high (>80%)"; "Disk usage is high (>85%)"]
  /\ classify (of_int 95) (of_int 85) (of_int 95) <> mkVerdict "healthy" [].
Proof. split; [reflexivity | discriminate]. Qed.

(** C4, amended: the comparisons are strict.  A value equal to a warning
    threshold leaves the state untouched; a value equal to the critical
    threshold does not take the critical branch (it takes the warning branch,
    being above the warning threshold); every value strictly above 95 takes
    the critical branch, as 95.0001 does.  The input {95, 85, 95} yields
    "warning" with the CPU and disk "high" messages, and {80, 85, 85} yields
    "healthy" with no warnings. *)
Theorem thresholds_are_strict :
  (forall v, checkCPU (of_int 80) v = v)
  /\ (forall v, checkMemory (of_int 85) v = v)
  /\ (forall v, checkDisk (of_int 85) v = v)
  /\ (forall ws, checkCPU (of_int 95) (mkVerdict statusHealthy ws)
                 = mkVerdict statusWarning (ws ++ ["CPU usage is high (>80%)"]))
  /\ (forall ws, checkMemory (of_int 95) (mkVerdict statusHealthy ws)
                 = mkVerdict statusWarning (ws ++ ["Memory usage is high (>85%)"]))
  /\ (forall ws, checkDisk (of_int 95) (mkVerdict statusHealthy ws)
                 = mkVerdict statusWarning (ws ++ ["Disk usage is high (>85%)"]))
  /\ classify (of_int 95) (of_int 85) (of_int 95)
     = mkVerdict statusWarning ["CPU usage is high (>80%)"; "Disk usage is high (>85%)"]
  /\ classify (of_int 80) (of_int 85) (of_int 85) = mkVerdict statusHealthy []
  /\ (forall x v, gt x f95 = true ->
        checkCPU x v = mkVerdict statusCritical (warnings v ++ ["CPU usage is critical (>95%)"])
        /\ checkMemory x v
           = mkVerdict statusCritical (warnings v ++ ["Memory usage is critical (>95%)"])
        /\ checkDisk x v
           = mkVerdict statusCritical (warnings v ++ ["Disk usage is critical (>95%)"]))
  /\ (forall x ws, gt x f80 = true ->
        warnings (checkCPU x (mkVerdict statusHealthy ws)) <> ws
        /\ status (checkCPU x (mkVerdict statusHealthy ws)) <> statusHealthy)
  /\ (forall x ws, gt x f85 = true ->
        warnings (checkMemory x (mkVerdict statusHealthy ws)) <> ws
        /\ status (checkMemory x (mkVerdict statusHealthy ws)) <> statusHealthy
        /\ warnings (checkDisk x (mkVerdict statusHealthy ws)) <> ws
        /\ status (checkDisk x (mkVerdict statusHealthy ws)) <> statusHealthy)
  /\ gt (of_ratio 950001 10000) f95 = true
  /\ classify (of_ratio 950001 10000) (of_int 0) (of_int 0)
     = mkVerdict statusCritical ["CPU usage is critical (>95%)"].
Proof.
  assert (Hneq : forall (ws : list string) (m : string), ws ++ [m] <> ws).
  { intros ws m H. apply (f_equal (@List.length string)) in H.
    rewrite length_app in H. simpl in H. lia. }
  repeat match goal with |- _ /\ _ => split end;
    try reflexivity; try (intros [st ws]; reflexivity).
  - intros x v H. unfold checkCPU, checkMemory, checkDisk, append.
    rewrite H. repeat split.
  - intros x ws H. unfold checkCPU, append. rewrite H.
    destruct (gt x f95); simpl; split; (apply Hneq || discriminate).
  - intros x ws H. unfold checkMemory, checkDisk, append. rewrite H.
    destruct (gt x f95); simpl; repeat split; (apply Hneq || discriminate).
Qed.

Lemma thresholds_are_strict_witness :
  checkCPU (of_ratio 950001 10000) initial
  = mkVerdict statusCritical ["CPU usage is critical (>95%)"].
Proof.
  destruct thresholds_are_strict as (_ & _ & _ & _ & _ & _ & _ & _ & H & _).
  destruct (H (of_ratio 950001 10000) initial) as [Hc _]; [vm_compute; reflexivity|].
  exact Hc.
Defined.

(** ** The block as a run of indexed checks *)

Lemma classify_is_source_order (s : MetricSample) :
  classify (cpuUsagePercent s) (memoryUsagePercent s) (diskUsagePercent s)
  = classifyIn sourceOrder s.
Proof. reflexivity. Qed.

Lemma severity_known (s : MetricSample) (k : metric) :
  severity s k = statusHealthy \/ severity s k = statusWarning
  \/ severity s k = statusCritical.
Proof.
  unfold severity.
  destruct (gt (reading s k) (criticalThreshold k)); [now right; right|].
  destruct (gt (reading s k) (warnThreshold k)); [now right; left | now left].
Qed.

(** One check appends the message of its metric ... *)
Lemma check_warnings (s : MetricSample) (k : metric) (v : verdict) :
  warnings (check s k v) = warnings v ++ message s k.
Proof.
  destruct k; simpl; unfold checkCPU, checkMemory, checkDisk, append;
    branch_on_comparisons; simpl; try reflexivity; now rewrite app_nil_r.
Qed.

(** ... and raises the status to the severity of its metric. *)
Lemma check_status (s : MetricSample) (k : metric) (v : verdict) :
  status (check s k v) = maxSeverity (status v) (severity s k).
Proof.
  destruct k; simpl; unfold checkCPU, checkMemory, checkDisk, severity; simpl;
    branch_on_comparisons; simpl;
    unfold maxSeverity, rank, string_neq;
    destruct (String.eqb_spec (status v) statusCritical) as [->|];
    try reflexivity;
    destruct (String.eqb_spec (status v) statusWarning) as [->|];
    reflexivity.
Qed.

Lemma run_cons (s : MetricSample) (k : metric) (order : list metric) (v : verdict) :
  run s (k :: order) v = run s order (check s k v).
Proof. reflexivity. Qed.

Lemma run_warnings (s : MetricSample) (order : list metric) :
  forall v, warnings (run s order v) = warnings v ++ flat_map (message s) order.
Proof.
  induction order as [|k order IH]; intros v.
  - simpl. now rewrite app_nil_r.
  - rewrite run_cons, IH, check_warnings. simpl. now rewrite <- app_assoc.
Qed.

Lemma run_status (s : MetricSample) (order : list metric) :
  forall v, status (run s order v) = statusAfter s order (status v).
Proof.
  induction order as [|k order IH]; intros v; [reflexivity|].
  rewrite run_cons, IH, check_status. reflexivity.
Qed.

(** Raising by two severities commutes. *)
Lemma maxSeverity_swap (s : MetricSample) (a : string) (k1 k2 : metric) :
  maxSeverity (maxSeverity a (severity s k1)) (severity s k2)
  = maxSeverity (maxSeverity a (severity s k2)) (severity s k1).
Proof.
  destruct (severity_known s k1) as [-> | [-> | ->]],
           (severity_known s k2) as [-> | [-> | ->]];
    try reflexivity;
    unfold maxSeverity, rank;
    destruct (String.eqb_spec a statusCritical) as [->|]; try reflexivity;
    destruct (String.eqb_spec a statusWarning) as [->|]; reflexivity.
Qed.

Lemma statusAfter_perm (s : MetricSample) (o1 o2 : list metric) :
  Permutation o1 o2 -> forall st, statusAfter s o1 st = statusAfter s o2 st.
Proof.
  induction 1 as [|k l l' _ IH|k1 k2 l|l l' l'' _ IH1 _ IH2]; intros st.
  - reflexivity.
  - simpl. apply IH.
  - simpl. now rewrite maxSeverity_swap.
  - now rewrite IH1.
Qed.

(** C5: the checks may be run in any of the six orders: the final status is
    the one the source order gives, and the warnings are the same messages
    up to their order. *)
Theorem status_order_independent (s : MetricSample) (order : list metric) :
  Permutation order sourceOrder ->
  status (classifyIn order s)
  = status (classify (cpuUsagePercent s) (memoryUsagePercent s) (diskUsagePercent s))
  /\ Permutation
       (warnings (classifyIn order s))
       (warnings (classify (cpuUsagePercent s) (memoryUsagePercent s)
                           (diskUsagePercent s))).
Proof.
  intros Hperm. rewrite classify_is_source_order. unfold classifyIn. split.
  - rewrite !run_status. now apply statusAfter_perm.
  - rewrite !run_warnings. simpl warnings.
    now apply Permutation_flat_map.
Qed.

Lemma status_order_independent_witness :
  status (classifyIn [Disk; CPU; Memory] (mkSample (of_int 85) (of_int 96) (of_int 90)))
  = status (classify (of_int 85) (of_int 96) (of_int 90))
  /\ Permutation
       (warnings (classifyIn [Disk; CPU; Memory]
                             (mkSample (of_int 85) (of_int 96) (of_int 90))))
       (warnings (classify (of_int 85) (of_int 96) (of_int 90))).
Proof.
  apply (status_order_independent
           (mkSample (of_int 85) (of_int 96) (of_int 90)) [Disk; CPU; Memory]).
  exact (Permutation_cons_append [CPU; Memory] Disk).
Defined.

(** The six orders, one by one, on a sample where the order of the
    messages changes. *)
Example six_orders :
  let s := mkSample (of_int 85) (of_int 96) (of_int 90) in
  map (fun o => status (classifyIn o s))
      [[CPU; Memory; Disk]; [CPU; Disk; Memory]; [Memory; CPU; Disk];
       [Memory; Disk; CPU]; [Disk; CPU; Memory]; [Disk; Memory; CPU]]
  = ["critical"; "critical"; "critical"; "critical"; "critical"; "critical"]
  /\ warnings (classifyIn [Disk; CPU; Memory] s)
     = ["Disk usage is high (>85%)"; "CPU usage is high (>80%)";
        "Memory usage is critical (>95%)"].
Proof. split; reflexivity. Qed.

(** C6: the final status is the maximum severity any single metric implies
    against its own thresholds; no check lowers the running status, and a
    state that is "critical" stays "critical" through every later check. *)
Theorem status_is_max_severity (s : MetricSample) :
  status (classify (cpuUsagePercent s) (memoryUsagePercent s) (diskUsagePercent s))
  = spec_status s
  /\ (forall k v, (rank (status v) <= rank (status (check s k v)))%nat)
  /\ (forall k ws, status (check s k (mkVerdict statusCritical ws)) = statusCritical)
  /\ (rank (status initial)
      <= rank (status (checkCPU (cpuUsagePercent s) initial))
      <= rank (status (checkMemory (memoryUsagePercent s)
                         (checkCPU (cpuUsagePercent s) initial))))%nat
  /\ (rank (status (checkMemory (memoryUsagePercent s)
                      (checkCPU (cpuUsagePercent s) initial)))
      <= rank (status (classify (cpuUsagePercent s) (memoryUsagePercent s)
                                (diskUsagePercent s))))%nat.
Proof.
  assert (Hmono : forall k v, (rank (status v) <= rank (status (check s k v)))%nat).
  { intros k v. rewrite check_status.
    destruct (severity_known s k) as [-> | [-> | ->]];
      unfold maxSeverity, rank;
      destruct (String.eqb_spec (status v) statusCritical) as [->|];
      simpl; try lia;
      destruct (String.eqb_spec (status v) statusWarning) as [->|];
      simpl; lia. }
  repeat match goal with |- _ /\ _ => split end.
  - rewrite classify_is_source_order. unfold classifyIn.
    rewrite run_status. unfold spec_status. simpl.
    destruct (severity_known s CPU) as [-> | [-> | ->]],
             (severity_known s Memory) as [-> | [-> | ->]],
             (severity_known s Disk) as [-> | [-> | ->]]; reflexivity.
  - exact Hmono.
  - intros k ws. rewrite check_status. simpl.
    destruct (severity_known s k) as [-> | [-> | ->]]; reflexivity.
  - apply (Hmono CPU initial).
  - apply (Hmono Memory (checkCPU (cpuUsagePercent s) initial)).
  - apply (Hmono Disk (checkMemory (memoryUsagePercent s)
                         (checkCPU (cpuUsagePercent s) initial))).
Qed.

(** C7: the warnings are the messages of CPU, memory and disk, in that
    order, each metric contributing at most one fixed string; the input
    {cpu: 85, memory: 96, disk: 30} gives "critical" with the CPU "high" and
    the memory "critical" message. *)
Theorem warnings_in_source_order (s : MetricSample) :
  warnings (classify (cpuUsagePercent s) (memoryUsagePercent s) (diskUsagePercent s))
  = message s CPU ++ message s Memory ++ message s Disk
  /\ In (message s CPU)
        [[]; ["CPU usage is high (>80%)"]; ["CPU usage is critical (>95%)"]]
  /\ In (message s Memory)
        [[]; ["Memory usage is high (>85%)"]; ["Memory usage is critical (>95%)"]]
  /\ In (message s Disk)
        [[]; ["Disk usage is high (>85%)"]; ["Disk usage is critical (>95%)"]]
  /\ classify (of_int 85) (of_int 96) (of_int 30)
     = mkVerdict "critical"
         ["CPU usage is high (>80%)"; "Memory usage is critical (>95%)"].
Proof.
  repeat match goal with |- _ /\ _ => split end.
  - rewrite classify_is_source_order. unfold classifyIn.
    rewrite run_warnings. simpl. now rewrite app_nil_r.
  - simpl. branch_on_comparisons; tauto.
  - simpl. branch_on_comparisons; tauto.
  - simpl. branch_on_comparisons; tauto.
  - reflexivity.
Qed.

(** C8: the classification block is a total function of the three readings
    alone.  Every triple, finite or not, gets a verdict: one of the three
    statuses and at most three messages.  No reading is rejected: negative
    readings (and negative zero) are classified like any value below the
    thresholds, and NaN compares false against every threshold.  In the
    handler the error returns of the queries precede the block, and the one
    that follows it is the marshalling of the result, which fails only on a
    float that is NaN or infinite.  So once the readings are there, and they
    and the load averages are finite, the handler returns a result whose
    status and warnings are those of the three readings, whatever the
    configuration, the request, the byte counts, the uptime and the host
    name are; and a call that has its readings never panics, and ends in a
    tool error only for a reading or load average that is not finite. *)
Theorem classify_total (BytesToHuman DurationString : Z -> string) (json : JsonPkg) :
  (forall cpu mem disk, exists st ws,
      classify cpu mem disk = mkVerdict st ws
      /\ In st [statusHealthy; statusWarning; statusCritical]
      /\ (List.length ws <= 3)%nat)
  /\ (forall m1 e1 m2 e2 m3 e3,
        classify (S754_finite true m1 e1) (S754_finite true m2 e2)
                 (S754_finite true m3 e3) = mkVerdict statusHealthy [])
  /\ classify (S754_zero true) (S754_zero true) (S754_zero true)
     = mkVerdict statusHealthy []
  /\ classify S754_nan S754_nan S754_nan = mkVerdict statusHealthy []
  /\ (forall cfg arguments p cpuUsage rest memInfo rootDisk info,
        cpu_Percent p = inr (cpuUsage :: rest) ->
        mem_VirtualMemory p = inr memInfo ->
        disk_Usage p = inr rootDisk ->
        host_Info p = inr info ->
        (unsupportedValue cpuUsage = false ->
         unsupportedValue (memUsedPercent memInfo) = false ->
         unsupportedValue (diskUsedPercent rootDisk) = false ->
         (forall a, load_Avg p = inr a ->
                    unsupportedValue (Load1 a) = false
                    /\ unsupportedValue (Load5 a) = false
                    /\ unsupportedValue (Load15 a) = false) ->
         exists r,
           HandleGetSystemHealth BytesToHuman DurationString json cfg arguments p
           = Result r
           /\ mkVerdict (result_status r) (result_warnings r)
              = classify cpuUsage (memUsedPercent memInfo) (diskUsedPercent rootDisk))
        /\ HandleGetSystemHealth BytesToHuman DurationString json cfg arguments p
           <> Panic
        /\ (forall msg,
              HandleGetSystemHealth BytesToHuman DurationString json cfg arguments p
              = ToolError msg ->
              exists f,
                unsupportedValue f = true
                /\ (In f [cpuUsage; memUsedPercent memInfo; diskUsedPercent rootDisk]
                    \/ exists a, load_Avg p = inr a /\ In f [Load1 a; Load5 a; Load15 a])
                /\ msg = ("Failed to marshal result: "
                          ++ UnsupportedValueError json f)%string)).
Proof.
  repeat match goal with |- _ /\ _ => split end; try reflexivity.
  - intros cpu mem disk. unfold_checks.
    branch_on_comparisons; simpl; eexists; eexists;
      (split; [reflexivity | split; [simpl; tauto | simpl; lia]]).
  - intros cfg arguments p cpuUsage rest memInfo rootDisk info Hcpu Hmem Hdisk Hhost.
    unfold HandleGetSystemHealth. rewrite Hcpu, Hmem, Hdisk, Hhost.
    split; [|split].
    + intros Hc Hm Hd Hl.
      eexists. split.
      * apply marshalResult_supported. unfold healthFloats. simpl.
        destruct (load_Avg p) as [e|a].
        -- repeat constructor; assumption.
        -- destruct (Hl a eq_refl) as (H1m & H5m & H15m).
           repeat constructor; assumption.
      * simpl.
        now destruct (classify cpuUsage (memUsedPercent memInfo)
                               (diskUsedPercent rootDisk)).
    + apply marshalResult_no_panic.
    + intros msg Hmsg. apply marshalResult_ToolError in Hmsg.
      destruct Hmsg as (f & Hin & Hf & Hmsg).
      exists f. split; [exact Hf|]. split; [|exact Hmsg].
      unfold healthFloats in Hin. simpl in Hin.
      destruct (load_Avg p) as [e|a].
      * simpl in Hin.
        destruct Hin as [Hin|[Hin|[Hin|Hin]]];
          try (rewrite <- Hin in Hf; discriminate Hf).
        left. simpl. tauto.
      * destruct Hin as [Hin|[Hin|[Hin|Hin]]];
          try (right; exists a; split; [reflexivity | simpl; tauto]).
        left. simpl. tauto.
Qed.

Lemma classify_total_witness :
  exists r,
    HandleGetSystemHealth (fun _ => "") (fun _ => "") EncodingJson.pkg defaultConfig None
                          quietProviders
    = Result r
    /\ mkVerdict (result_status r) (result_warnings r)
       = classify (of_int 12) (of_int 91) (of_int (-1)).
Proof.
  destruct (classify_total (fun _ => "") (fun _ => "") EncodingJson.pkg)
    as (_ & _ & _ & _ & H).
  destruct (H defaultConfig None quietProviders (of_int 12) []
              (mkVirtualMemoryStat (of_int 91) 1024 8192)
              (mkUsageStat (of_int (-1)) 0 0) (mkInfoStat 3600 "pi")
              eq_refl eq_refl eq_refl eq_refl) as (Hres & _).
  apply Hres; try reflexivity.
  intros a Ha. injection Ha as <-. repeat split.
Defined.

(** ** Config.Validate *)

(** The cases of TestConfigValidate and TestSplitAndTrim. *)
Example validate_valid_config :
  Validate AsciiStrings.pkg (mkConfig "celsius" 10 [] [] false "" "")
  = (mkConfig "celsius" 10 [] [] false "" "", None).
Proof. reflexivity. Qed.

Example validate_invalid_unit :
  snd (Validate AsciiStrings.pkg (mkConfig "rankine" 0 [] [] false "" ""))
  = Some "invalid temp-unit: rankine (must be celsius, fahrenheit, or kelvin)".
Proof. reflexivity. Qed.

Example validate_low_is_raised :
  Validate AsciiStrings.pkg (mkConfig "celsius" 0 [] [] false "" "")
  = (mkConfig "celsius" 10 [] [] false "" "", None).
Proof. reflexivity. Qed.

Example validate_high_is_capped :
  Validate AsciiStrings.pkg (mkConfig "celsius" 100 [] [] false "" "")
  = (mkConfig "celsius" 50 [] [] false "" "", None).
Proof. reflexivity. Qed.

Example split_and_trim_test :
  SplitAndTrim AsciiStrings.pkg " a, b , c,," = ["a"; "b"; "c"].
Proof. reflexivity. Qed.

Lemma Validate_accepts (strings : StringsPkg) (c : Config) :
  validTempUnit strings c ->
  Validate strings c
  = (mkConfig (ToLower strings (TempUnit c))
       (if (MaxProcesses c <? 1)%Z then 10
        else if (MaxProcesses c >? 50)%Z then 50 else MaxProcesses c)
       (if string_neq (MountPointsStr c) ""
        then SplitAndTrim strings (MountPointsStr c) else MountPoints c)
       (if string_neq (InterfacesStr c) ""
        then SplitAndTrim strings (InterfacesStr c) else Interfaces c)
       (EnableGPU c) (MountPointsStr c) (InterfacesStr c), None).
Proof.
  unfold validTempUnit, Validate. simpl.
  intros [H | [H | [H | []]]]; rewrite <- H; simpl;
    destruct (MaxProcesses c <? 1)%Z; reflexivity.
Qed.

(** C9: on a configuration whose temperature unit is accepted, Validate
    returns no error and clamps MaxProcesses without complaint: a value
    below 1 becomes 10, a value above 50 becomes 50, a value from 1 to 50
    stays. *)
Theorem Validate_clamps_MaxProcesses (strings : StringsPkg) (c : Config) :
  validTempUnit strings c ->
  snd (Validate strings c) = None
  /\ (MaxProcesses c < 1 -> MaxProcesses (fst (Validate strings c)) = 10)
  /\ (50 < MaxProcesses c -> MaxProcesses (fst (Validate strings c)) = 50)
  /\ (1 <= MaxProcesses c <= 50 ->
      MaxProcesses (fst (Validate strings c)) = MaxProcesses c).
Proof.
  intros Hunit. rewrite (Validate_accepts strings c Hunit). simpl.
  split; [reflexivity|].
  destruct (Z.ltb_spec (MaxProcesses c) 1), (Z.gtb_spec (MaxProcesses c) 50);
    repeat split; intros; lia.
Qed.

Lemma Validate_clamps_MaxProcesses_witness :
  snd (Validate AsciiStrings.pkg (mkConfig "Kelvin" (-3) [] [] true "" "")) = None
  /\ MaxProcesses (fst (Validate AsciiStrings.pkg
                          (mkConfig "Kelvin" (-3) [] [] true "" ""))) = 10.
Proof.
  destruct (Validate_clamps_MaxProcesses AsciiStrings.pkg
              (mkConfig "Kelvin" (-3) [] [] true "" "")) as (Herr & Hlow & _).
  - right; right; left. reflexivity.
  - split; [exact Herr | apply Hlow; simpl; lia].
Defined.

(** ** HandleGetProcessList *)

Lemma digits2_pos_bound (m : positive) :
  Zpos m < 2 ^ Zpos (digits2_pos m).
Proof.
  induction m as [p IH|p IH|]; simpl digits2_pos.
  - rewrite Pos2Z.inj_succ, Z.pow_succ_r by lia. lia.
  - rewrite Pos2Z.inj_succ, Z.pow_succ_r by lia. lia.
  - reflexivity.
Qed.

(** A binary64 mantissa has at most 53 bits. *)
Lemma float64_mantissa_bound (s : bool) (m : positive) (e : Z) :
  is_float64 (S754_finite s m e) = true -> Zpos m < 2 ^ 53.
Proof.
  unfold is_float64, valid_binary, bounded, canonical_mantissa, fexp, emin, prec, emax.
  intros H. apply andb_prop in H. destruct H as [H _].
  apply Z.eqb_eq in H.
  assert (Hd : Zpos (digits2_pos m) <= 53) by lia.
  apply Z.lt_le_trans with (1 := digits2_pos_bound m).
  apply Z.pow_le_mono_r; lia.
Qed.

(** A value above zero is positive: its integer part is not negative. *)
Lemma trunc_nonneg (l : float64) (z : Z) :
  gt l zero = true -> trunc l = Some z -> 0 <= z.
Proof.
  destruct l as [s|s| |s m e]; intros Hgt H.
  - injection H as <-. lia.
  - discriminate H.
  - discriminate H.
  - destruct s; [discriminate Hgt|].
    assert (Hpow : forall p, 0 < 2 ^ Zpos p) by (intros; apply Z.pow_pos_nonneg; lia).
    destruct e as [|p|p].
    + injection H as <-. lia.
    + assert (Hz : z = Zpos m * 2 ^ Zpos p)
        by (change (Some (Zpos m * 2 ^ Zpos p) = Some z) in H; congruence).
      rewrite Hz. apply Z.mul_nonneg_nonneg; [lia | apply Z.lt_le_incl, Hpow].
    + assert (Hz : z = Zpos m / 2 ^ Zpos p)
        by (change (Some (Zpos m / 2 ^ Zpos p) = Some z) in H; congruence).
      rewrite Hz. apply Z.div_pos; [lia | apply Hpow].
Qed.

(** A binary64 value strictly between 0 and 1 has integer part 0. *)
Lemma trunc_below_one (l : float64) :
  is_float64 l = true -> gt l zero = true -> gt (of_int 1) l = true ->
  trunc l = Some 0.
Proof.
  intros Hvalid Hpos Hlt.
  destruct l as [s|s| |s m e];
    [reflexivity | destruct s; discriminate | discriminate |].
  destruct s; [discriminate|].
  pose proof (float64_mantissa_bound _ _ _ Hvalid) as Hm.
  change (of_int 1) with (S754_finite false 4503599627370496 (-52)) in Hlt.
  rewrite gt_pos_finite in Hlt.
  clear Hvalid Hpos.
  destruct (Z.compare_spec e (-52)) as [He|He|He]; [ | | discriminate Hlt].
  - subst e. clear Hm. apply Pos.ltb_lt in Hlt.
    change (Some (Zpos m / 2 ^ 52) = Some 0). f_equal.
    apply Z.div_small. split; [apply Pos2Z.is_nonneg | exact Hlt].
  - destruct e as [|p|p]; [discriminate He | discriminate He |].
    change (Some (Zpos m / 2 ^ Zpos p) = Some 0). f_equal.
    apply Z.div_small. split; [apply Pos2Z.is_nonneg|].
    apply Z.lt_le_trans with (1 := Hm).
    apply Z.pow_le_mono_r; [reflexivity|]. clear Hm Hlt. lia.
Qed.

Lemma sortProcesses_perm (sortSlice : SortSlice) (key : string) (l : list procInfo) :
  Permutation l (sortProcesses sortSlice key l).
Proof.
  unfold sortProcesses.
  destruct (String.eqb key "memory"); [|destruct (String.eqb key "pid")];
    apply sortWith_perm.
Qed.

Lemma sortProcesses_length (sortSlice : SortSlice) (key : string) (l : list procInfo) :
  List.length (sortProcesses sortSlice key l) = List.length l.
Proof. symmetry. apply Permutation_length, sortProcesses_perm. Qed.

(** Inside the range of [int] the conversion is the truncation, whatever
    the platform does outside of it. *)
Lemma int_of_float64_in_range (unrepresentable : float64 -> Z) (l : float64) (z : Z) :
  trunc l = Some z -> MinInt <= z <= MaxInt ->
  int_of_float64 unrepresentable l = z.
Proof.
  intros Ht Hr. unfold int_of_float64. rewrite Ht.
  destruct (Z.leb_spec MinInt z), (Z.leb_spec z MaxInt); simpl; try lia.
Qed.

(** The loop over the processes: it panics exactly when the [MemoryInfo] of
    some process is nil, and otherwise appends one entry per process, in
    order. *)
Lemma gatherProcesses_spec (procList : list procInfo) (processes : list Process) :
  match gatherProcesses procList processes with
  | Some gathered =>
      exists entries,
        gathered = procList ++ entries
        /\ Forall2 (fun p i => exists memInfo,
                        process_MemoryInfo p = Some memInfo /\ i = procInfoOf p memInfo)
                   processes entries
  | None => exists p, In p processes /\ process_MemoryInfo p = None
  end.
Proof.
  revert procList. induction processes as [|p rest IH]; intros procList; simpl.
  - exists []. split; [now rewrite app_nil_r | constructor].
  - destruct (process_MemoryInfo p) as [memInfo|] eqn:Hp.
    + specialize (IH (procList ++ [procInfoOf p memInfo])).
      destruct (gatherProcesses (procList ++ [procInfoOf p memInfo]) rest) as [gathered|].
      * destruct IH as (entries & Hg & Hall).
        exists (procInfoOf p memInfo :: entries). split.
        -- rewrite Hg, <- app_assoc. reflexivity.
        -- constructor; [exists memInfo; split; [exact Hp | reflexivity] | exact Hall].
      * destruct IH as (q & Hin & Hq). exists q. split; [now right | exact Hq].
    + exists p. split; [now left | exact Hp].
Qed.

Lemma gatherProcesses_entries (processes : list Process) (gathered : list procInfo) :
  gatherProcesses [] processes = Some gathered ->
  Forall2 (fun p i => exists memInfo,
               process_MemoryInfo p = Some memInfo /\ i = procInfoOf p memInfo)
          processes gathered.
Proof.
  intros Hg. pose proof (gatherProcesses_spec [] processes) as H.
  rewrite Hg in H. destruct H as (entries & -> & Hall). exact Hall.
Qed.

Lemma gatherProcesses_length (processes : list Process) (gathered : list procInfo) :
  gatherProcesses [] processes = Some gathered ->
  List.length gathered = List.length processes.
Proof.
  intros Hg. symmetry.
  apply (Forall2_length (gatherProcesses_entries processes gathered Hg)).
Qed.

Lemma gatherProcesses_In (processes : list Process) (gathered : list procInfo)
      (i : procInfo) :
  gatherProcesses [] processes = Some gathered -> In i gathered ->
  exists p memInfo,
    In p processes /\ process_MemoryInfo p = Some memInfo /\ i = procInfoOf p memInfo.
Proof.
  intros Hg. pose proof (gatherProcesses_spec [] processes) as H.
  rewrite Hg in H. destruct H as (entries & -> & Hall). clear Hg. simpl.
  induction Hall as [|p j rest entries (memInfo & Hp & Hj) _ IH]; intros Hin.
  - contradiction.
  - destruct Hin as [<-|Hin].
    + exists p, memInfo. split; [now left | split; assumption].
    + destruct (IH Hin) as (q & m & Hq & Hm & Hi).
      exists q, m. split; [now right | split; assumption].
Qed.

Lemma gatherProcesses_None (processes : list Process) :
  gatherProcesses [] processes = None
  <-> exists p, In p processes /\ process_MemoryInfo p = None.
Proof.
  pose proof (gatherProcesses_spec [] processes) as H. split.
  - intros Hg. rewrite Hg in H. exact H.
  - intros (p & Hin & Hp).
    destruct (gatherProcesses [] processes) as [gathered|]; [|reflexivity].
    destruct H as (entries & _ & Hall). exfalso.
    clear gathered. induction Hall as [|q j rest entries (memInfo & Hq & _) _ IH].
    + contradiction.
    + destruct Hin as [->|Hin]; [congruence | exact (IH Hin)].
Qed.

Lemma gatherProcesses_Some (processes : list Process) :
  Forall (fun p => process_MemoryInfo p <> None) processes ->
  exists gathered, gatherProcesses [] processes = Some gathered.
Proof.
  intros Hall.
  destruct (gatherProcesses [] processes) as [gathered|] eqn:Hg; [now exists gathered|].
  apply gatherProcesses_None in Hg. destruct Hg as (p & Hin & Hp).
  rewrite Forall_forall in Hall. now destruct (Hall p Hin).
Qed.

Lemma In_firstn {A : Type} (n : nat) (l : list A) (x : A) :
  In x (firstn n l) -> In x l.
Proof.
  intros Hin. rewrite <- (firstn_skipn n l). apply in_or_app. now left.
Qed.

(** A nil [MemoryInfo] panics before the limit is looked at. *)
Lemma HandleGetProcessList_nil_MemoryInfo
      (strings : StringsPkg) (sortSlice : SortSlice) (json : JsonPkg)
      (unrepresentable : float64 -> Z)
      (cfg : Config) (arguments : option Arguments) (procs : list Process) :
  gatherProcesses [] procs = None ->
  HandleGetProcessList strings sortSlice json unrepresentable cfg arguments (inr procs)
  = Panic.
Proof. intros Hg. unfold HandleGetProcessList. now rewrite Hg. Qed.

(** With every [MemoryInfo] there and a non-negative limit, the handler
    marshals the first [min limit total] processes of the sorted list. *)
Lemma HandleGetProcessList_shown
      (strings : StringsPkg) (sortSlice : SortSlice) (json : JsonPkg)
      (unrepresentable : float64 -> Z)
      (cfg : Config) (arguments : option Arguments) (procs : list Process)
      (gathered : list procInfo) :
  gatherProcesses [] procs = Some gathered ->
  0 <= requestLimit unrepresentable cfg arguments ->
  let shownList :=
    firstn (Z.to_nat (requestLimit unrepresentable cfg arguments))
           (sortProcesses sortSlice (requestSortBy strings arguments) gathered) in
  HandleGetProcessList strings sortSlice json unrepresentable cfg arguments (inr procs)
  = marshalResult json (processListFloats shownList)
      (mkProcessListResult shownList (Z.of_nat (List.length procs))
                           (Z.of_nat (List.length shownList))
                           (requestSortBy strings arguments))
  /\ Z.of_nat (List.length shownList)
     = Z.min (requestLimit unrepresentable cfg arguments) (Z.of_nat (List.length procs)).
Proof.
  intros Hg Hlimit shownList. subst shownList. unfold HandleGetProcessList. rewrite Hg.
  set (limit := requestLimit unrepresentable cfg arguments) in *.
  set (sorted := sortProcesses sortSlice (requestSortBy strings arguments) gathered).
  assert (Hlen : List.length sorted = List.length procs).
  { unfold sorted. rewrite sortProcesses_length. now apply gatherProcesses_length. }
  destruct (Z.gtb_spec (Z.of_nat (List.length sorted)) limit) as [Hgt|Hle].
  - unfold sliceTo. destruct (Z.ltb_spec limit 0) as [|_]; [lia|].
    split; [reflexivity|]. rewrite length_firstn. lia.
  - rewrite firstn_all2 by lia. split; [reflexivity|]. lia.
Qed.

Lemma HandleGetProcessList_negative_limit
      (strings : StringsPkg) (sortSlice : SortSlice) (json : JsonPkg)
      (unrepresentable : float64 -> Z)
      (cfg : Config) (arguments : option Arguments) (procs : list Process) :
  requestLimit unrepresentable cfg arguments < 0 ->
  HandleGetProcessList strings sortSlice json unrepresentable cfg arguments (inr procs)
  = Panic.
Proof.
  intros Hneg. unfold HandleGetProcessList.
  destruct (gatherProcesses [] procs) as [gathered|]; [|reflexivity].
  destruct (Z.gtb_spec
              (Z.of_nat (List.length
                           (sortProcesses sortSlice (requestSortBy strings arguments)
                                          gathered)))
              (requestLimit unrepresentable cfg arguments)) as [_|Hle]; [|lia].
  unfold sliceTo.
  destruct (Z.ltb_spec (requestLimit unrepresentable cfg arguments) 0); [reflexivity | lia].
Qed.

(** The floats the encoder meets are the two percentages of the processes
    shown. *)
Lemma processListFloats_In (procList : list procInfo) (f : spec_float) :
  In f (processListFloats procList)
  <-> exists i, In i procList /\ (f = CPUPercent i \/ f = MemoryPercent i).
Proof.
  unfold processListFloats. rewrite in_flat_map. split.
  - intros (i & Hi & Hf). exists i. split; [exact Hi|].
    simpl in Hf. destruct Hf as [Hf|[Hf|[]]]; [left | right]; now symmetry.
  - intros (i & Hi & Hf). exists i. split; [exact Hi|].
    simpl. destruct Hf as [->| ->]; tauto.
Qed.

(** The handler on small inputs: a limit of 2 keeps the two busiest
    processes, a limit of 0.5 keeps none, and without a limit argument the
    configured default applies.  A process whose [MemoryInfo] failed makes
    the handler panic, and a NaN percentage among the processes shown ends the
    call with the marshalling error. *)
Example limit_two :
  exists r,
    HandleGetProcessList AsciiStrings.pkg InsertionSort.slice EncodingJson.pkg
      saturate_arm64 defaultConfig (Some (limitArguments (of_int 2)))
      (inr threeProcesses) = Result r
    /\ map PID (processes r) = [7; 1] /\ total r = 3 /\ shown r = 2
    /\ map CreateTime (processes r) = [1700000001; 1700000000]
    /\ sort_by r = "cpu".
Proof. eexists. split; [reflexivity|]. repeat split. Qed.

Example limit_one_half :
  HandleGetProcessList AsciiStrings.pkg InsertionSort.slice EncodingJson.pkg
    saturate_arm64 defaultConfig (Some (limitArguments (of_ratio 1 2)))
    (inr threeProcesses)
  = Result (mkProcessListResult [] 3 0 "cpu").
Proof. reflexivity. Qed.

Example limit_absent :
  requestLimit saturate_arm64 defaultConfig None = 10
  /\ requestLimit saturate_arm64 defaultConfig (Some (limitArguments (of_int (-4)))) = 10
  /\ requestLimit saturate_arm64 defaultConfig (Some (limitArguments (of_int 100))) = 50
  /\ requestLimit saturate_arm64 defaultConfig (Some (limitArguments (of_int 3))) = 3.
Proof. repeat split. Qed.

Example process_gone :
  HandleGetProcessList AsciiStrings.pkg InsertionSort.slice EncodingJson.pkg
    saturate_arm64 defaultConfig None (inr oneProcessGone)
  = Panic.
Proof. reflexivity. Qed.

Example process_nan :
  HandleGetProcessList AsciiStrings.pkg InsertionSort.slice EncodingJson.pkg
    saturate_arm64 defaultConfig None (inr oneProcessNaN)
  = ToolError "Failed to marshal result: json: unsupported value: NaN".
Proof. reflexivity. Qed.

(** C10: the code misses its own cap for a limit too large for [int].  The
    cap [if limit > 50] is applied after the conversion [int(l)], and for
    1e19 (above 2^63) Go leaves the converted value to the implementation.
    Where the conversion yields the minimum integer, as on amd64, the limit
    is not lowered to 50 but stays negative, and the slice expression
    [procList[:limit]] panics instead of returning 50 processes or fewer. *)
Lemma limit_beyond_int_not_capped :
  is_float64 (of_int (10 ^ 19)) = true
  /\ gt (of_int (10 ^ 19)) zero = true
  /\ trunc (of_int (10 ^ 19)) = Some (10 ^ 19)
  /\ requestLimit indefinite_x86_64 defaultConfig
       (Some (limitArguments (of_int (10 ^ 19)))) = MinInt
  /\ requestLimit indefinite_x86_64 defaultConfig
       (Some (limitArguments (of_int (10 ^ 19)))) <> 50
  /\ HandleGetProcessList AsciiStrings.pkg InsertionSort.slice EncodingJson.pkg
       indefinite_x86_64 defaultConfig (Some (limitArguments (of_int (10 ^ 19))))
       (inr threeProcesses)
     = Panic
  /\ HandleGetProcessList AsciiStrings.pkg InsertionSort.slice EncodingJson.pkg
       indefinite_x86_64 defaultConfig (Some (limitArguments (of_int (10 ^ 19))))
       (inr [])
     = Panic.
Proof.
  repeat match goal with |- _ /\ _ => split end;
    try (vm_compute; reflexivity).
  vm_compute. discriminate.
Qed.

(** * Further properties of the code *)

(** ** Loops that build a slice *)

Lemma forEach_flat_map {A B : Type} (l : list A) (body : A -> option B) :
  forEach l body
  = flat_map (fun x => match body x with Some y => [y] | None => [] end) l.
Proof.
  unfold forEach.
  assert (H : forall acc,
             fold_left (fun acc x => match body x with
                                     | Some y => acc ++ [y]
                                     | None => acc
                                     end) l acc
             = acc ++ flat_map (fun x => match body x with
                                         | Some y => [y]
                                         | None => []
                                         end) l).
  { induction l as [|x l IH]; intros acc; simpl.
    - now rewrite app_nil_r.
    - rewrite IH. destruct (body x); [now rewrite <- app_assoc | reflexivity]. }
  apply (H []).
Qed.

Lemma forEach_filter_map {A B : Type} (l : list A) (body : A -> option B)
      (keep : A -> bool) (entry : A -> B) :
  (forall x, body x = if keep x then Some (entry x) else None) ->
  forEach l body = map entry (filter keep l).
Proof.
  intros Hbody. rewrite forEach_flat_map.
  induction l as [|x l IH]; simpl; [reflexivity|].
  rewrite Hbody. destruct (keep x); simpl; now rewrite IH.
Qed.

Lemma forEach_all {A B : Type} (l : list A) (entry : A -> B) :
  forEach l (fun x => Some (entry x)) = map entry l.
Proof.
  rewrite forEach_flat_map. induction l as [|x l IH]; simpl; [reflexivity|].
  now rewrite IH.
Qed.

Lemma forEach_In {A B : Type} (l : list A) (body : A -> option B) (y : B) :
  In y (forEach l body) <-> exists x, In x l /\ body x = Some y.
Proof.
  rewrite forEach_flat_map, in_flat_map. split.
  - intros (x & Hx & Hy). exists x. split; [exact Hx|].
    destruct (body x); [destruct Hy as [->|[]]; reflexivity | destruct Hy].
  - intros (x & Hx & Hy). exists x. split; [exact Hx|]. rewrite Hy. now left.
Qed.

Lemma contains_In (slice : list string) (item : string) :
  contains slice item = true <-> In item slice.
Proof.
  induction slice as [|s rest IH]; simpl; [split; [discriminate | tauto]|].
  destruct (String.eqb_spec s item) as [->|Hne].
  - split; auto.
  - rewrite IH. split; [auto | intros [H|H]; [contradiction | exact H]].
Qed.

Lemma string_neq_true (a b : string) : string_neq a b = true <-> a <> b.
Proof.
  unfold string_neq. destruct (String.eqb_spec a b); simpl; split; congruence.
Qed.

(** ** SplitAndTrim *)

(** X1: SplitAndTrim returns the trimmed parts of the comma-separated
    input, in order, without the parts that are empty after trimming: the
    result never holds an empty string and is no longer than the list of
    parts. *)
Theorem SplitAndTrim_trimmed_nonempty_parts (strings : StringsPkg) (s : string) :
  SplitAndTrim strings s
  = filter (fun t => string_neq t "") (map (TrimSpace strings) (Split strings s ","))
  /\ ~ In "" (SplitAndTrim strings s)
  /\ (List.length (SplitAndTrim strings s) <= List.length (Split strings s ","))%nat.
Proof.
  assert (Heq : SplitAndTrim strings s
                = filter (fun t => string_neq t "")
                         (map (TrimSpace strings) (Split strings s ","))).
  { unfold SplitAndTrim, append.
    assert (H : forall parts acc,
               fold_left
                 (fun result part =>
                    if string_neq (TrimSpace strings part) ""
                    then result ++ [TrimSpace strings part] else result) parts acc
               = acc ++ filter (fun t => string_neq t "")
                               (map (TrimSpace strings) parts)).
    { induction parts as [|part parts IH]; intros acc; simpl.
      - now rewrite app_nil_r.
      - rewrite IH. destruct (string_neq (TrimSpace strings part) "");
          [now rewrite <- app_assoc | reflexivity]. }
    apply (H _ []). }
  split; [exact Heq|]. rewrite Heq. split.
  - intros Hin. apply filter_In in Hin. destruct Hin as [_ Hne].
    discriminate Hne.
  - etransitivity; [apply filter_length_le|]. now rewrite length_map.
Qed.

(** ** Config.Validate *)

Lemma validTempUnit_condition (strings : StringsPkg) (c : Config) :
  validTempUnit strings c
  <-> (string_neq (ToLower strings (TempUnit c)) UnitCelsius
       && string_neq (ToLower strings (TempUnit c)) UnitFahrenheit
       && string_neq (ToLower strings (TempUnit c)) UnitKelvin)%bool = false.
Proof.
  unfold validTempUnit, string_neq. simpl.
  destruct (String.eqb_spec (ToLower strings (TempUnit c)) UnitCelsius) as [->|H1];
    [split; [reflexivity | auto]|].
  destruct (String.eqb_spec (ToLower strings (TempUnit c)) UnitFahrenheit) as [->|H2];
    [split; [reflexivity | auto]|].
  destruct (String.eqb_spec (ToLower strings (TempUnit c)) UnitKelvin) as [->|H3];
    [split; [reflexivity | auto]|].
  simpl. split; [|discriminate].
  intros [H|[H|[H|[]]]]; congruence.
Qed.

Lemma Validate_ok_iff (strings : StringsPkg) (c : Config) :
  snd (Validate strings c) = None <-> validTempUnit strings c.
Proof.
  pose proof (validTempUnit_condition strings c) as Hcond.
  unfold Validate.
  destruct (string_neq (ToLower strings (TempUnit c)) UnitCelsius
            && string_neq (ToLower strings (TempUnit c)) UnitFahrenheit
            && string_neq (ToLower strings (TempUnit c)) UnitKelvin)%bool eqn:Hbad.
  - simpl. split; [discriminate|]. intros Hv. apply Hcond in Hv. discriminate.
  - simpl. split; [intros _; now apply Hcond | reflexivity].
Qed.

(** X2: Validate returns an error exactly when the lower-cased temperature
    unit is none of celsius, fahrenheit and kelvin.  On that error the
    message names the lower-cased unit, and the configuration is left as it
    was except for the unit, which stays lower-cased: the process limit is
    not clamped and the lists are not parsed. *)
Theorem Validate_error_iff_unknown_unit (strings : StringsPkg) (c : Config) :
  (snd (Validate strings c) = None <-> validTempUnit strings c)
  /\ (~ validTempUnit strings c ->
      Validate strings c
      = (mkConfig (ToLower strings (TempUnit c)) (MaxProcesses c) (MountPoints c)
                  (Interfaces c) (EnableGPU c) (MountPointsStr c) (InterfacesStr c),
         Some ("invalid temp-unit: " ++ ToLower strings (TempUnit c)
               ++ " (must be celsius, fahrenheit, or kelvin)")%string)).
Proof.
  split; [apply Validate_ok_iff|].
  intros Hbad. pose proof (validTempUnit_condition strings c) as Hcond.
  unfold Validate.
  destruct (string_neq (ToLower strings (TempUnit c)) UnitCelsius
            && string_neq (ToLower strings (TempUnit c)) UnitFahrenheit
            && string_neq (ToLower strings (TempUnit c)) UnitKelvin)%bool;
    [reflexivity|].
  exfalso. apply Hbad. now apply Hcond.
Qed.

Lemma Validate_error_iff_unknown_unit_witness :
  Validate AsciiStrings.pkg (mkConfig "Rankine" 0 [] [] true "/, /home" "eth0")
  = (mkConfig "rankine" 0 [] [] true "/, /home" "eth0",
     Some "invalid temp-unit: rankine (must be celsius, fahrenheit, or kelvin)").
Proof.
  apply (proj2 (Validate_error_iff_unknown_unit AsciiStrings.pkg
                  (mkConfig "Rankine" 0 [] [] true "/, /home" "eth0"))).
  intros [H|[H|[H|[]]]]; discriminate H.
Defined.

(** X3: a configuration that Validate accepted is a fixed point of
    Validate (for a [ToLower] that leaves the three lower-case unit names
    alone): validating again changes nothing and succeeds. *)
Theorem Validate_idempotent (strings : StringsPkg) (c : Config) :
  Forall (fun u => ToLower strings u = u) [UnitCelsius; UnitFahrenheit; UnitKelvin] ->
  snd (Validate strings c) = None ->
  Validate strings (fst (Validate strings c)) = (fst (Validate strings c), None).
Proof.
  intros Hfix Hok.
  apply (proj1 (Validate_ok_iff strings c)) in Hok.
  rewrite (Validate_accepts strings c Hok). simpl fst.
  assert (Hunit : ToLower strings (ToLower strings (TempUnit c))
                  = ToLower strings (TempUnit c)).
  { rewrite Forall_forall in Hfix. apply Hfix. exact Hok. }
  rewrite Validate_accepts by (unfold validTempUnit; simpl TempUnit; now rewrite Hunit).
  simpl. rewrite Hunit. f_equal. f_equal.
  - destruct (Z.ltb_spec (MaxProcesses c) 1) as [|H1]; [reflexivity|].
    destruct (Z.gtb_spec (MaxProcesses c) 50) as [|H2]; [reflexivity|].
    destruct (Z.ltb_spec (MaxProcesses c) 1); [lia|].
    destruct (Z.gtb_spec (MaxProcesses c) 50); [lia | reflexivity].
  - now destruct (string_neq (MountPointsStr c) "").
  - now destruct (string_neq (InterfacesStr c) "").
Qed.

Lemma Validate_idempotent_witness :
  Validate AsciiStrings.pkg
    (fst (Validate AsciiStrings.pkg (mkConfig "KELVIN" 400 [] [] true " /, /boot ," "")))
  = (mkConfig "kelvin" 50 ["/"; "/boot"] [] true " /, /boot ," "", None).
Proof.
  apply (Validate_idempotent AsciiStrings.pkg
           (mkConfig "KELVIN" 400 [] [] true " /, /boot ," "")).
  - repeat constructor.
  - reflexivity.
Defined.

(** After a successful Validate the process limit lies between 1 and 50. *)
Lemma Validate_clamps_range (strings : StringsPkg) (c : Config) :
  validTempUnit strings c ->
  1 <= MaxProcesses (fst (Validate strings c)) <= 50.
Proof.
  intros Hunit. rewrite (Validate_accepts strings c Hunit). simpl.
  destruct (Z.ltb_spec (MaxProcesses c) 1); [lia|].
  destruct (Z.gtb_spec (MaxProcesses c) 50); lia.
Qed.

(** ** HandleGetProcessList, for every request *)

Lemma requestLimit_le_50 (unrepresentable : float64 -> Z) (cfg : Config)
      (arguments : option Arguments) :
  MaxProcesses cfg <= 50 -> requestLimit unrepresentable cfg arguments <= 50.
Proof.
  intros Hcfg. unfold requestLimit.
  destruct arguments as [args|]; [|exact Hcfg].
  destruct (args "limit") as [[l| | | |]|]; try exact Hcfg.
  destruct (gt l zero); [|exact Hcfg].
  destruct (Z.gtb_spec (int_of_float64 unrepresentable l) 50); lia.
Qed.

(** A limit argument whose integer part fits [int] gives the limit
    [min z 50]. *)
Lemma requestLimit_in_range (unrepresentable : float64 -> Z) (cfg : Config)
      (args : Arguments) (l : float64) (z : Z) :
  args "limit" = Some (AFloat l) -> gt l zero = true -> trunc l = Some z ->
  z <= MaxInt ->
  0 <= z /\ requestLimit unrepresentable cfg (Some args) = Z.min z 50.
Proof.
  intros Hargs Hpos Htrunc Hmax.
  pose proof (trunc_nonneg l z Hpos Htrunc) as Hz.
  split; [exact Hz|].
  unfold requestLimit. rewrite Hargs, Hpos.
  rewrite (int_of_float64_in_range unrepresentable l z Htrunc)
    by (unfold MinInt; split; [|exact Hmax];
        apply Z.le_trans with (2 := Hz); discriminate).
  destruct (Z.gtb_spec z 50); lia.
Qed.

(** Processes with finite percentages give entries with finite
    percentages: nothing of what is shown stops the encoder. *)
Lemma shown_floats_supported (sortSlice : SortSlice) (key : string) (n : nat)
      (procs : list Process) (gathered : list procInfo) :
  gatherProcesses [] procs = Some gathered ->
  Forall (fun p => unsupportedValue (process_CPUPercent p) = false
                   /\ unsupportedValue (process_MemoryPercent p) = false) procs ->
  Forall (fun f => unsupportedValue f = false)
         (processListFloats (firstn n (sortProcesses sortSlice key gathered))).
Proof.
  intros Hg Hfin. apply Forall_forall. intros f Hf.
  apply processListFloats_In in Hf. destruct Hf as (i & Hi & Hf).
  apply In_firstn in Hi.
  apply (Permutation_in _ (Permutation_sym (sortProcesses_perm sortSlice key gathered)))
    in Hi.
  destruct (gatherProcesses_In procs gathered i Hg Hi) as (p & memInfo & Hp & _ & ->).
  rewrite Forall_forall in Hfin. destruct (Hfin p Hp) as [Hc Hm].
  destruct Hf as [->| ->]; assumption.
Qed.

(** X4: the handler panics exactly when the [MemoryInfo] query of one of
    the listed processes failed (the nil pointer is dereferenced) or the
    limit it computed is negative (also when there is no process at all).
    It answers listed processes with a tool error exactly when one of the
    processes it is about to show has a CPU or memory percentage that is NaN
    or infinite: the marshalling error.  A failure to list the processes is
    the other tool error. *)
Theorem HandleGetProcessList_failures
        (strings : StringsPkg) (sortSlice : SortSlice) (json : JsonPkg)
        (unrepresentable : float64 -> Z)
        (cfg : Config) (arguments : option Arguments) (procs : list Process) :
  (HandleGetProcessList strings sortSlice json unrepresentable cfg arguments (inr procs)
   = Panic
   <-> (exists p, In p procs /\ process_MemoryInfo p = None)
       \/ requestLimit unrepresentable cfg arguments < 0)
  /\ (forall msg,
         HandleGetProcessList strings sortSlice json unrepresentable cfg arguments
                              (inr procs) = ToolError msg ->
         exists gathered i f,
           gatherProcesses [] procs = Some gathered
           /\ 0 <= requestLimit unrepresentable cfg arguments
           /\ In i (firstn (Z.to_nat (requestLimit unrepresentable cfg arguments))
                           (sortProcesses sortSlice (requestSortBy strings arguments)
                                          gathered))
           /\ (f = CPUPercent i \/ f = MemoryPercent i)
           /\ unsupportedValue f = true
           /\ msg = ("Failed to marshal result: " ++ UnsupportedValueError json f)%string)
  /\ (forall gathered i,
         gatherProcesses [] procs = Some gathered ->
         0 <= requestLimit unrepresentable cfg arguments ->
         In i (firstn (Z.to_nat (requestLimit unrepresentable cfg arguments))
                      (sortProcesses sortSlice (requestSortBy strings arguments)
                                     gathered)) ->
         unsupportedValue (CPUPercent i) = true
         \/ unsupportedValue (MemoryPercent i) = true ->
         exists msg,
           HandleGetProcessList strings sortSlice json unrepresentable cfg arguments
                                (inr procs) = ToolError msg)
  /\ (forall err,
         HandleGetProcessList strings sortSlice json unrepresentable cfg arguments
                              (inl err)
         = ToolError ("Failed to get processes: " ++ err)%string).
Proof.
  split; [|split; [|split]].
  - split.
    + intros Hpanic.
      destruct (gatherProcesses [] procs) as [gathered|] eqn:Hg;
        [|left; now apply gatherProcesses_None].
      right.
      destruct (Z.lt_ge_cases (requestLimit unrepresentable cfg arguments) 0)
        as [Hneg|Hpos]; [exact Hneg|].
      destruct (HandleGetProcessList_shown strings sortSlice json unrepresentable cfg
                  arguments procs gathered Hg Hpos) as [Heq _].
      rewrite Heq in Hpanic. now apply marshalResult_no_panic in Hpanic.
    + intros [Hnil|Hneg].
      * apply HandleGetProcessList_nil_MemoryInfo. now apply gatherProcesses_None.
      * now apply HandleGetProcessList_negative_limit.
  - intros msg Hmsg.
    destruct (gatherProcesses [] procs) as [gathered|] eqn:Hg.
    + destruct (Z.lt_ge_cases (requestLimit unrepresentable cfg arguments) 0)
        as [Hneg|Hpos].
      * rewrite (HandleGetProcessList_negative_limit strings sortSlice json
                   unrepresentable cfg arguments procs Hneg) in Hmsg.
        discriminate Hmsg.
      * destruct (HandleGetProcessList_shown strings sortSlice json unrepresentable cfg
                    arguments procs gathered Hg Hpos) as [Heq _].
        rewrite Heq in Hmsg. apply marshalResult_ToolError in Hmsg.
        destruct Hmsg as (f & Hin & Hf & Hmsg).
        apply processListFloats_In in Hin. destruct Hin as (i & Hi & Hfi).
        exists gathered, i, f. repeat split; assumption.
    + rewrite (HandleGetProcessList_nil_MemoryInfo strings sortSlice json
                 unrepresentable cfg arguments procs Hg) in Hmsg.
      discriminate Hmsg.
  - intros gathered i Hg Hpos Hi Hbad.
    destruct (HandleGetProcessList_shown strings sortSlice json unrepresentable cfg
                arguments procs gathered Hg Hpos) as [Heq _].
    rewrite Heq.
    destruct Hbad as [Hbad|Hbad].
    + apply (marshalResult_unsupported json _ _ (CPUPercent i)); [|exact Hbad].
      apply processListFloats_In. exists i. split; [exact Hi | now left].
    + apply (marshalResult_unsupported json _ _ (MemoryPercent i)); [|exact Hbad].
      apply processListFloats_In. exists i. split; [exact Hi | now right].
  - intros err. reflexivity.
Qed.

(** X5: with a configured limit of at most 50 (as Validate leaves it), no
    request gets more than 50 processes, whatever its limit argument is and
    whatever an out-of-range conversion yields; the processes shown are
    some of the gathered ones (one entry per listed process, in its order),
    each at most once, and [shown] and [total] count the two lists. *)
Theorem HandleGetProcessList_at_most_50
        (strings : StringsPkg) (sortSlice : SortSlice) (json : JsonPkg)
        (unrepresentable : float64 -> Z)
        (cfg : Config) (arguments : option Arguments) (procs : list Process)
        (r : processListResult) :
  MaxProcesses cfg <= 50 ->
  HandleGetProcessList strings sortSlice json unrepresentable cfg arguments (inr procs)
  = Result r ->
  shown r <= 50
  /\ shown r <= total r
  /\ shown r = Z.of_nat (List.length (processes r))
  /\ total r = Z.of_nat (List.length procs)
  /\ exists gathered notShown,
       gatherProcesses [] procs = Some gathered
       /\ Forall2 (fun p i => exists memInfo,
                       process_MemoryInfo p = Some memInfo
                       /\ i = procInfoOf p memInfo) procs gathered
       /\ Permutation (processes r ++ notShown) gathered.
Proof.
  intros Hcfg Hr.
  pose proof (requestLimit_le_50 unrepresentable cfg arguments Hcfg) as Hcap.
  destruct (gatherProcesses [] procs) as [gathered|] eqn:Hg.
  - destruct (Z.lt_ge_cases (requestLimit unrepresentable cfg arguments) 0) as [Hneg|Hpos].
    + rewrite (HandleGetProcessList_negative_limit strings sortSlice json unrepresentable
                 cfg arguments procs Hneg) in Hr. discriminate.
    + destruct (HandleGetProcessList_shown strings sortSlice json unrepresentable cfg
                  arguments procs gathered Hg Hpos) as [Heq Hmin].
      rewrite Heq in Hr. apply marshalResult_Result in Hr. destruct Hr as [-> _].
      simpl. repeat split; try lia.
      exists gathered,
        (skipn (Z.to_nat (requestLimit unrepresentable cfg arguments))
               (sortProcesses sortSlice (requestSortBy strings arguments) gathered)).
      split; [reflexivity|]. split; [now apply gatherProcesses_entries|].
      rewrite firstn_skipn. apply Permutation_sym, sortProcesses_perm.
  - rewrite (HandleGetProcessList_nil_MemoryInfo strings sortSlice json unrepresentable
               cfg arguments procs Hg) in Hr. discriminate.
Qed.

Lemma HandleGetProcessList_at_most_50_witness :
  exists r,
    HandleGetProcessList AsciiStrings.pkg InsertionSort.slice EncodingJson.pkg
      indefinite_x86_64 defaultConfig (Some (limitArguments (of_int 1000)))
      (inr threeProcesses) = Result r
    /\ shown r <= 50.
Proof.
  eexists. split; [reflexivity|].
  eapply (HandleGetProcessList_at_most_50 AsciiStrings.pkg InsertionSort.slice
            EncodingJson.pkg indefinite_x86_64 defaultConfig
            (Some (limitArguments (of_int 1000)))
            threeProcesses); [discriminate | reflexivity].
Defined.

(** X6: on a configuration that Validate accepted, a request whose limit
    argument, if it has a positive numeric one, fits [int], about processes
    whose [MemoryInfo] could all be read, never panics.  When the CPU and
    memory percentages of the processes are finite it is answered with a
    result, which shows [min limit total] processes, between 0 and 50; the
    only other answer is the marshalling error, for a percentage that is
    NaN or infinite. *)
Theorem validated_process_list_returns
        (strings : StringsPkg) (sortSlice : SortSlice) (json : JsonPkg)
        (unrepresentable : float64 -> Z)
        (c : Config) (arguments : option Arguments) (procs : list Process) :
  validTempUnit strings c ->
  (forall args l, arguments = Some args -> args "limit" = Some (AFloat l) ->
                  gt l zero = true -> exists z, trunc l = Some z /\ z <= MaxInt) ->
  Forall (fun p => process_MemoryInfo p <> None) procs ->
  HandleGetProcessList strings sortSlice json unrepresentable
                       (fst (Validate strings c)) arguments (inr procs) <> Panic
  /\ (Forall (fun p => unsupportedValue (process_CPUPercent p) = false
                       /\ unsupportedValue (process_MemoryPercent p) = false) procs ->
      exists r,
        HandleGetProcessList strings sortSlice json unrepresentable
                             (fst (Validate strings c)) arguments (inr procs) = Result r
        /\ 0 <= shown r <= 50
        /\ shown r = Z.min (requestLimit unrepresentable (fst (Validate strings c))
                                         arguments)
                           (Z.of_nat (List.length procs)))
  /\ (forall r,
        HandleGetProcessList strings sortSlice json unrepresentable
                             (fst (Validate strings c)) arguments (inr procs) = Result r ->
        0 <= shown r <= 50
        /\ shown r = Z.min (requestLimit unrepresentable (fst (Validate strings c))
                                         arguments)
                           (Z.of_nat (List.length procs)))
  /\ (forall msg,
        HandleGetProcessList strings sortSlice json unrepresentable
                             (fst (Validate strings c)) arguments (inr procs)
        = ToolError msg ->
        exists p f,
          In p procs
          /\ (f = process_CPUPercent p \/ f = process_MemoryPercent p)
          /\ unsupportedValue f = true
          /\ msg = ("Failed to marshal result: " ++ UnsupportedValueError json f)%string).
Proof.
  intros Hunit Hfits Hmem.
  destruct (Validate_clamps_range strings c Hunit) as [Hlo Hhi].
  set (cfg := fst (Validate strings c)) in *.
  assert (Hpos : 0 <= requestLimit unrepresentable cfg arguments).
  { destruct arguments as [args|]; [|simpl; lia].
    destruct (args "limit") as [[l| | | |]|] eqn:Hl;
      try (unfold requestLimit; rewrite Hl; lia).
    destruct (gt l zero) eqn:Hgt; [|unfold requestLimit; rewrite Hl, Hgt; lia].
    destruct (Hfits args l eq_refl Hl Hgt) as (z & Hz & Hmax).
    destruct (requestLimit_in_range unrepresentable cfg args l z Hl Hgt Hz Hmax)
      as [Hz0 ->]. lia. }
  pose proof (requestLimit_le_50 unrepresentable cfg arguments Hhi) as Hcap.
  destruct (gatherProcesses_Some procs Hmem) as (gathered & Hg).
  destruct (HandleGetProcessList_shown strings sortSlice json unrepresentable cfg
              arguments procs gathered Hg Hpos) as [Heq Hmin].
  rewrite Heq. split; [apply marshalResult_no_panic|]. split; [|split].
  - intros Hfin. eexists. split.
    + apply marshalResult_supported.
      now apply (shown_floats_supported sortSlice _ _ procs gathered).
    + simpl. split; lia.
  - intros r Hr. apply marshalResult_Result in Hr. destruct Hr as [-> _].
    simpl. split; lia.
  - intros msg Hmsg. apply marshalResult_ToolError in Hmsg.
    destruct Hmsg as (f & Hin & Hf & Hmsg).
    apply processListFloats_In in Hin. destruct Hin as (i & Hi & Hfi).
    apply In_firstn in Hi.
    apply (Permutation_in _ (Permutation_sym (sortProcesses_perm sortSlice _ gathered)))
      in Hi.
    destruct (gatherProcesses_In procs gathered i Hg Hi) as (p & memInfo & Hp & _ & ->).
    exists p, f. repeat split; assumption.
Qed.

Lemma validated_process_list_returns_witness :
  exists r,
    HandleGetProcessList AsciiStrings.pkg InsertionSort.slice EncodingJson.pkg
      indefinite_x86_64
      (fst (Validate AsciiStrings.pkg (mkConfig "celsius" (-7) [] [] true "" "")))
      (Some (limitArguments (of_ratio 5 2))) (inr threeProcesses) = Result r
    /\ 0 <= shown r <= 50
    /\ shown r = 2.
Proof.
  destruct (validated_process_list_returns AsciiStrings.pkg InsertionSort.slice
              EncodingJson.pkg indefinite_x86_64
              (mkConfig "celsius" (-7) [] [] true "" "")
              (Some (limitArguments (of_ratio 5 2))) threeProcesses)
    as (_ & H & _).
  - left. reflexivity.
  - intros args l Hargs. injection Hargs as <-.
    intros Hl. injection Hl as <-. intros _.
    exists 2. split; [vm_compute; reflexivity | vm_compute; discriminate].
  - repeat constructor; discriminate.
  - destruct H as (r & Hr & Hrange & Hshown).
    + repeat constructor.
    + exists r. split; [exact Hr|]. split; [exact Hrange|].
      rewrite Hshown. reflexivity.
Defined.

(** X7: a "sort_by" argument other than "memory" and "pid" (after
    lower-casing) orders the list as "cpu" does, by decreasing CPU usage,
    while the result reports the argument as its sort key. *)
Theorem unknown_sort_key_sorts_by_cpu
        (strings : StringsPkg) (sortSlice : SortSlice) (json : JsonPkg)
        (unrepresentable : float64 -> Z)
        (cfg : Config) (arguments : option Arguments) (procs : list Process)
        (r : processListResult) :
  requestSortBy strings arguments <> "memory" ->
  requestSortBy strings arguments <> "pid" ->
  HandleGetProcessList strings sortSlice json unrepresentable cfg arguments (inr procs)
  = Result r ->
  sort_by r = requestSortBy strings arguments
  /\ exists gathered,
       gatherProcesses [] procs = Some gathered
       /\ Forall2 (fun p i => exists memInfo,
                       process_MemoryInfo p = Some memInfo
                       /\ i = procInfoOf p memInfo) procs gathered
       /\ processes r
          = firstn (Z.to_nat (requestLimit unrepresentable cfg arguments))
                   (sortSlice (fun a b => gt (CPUPercent a) (CPUPercent b)) gathered).
Proof.
  intros Hmem Hpid Hr.
  destruct (gatherProcesses [] procs) as [gathered|] eqn:Hg.
  - destruct (Z.lt_ge_cases (requestLimit unrepresentable cfg arguments) 0) as [Hneg|Hpos].
    + rewrite (HandleGetProcessList_negative_limit strings sortSlice json unrepresentable
                 cfg arguments procs Hneg) in Hr. discriminate.
    + destruct (HandleGetProcessList_shown strings sortSlice json unrepresentable cfg
                  arguments procs gathered Hg Hpos) as [Heq _].
      rewrite Heq in Hr. apply marshalResult_Result in Hr. destruct Hr as [-> _].
      simpl. split; [reflexivity|]. exists gathered. split; [reflexivity|].
      split; [now apply gatherProcesses_entries|].
      unfold sortProcesses.
      destruct (String.eqb_spec (requestSortBy strings arguments) "memory");
        [contradiction|].
      destruct (String.eqb_spec (requestSortBy strings arguments) "pid");
        [contradiction | reflexivity].
  - rewrite (HandleGetProcessList_nil_MemoryInfo strings sortSlice json unrepresentable
               cfg arguments procs Hg) in Hr. discriminate.
Qed.

Lemma unknown_sort_key_sorts_by_cpu_witness :
  exists r,
    HandleGetProcessList AsciiStrings.pkg InsertionSort.slice EncodingJson.pkg
      indefinite_x86_64 defaultConfig (Some (stringArguments "sort_by" "Name"))
      (inr threeProcesses)
    = Result r
    /\ sort_by r = "name" /\ map PID (processes r) = [7; 1; 9].
Proof.
  eexists. split; [reflexivity|].
  destruct (unknown_sort_key_sorts_by_cpu AsciiStrings.pkg InsertionSort.slice
              EncodingJson.pkg indefinite_x86_64 defaultConfig
              (Some (stringArguments "sort_by" "Name")) threeProcesses
              _ ltac:(discriminate) ltac:(discriminate) eq_refl)
    as (Hkey & gathered & Hg & _ & Hprocs).
  split; [exact Hkey|]. rewrite Hprocs.
  injection Hg as <-. reflexivity.
Defined.

(** X23: for a numeric limit argument above 0 whose integer part fits Go's
    [int], the limit is that integer part, lowered to 50 when it is larger
    and never raised.  Every result the handler returns then shows
    [min limit total] processes, and it does return one when every
    [MemoryInfo] could be read and every percentage is finite.  A limit
    strictly between 0 and 1 truncates to 0, and the result shows no
    process. *)
Theorem limit_capped_never_raised
        (strings : StringsPkg) (sortSlice : SortSlice) (json : JsonPkg)
        (unrepresentable : float64 -> Z)
        (cfg : Config) (args : Arguments) (l : float64) (z : Z)
        (procs : list Process) :
  args "limit" = Some (AFloat l) ->
  gt l zero = true ->
  trunc l = Some z ->
  z <= MaxInt ->
  0 <= z
  /\ requestLimit unrepresentable cfg (Some args) = Z.min z 50
  /\ (z <= 50 -> requestLimit unrepresentable cfg (Some args) = z)
  /\ (forall r,
        HandleGetProcessList strings sortSlice json unrepresentable cfg (Some args)
                             (inr procs) = Result r ->
        total r = Z.of_nat (List.length procs)
        /\ Z.of_nat (List.length (processes r)) = Z.min (Z.min z 50) (total r)
        /\ shown r = Z.min (Z.min z 50) (total r))
  /\ (Forall (fun p => process_MemoryInfo p <> None
                       /\ unsupportedValue (process_CPUPercent p) = false
                       /\ unsupportedValue (process_MemoryPercent p) = false) procs ->
      exists r,
        HandleGetProcessList strings sortSlice json unrepresentable cfg (Some args)
                             (inr procs) = Result r)
  /\ (is_float64 l = true -> gt (of_int 1) l = true ->
      Forall (fun p => process_MemoryInfo p <> None) procs ->
      z = 0
      /\ HandleGetProcessList strings sortSlice json unrepresentable cfg (Some args)
                              (inr procs)
         = Result (mkProcessListResult [] (Z.of_nat (List.length procs)) 0
                                       (requestSortBy strings (Some args)))).
Proof.
  intros Hargs Hpos Htrunc Hmax.
  destruct (requestLimit_in_range unrepresentable cfg args l z Hargs Hpos Htrunc Hmax)
    as [Hz Hlimit].
  assert (Hlim0 : 0 <= requestLimit unrepresentable cfg (Some args))
    by (rewrite Hlimit; lia).
  split; [exact Hz|]. split; [exact Hlimit|].
  split; [intros Hle; rewrite Hlimit; lia|].
  split; [|split].
  - intros r Hr.
    destruct (gatherProcesses [] procs) as [gathered|] eqn:Hg.
    + destruct (HandleGetProcessList_shown strings sortSlice json unrepresentable cfg
                  (Some args) procs gathered Hg Hlim0) as [Heq Hmin].
      rewrite Heq in Hr. apply marshalResult_Result in Hr. destruct Hr as [-> _].
      simpl. rewrite <- Hlimit. repeat split; exact Hmin.
    + rewrite (HandleGetProcessList_nil_MemoryInfo strings sortSlice json unrepresentable
                 cfg (Some args) procs Hg) in Hr. discriminate.
  - intros Hall.
    assert (Hmem : Forall (fun p => process_MemoryInfo p <> None) procs)
      by (revert Hall; apply Forall_impl; tauto).
    assert (Hfin : Forall (fun p => unsupportedValue (process_CPUPercent p) = false
                                    /\ unsupportedValue (process_MemoryPercent p) = false)
                          procs)
      by (revert Hall; apply Forall_impl; tauto).
    destruct (gatherProcesses_Some procs Hmem) as (gathered & Hg).
    destruct (HandleGetProcessList_shown strings sortSlice json unrepresentable cfg
                (Some args) procs gathered Hg Hlim0) as [Heq _].
    rewrite Heq. eexists. apply marshalResult_supported.
    now apply (shown_floats_supported sortSlice _ _ procs gathered).
  - intros Hvalid Hbelow Hmem.
    rewrite (trunc_below_one l Hvalid Hpos Hbelow) in Htrunc.
    injection Htrunc as <-. split; [reflexivity|].
    destruct (gatherProcesses_Some procs Hmem) as (gathered & Hg).
    destruct (HandleGetProcessList_shown strings sortSlice json unrepresentable cfg
                (Some args) procs gathered Hg Hlim0) as [Heq _].
    rewrite Heq, Hlimit. reflexivity.
Qed.

Lemma limit_capped_never_raised_witness :
  requestLimit indefinite_x86_64 defaultConfig
    (Some (limitArguments (of_ratio 7 2))) = 3
  /\ exists r,
       HandleGetProcessList AsciiStrings.pkg InsertionSort.slice EncodingJson.pkg
         indefinite_x86_64 defaultConfig (Some (limitArguments (of_ratio 7 2)))
         (inr threeProcesses) = Result r
       /\ shown r = 3.
Proof.
  destruct (limit_capped_never_raised AsciiStrings.pkg InsertionSort.slice
              EncodingJson.pkg indefinite_x86_64 defaultConfig
              (limitArguments (of_ratio 7 2))
              (of_ratio 7 2) 3 threeProcesses) as (_ & H & _ & Hshown & Hreturns & _).
  - reflexivity.
  - vm_compute. reflexivity.
  - vm_compute. reflexivity.
  - vm_compute. discriminate.
  - split; [exact H|].
    destruct Hreturns as (r & Hr).
    + repeat apply Forall_cons; try apply Forall_nil;
        (split; [discriminate | split; reflexivity]).
    + exists r. split; [exact Hr|].
      destruct (Hshown r Hr) as (Htotal & _ & Hs). rewrite Hs, Htotal. reflexivity.
Defined.

(** ** HandleGetSystemHealth, when a reading is missing *)

Lemma checkCPU_zero (v : verdict) : checkCPU (S754_zero false) v = v.
Proof. reflexivity. Qed.

(** X8: a failing [cpu.Percent] is not an error of the health tool: the CPU
    usage is taken as 0, so the status and the warnings are those of the
    memory and disk readings alone and no CPU message appears; a failing
    [load.Avg] only zeroes the three load averages.  Such a call returns its
    result whenever the memory and disk percentages and the load averages
    are finite, and never panics.  The memory, disk and host queries, in
    that order, are the ones whose failure ends the call with a tool error;
    the only other tool error is the marshalling error, for a percentage
    or load average that is NaN or infinite. *)
Theorem health_masks_cpu_failure
        (BytesToHuman DurationString : Z -> string) (json : JsonPkg) (cfg : Config)
        (arguments : option Arguments) (p : Providers) (err : string) :
  cpu_Percent p = inl err ->
  (forall memInfo rootDisk info,
      mem_VirtualMemory p = inr memInfo ->
      disk_Usage p = inr rootDisk ->
      host_Info p = inr info ->
      (forall r,
          HandleGetSystemHealth BytesToHuman DurationString json cfg arguments p
          = Result r ->
          cpu_usage_percent (result_cpu r) = S754_zero false
          /\ mkVerdict (result_status r) (result_warnings r)
             = checkDisk (diskUsedPercent rootDisk)
                         (checkMemory (memUsedPercent memInfo) initial)
          /\ ~ In "CPU usage is critical (>95%)" (result_warnings r)
          /\ ~ In "CPU usage is high (>80%)" (result_warnings r)
          /\ (forall e, load_Avg p = inl e ->
                        load_1m (result_cpu r) = S754_zero false
                        /\ load_5m (result_cpu r) = S754_zero false
                        /\ load_15m (result_cpu r) = S754_zero false))
      /\ (unsupportedValue (memUsedPercent memInfo) = false ->
          unsupportedValue (diskUsedPercent rootDisk) = false ->
          (forall a, load_Avg p = inr a ->
                     unsupportedValue (Load1 a) = false
                     /\ unsupportedValue (Load5 a) = false
                     /\ unsupportedValue (Load15 a) = false) ->
          exists r,
            HandleGetSystemHealth BytesToHuman DurationString json cfg arguments p
            = Result r)
      /\ HandleGetSystemHealth BytesToHuman DurationString json cfg arguments p <> Panic
      /\ (forall msg,
            HandleGetSystemHealth BytesToHuman DurationString json cfg arguments p
            = ToolError msg ->
            exists f,
              unsupportedValue f = true
              /\ (In f [memUsedPercent memInfo; diskUsedPercent rootDisk]
                  \/ exists a, load_Avg p = inr a /\ In f [Load1 a; Load5 a; Load15 a])
              /\ msg = ("Failed to marshal result: "
                        ++ UnsupportedValueError json f)%string))
  /\ (forall e, mem_VirtualMemory p = inl e ->
                HandleGetSystemHealth BytesToHuman DurationString json cfg arguments p
                = ToolError ("Failed to get memory info: " ++ e)%string)
  /\ (forall memInfo e, mem_VirtualMemory p = inr memInfo -> disk_Usage p = inl e ->
                HandleGetSystemHealth BytesToHuman DurationString json cfg arguments p
                = ToolError ("Failed to get root disk info: " ++ e)%string)
  /\ (forall memInfo rootDisk e,
         mem_VirtualMemory p = inr memInfo -> disk_Usage p = inr rootDisk ->
         host_Info p = inl e ->
         HandleGetSystemHealth BytesToHuman DurationString json cfg arguments p
         = ToolError ("Failed to get system info: " ++ e)%string).
Proof.
  intros Hcpu. unfold HandleGetSystemHealth. rewrite Hcpu.
  repeat match goal with |- _ /\ _ => split end.
  - intros memInfo rootDisk info Hmem Hdisk Hhost. rewrite Hmem, Hdisk, Hhost.
    split; [|split; [|split]].
    + intros r Hr. apply marshalResult_Result in Hr. destruct Hr as [-> _]. simpl.
      unfold classify. rewrite checkCPU_zero.
      set (v := checkDisk (diskUsedPercent rootDisk)
                          (checkMemory (memUsedPercent memInfo) initial)).
      assert (Hw : In (warnings v)
                      [[]; ["Disk usage is critical (>95%)"]; ["Disk usage is high (>85%)"];
                       ["Memory usage is critical (>95%)"];
                       ["Memory usage is critical (>95%)"; "Disk usage is critical (>95%)"];
                       ["Memory usage is critical (>95%)"; "Disk usage is high (>85%)"];
                       ["Memory usage is high (>85%)"];
                       ["Memory usage is high (>85%)"; "Disk usage is critical (>95%)"];
                       ["Memory usage is high (>85%)"; "Disk usage is high (>85%)"]]).
      { subst v. unfold checkDisk, checkMemory, initial, append.
        branch_on_comparisons; simpl; tauto. }
      split; [reflexivity|]. split; [now destruct v|].
      split; [|split].
      * intros Hin. simpl in Hw.
        repeat (destruct Hw as [Hw|Hw]; [rewrite <- Hw in Hin; simpl in Hin;
                                         repeat (destruct Hin as [Hin|Hin]; try discriminate Hin);
                                         try contradiction|]).
        contradiction.
      * intros Hin. simpl in Hw.
        repeat (destruct Hw as [Hw|Hw]; [rewrite <- Hw in Hin; simpl in Hin;
                                         repeat (destruct Hin as [Hin|Hin]; try discriminate Hin);
                                         try contradiction|]).
        contradiction.
      * intros e He. rewrite He. repeat split.
    + intros Hm Hd Hl. eexists. apply marshalResult_supported.
      unfold healthFloats. simpl.
      destruct (load_Avg p) as [e|a].
      * repeat constructor; assumption.
      * destruct (Hl a eq_refl) as (H1m & H5m & H15m).
        repeat constructor; assumption.
    + apply marshalResult_no_panic.
    + intros msg Hmsg. apply marshalResult_ToolError in Hmsg.
      destruct Hmsg as (f & Hin & Hf & Hmsg).
      exists f. split; [exact Hf|]. split; [|exact Hmsg].
      unfold healthFloats in Hin. simpl in Hin.
      destruct (load_Avg p) as [e|a].
      * simpl in Hin.
        destruct Hin as [Hin|[Hin|[Hin|[Hin|Hin]]]];
          try (rewrite <- Hin in Hf; discriminate Hf).
        left. simpl. tauto.
      * destruct Hin as [Hin|[Hin|[Hin|[Hin|Hin]]]];
          try (right; exists a; split; [reflexivity | simpl; tauto]);
          try (rewrite <- Hin in Hf; discriminate Hf).
        left. simpl. tauto.
  - intros e He. now rewrite He.
  - intros memInfo e Hm He. now rewrite Hm, He.
  - intros memInfo rootDisk e Hm Hd He. now rewrite Hm, Hd, He.
Qed.

Lemma health_masks_cpu_failure_witness :
  exists r,
    HandleGetSystemHealth (fun _ => "") (fun _ => "") EncodingJson.pkg defaultConfig None
      (mkProviders (inl "permission denied")
                   (inr (mkAvgStat (of_int 2) (of_int 1) (of_ratio 1 2)))
                   (inr (mkVirtualMemoryStat (of_int 97) 10 100))
                   (inr (mkUsageStat (of_int 30) 70 100))
                   (inr (mkInfoStat 60 "pi")))
    = Result r
    /\ result_status r = "critical"
    /\ result_warnings r = ["Memory usage is critical (>95%)"].
Proof.
  destruct (health_masks_cpu_failure (fun _ => "") (fun _ => "") EncodingJson.pkg
              defaultConfig None
              (mkProviders (inl "permission denied")
                           (inr (mkAvgStat (of_int 2) (of_int 1) (of_ratio 1 2)))
                           (inr (mkVirtualMemoryStat (of_int 97) 10 100))
                           (inr (mkUsageStat (of_int 30) 70 100))
                           (inr (mkInfoStat 60 "pi")))
              "permission denied" eq_refl) as (H & _).
  destruct (H _ _ _ eq_refl eq_refl eq_refl) as (Hprops & Hex & _).
  destruct Hex as (r & Hr); try reflexivity.
  - intros a Ha. injection Ha as <-. repeat split.
  - destruct (Hprops r Hr) as (_ & Hv & _).
    exists r. split; [exact Hr|].
    injection Hv as Hs Hw. split; assumption.
Defined.

(** The encoder meets the load averages first ("cpu" sorts before "disk"
    and "memory", and "load_15m" first inside it): with an infinite load
    average and a NaN memory percentage the error names the load average. *)
Example health_unsupported_values :
  HandleGetSystemHealth (fun _ => "") (fun _ => "") EncodingJson.pkg defaultConfig None
    (mkProviders (inr [of_int 12])
                 (inr (mkAvgStat (of_int 1) (of_int 1) (S754_infinity true)))
                 (inr (mkVirtualMemoryStat S754_nan 10 100))
                 (inr (mkUsageStat (of_int 30) 70 100))
                 (inr (mkInfoStat 60 "pi")))
  = ToolError "Failed to marshal result: json: unsupported value: -Inf".
Proof. reflexivity. Qed.

(** ** BytesToHuman *)

Lemma quotient_bounds (a d q : Z) :
  0 < d -> 0 <= q -> (q <= a / d -> d * q <= a) /\ (a / d < q -> a < d * q).
Proof.
  intros Hd Hq.
  pose proof (Z.mul_div_le a d Hd) as Hlo.
  pose proof (Z.mul_succ_div_gt a d Hd) as Hhi.
  split; intros H; nia.
Qed.

Lemma pow1024_pos (k : Z) : 0 <= k -> 0 < 1024 ^ k.
Proof. intros Hk. apply Z.pow_pos_nonneg; lia. Qed.

(** The loop of BytesToHuman, from a state that satisfies its invariant,
    ends within the fuel that is left and well before [div] can overflow. *)
Lemma unitLoop_spec (bound bytes : Z) :
  0 <= bytes < bound -> bound <= 2 ^ 64 -> bound < 1024 ^ 7 ->
  forall (fuel : nat) (n div : Z) (exp : nat),
    div = 1024 ^ (Z.of_nat exp + 1) ->
    n = bytes / div ->
    1 <= n ->
    (7 <= fuel + exp)%nat ->
    exists exp',
      unitLoop fuel n div exp = Some (1024 ^ (Z.of_nat exp' + 1), exp')
      /\ (exp' <= 5)%nat
      /\ 1024 ^ (Z.of_nat exp' + 1) <= bytes < 1024 ^ (Z.of_nat exp' + 2).
Proof.
  intros Hbytes Hbound Hbound7.
  induction fuel as [|fuel IH]; intros n div exp Hdiv Hn Hn1 Hfuel.
  - (* no fuel left: the invariant already contradicts the bound *)
    exfalso.
    assert (Hd : 0 < div) by (subst div; apply pow1024_pos; lia).
    destruct (quotient_bounds bytes div 1 Hd ltac:(lia)) as [Hlo _].
    assert (Hle : 1024 ^ 7 <= div).
    { subst div. apply Z.pow_le_mono_r; lia. }
    subst n. specialize (Hlo Hn1). lia.
  - assert (Hd : 0 < div) by (subst div; apply pow1024_pos; lia).
    destruct (quotient_bounds bytes div 1 Hd ltac:(lia)) as [Hlo _].
    assert (Hdb : div <= bytes) by (subst n; specialize (Hlo Hn1); lia).
    simpl unitLoop.
    destruct (Z.geb_spec n 1024) as [Hge|Hlt].
    + destruct (quotient_bounds bytes div 1024 Hd ltac:(lia)) as [Hlo' _].
      assert (Hmul : div * 1024 <= bytes) by (subst n; apply Hlo'; lia).
      assert (Hwrap : uint64_wrap (div * 1024) = div * 1024).
      { unfold uint64_wrap. apply Z.mod_small. lia. }
      rewrite Hwrap.
      apply IH.
      * subst div. rewrite Nat2Z.inj_succ.
        replace (Z.succ (Z.of_nat exp) + 1) with (Z.succ (Z.of_nat exp + 1)) by lia.
        rewrite Z.pow_succ_r by lia. lia.
      * subst n. rewrite Z.div_div by lia. reflexivity.
      * apply Z.div_le_lower_bound; lia.
      * lia.
    + exists exp. rewrite <- Hdiv. split; [reflexivity|].
      destruct (quotient_bounds bytes div 1024 Hd ltac:(lia)) as [_ Hhi].
      assert (Hup : bytes < div * 1024) by (subst n; apply Hhi; lia).
      assert (Hpow : 1024 ^ (Z.of_nat exp + 2) = div * 1024).
      { subst div. replace (Z.of_nat exp + 2) with (Z.succ (Z.of_nat exp + 1)) by lia.
        rewrite Z.pow_succ_r by lia. lia. }
      rewrite Hpow. split; [|lia].
      destruct (Nat.le_gt_cases exp 5) as [Hexp|Hexp]; [exact Hexp|].
      exfalso.
      assert (Hle : 1024 ^ 7 <= div).
      { subst div. apply Z.pow_le_mono_r; lia. }
      lia.
Qed.

(** The cases of TestBytesToHuman, and the two ends of the range. *)
Example BytesToHuman_tests :
  map (BytesToHuman AsciiFmt.pkg) [500; 1024; 1024 * 1024; 1024 * 1024 * 1024; 1536]
  = [Some "500 B"; Some "1.0 KB"; Some "1.0 MB"; Some "1.0 GB"; Some "1.5 KB"]
  /\ BytesToHuman AsciiFmt.pkg 0 = Some "0 B"
  /\ BytesToHuman AsciiFmt.pkg (2 ^ 64 - 1) = Some "16.0 EB".
Proof. repeat split; vm_compute; reflexivity. Qed.

(** X9: on every [uint64] value BytesToHuman returns a string: the loop
    ends, [div] never wraps and the index into "KMGTPE" is in range.  Below
    1024 the value is printed as it is, with " B"; from 1024 on it is
    divided (in floating point) by the power of 1024 that brings it into
    [1, 1024), and the unit letter is the one of that power. *)
Theorem BytesToHuman_returns (fmt : FmtPkg) (bytes : Z) :
  0 <= bytes < 2 ^ 64 ->
  (bytes < 1024
   /\ BytesToHuman fmt bytes = Some (sprintf_d fmt bytes ++ " B")%string)
  \/ (exists (exp : nat) (c : ascii),
         (exp <= 5)%nat
         /\ String.get exp "KMGTPE" = Some c
         /\ 1024 ^ (Z.of_nat exp + 1) <= bytes < 1024 ^ (Z.of_nat exp + 2)
         /\ BytesToHuman fmt bytes
            = Some (sprintf_1f fmt (SFdiv prec emax (of_int bytes)
                                          (of_int (1024 ^ (Z.of_nat exp + 1))))
                    ++ " " ++ String c "B")%string).
Proof.
  intros Hbytes. unfold BytesToHuman.
  destruct (Z.ltb_spec bytes 1024) as [Hsmall|Hbig]; [left; split; [exact Hsmall | reflexivity]|].
  right.
  destruct (unitLoop_spec (2 ^ 64) bytes Hbytes (Z.le_refl _) eq_refl
              64 (bytes / 1024) 1024 0 eq_refl eq_refl)
    as (exp & Hloop & Hexp & Hrange).
  { apply Z.div_le_lower_bound; lia. }
  { lia. }
  rewrite Hloop.
  assert (Hget : exists c, String.get exp "KMGTPE" = Some c).
  { do 6 (destruct exp as [|exp]; [eexists; reflexivity|]). lia. }
  destruct Hget as (c & Hc). rewrite Hc.
  exists exp, c. repeat split; try assumption; apply Hrange.
Qed.

Lemma BytesToHuman_returns_witness :
  exists (exp : nat) (c : ascii),
    (exp <= 5)%nat
    /\ String.get exp "KMGTPE" = Some c
    /\ 1024 ^ (Z.of_nat exp + 1) <= 5368709120 < 1024 ^ (Z.of_nat exp + 2)
    /\ BytesToHuman AsciiFmt.pkg 5368709120
       = Some (sprintf_1f AsciiFmt.pkg
                 (SFdiv prec emax (of_int 5368709120)
                        (of_int (1024 ^ (Z.of_nat exp + 1))))
               ++ " " ++ String c "B")%string.
Proof.
  destruct (BytesToHuman_returns AsciiFmt.pkg 5368709120) as [[Hlt _]|H].
  - split; [discriminate | reflexivity].
  - discriminate Hlt.
  - exact H.
Defined.

(** ** ConvertTemperature *)

(** The cases of TestConvertTemperature. *)
Example ConvertTemperature_tests :
  mapGet (ConvertTemperature AsciiStrings.pkg (of_int 100) "fahrenheit") "fahrenheit"
  = Some (of_int 212)
  /\ mapGet (ConvertTemperature AsciiStrings.pkg (of_int 100) "kelvin") "kelvin"
     = Some (of_ratio 37315 100).
Proof. split; vm_compute; reflexivity. Qed.

(** X10: the map ConvertTemperature returns always holds the Celsius value
    it was given, under "celsius".  It holds a "fahrenheit" entry exactly
    when the unit lower-cases to "fahrenheit", a "kelvin" entry exactly when
    it lower-cases to "kelvin", and no other key: an unknown unit is not an
    error, it yields the Celsius entry alone. *)
Theorem ConvertTemperature_entries (strings : StringsPkg) (celsius : float64)
        (unit : string) :
  mapGet (ConvertTemperature strings celsius unit) UnitCelsius = Some celsius
  /\ mapGet (ConvertTemperature strings celsius unit) UnitFahrenheit
     = (if String.eqb (ToLower strings unit) UnitFahrenheit
        then Some (SFadd prec emax (SFdiv prec emax (SFmul prec emax celsius f9) f5) f32)
        else None)
  /\ mapGet (ConvertTemperature strings celsius unit) UnitKelvin
     = (if String.eqb (ToLower strings unit) UnitKelvin
        then Some (SFadd prec emax celsius f273_15)
        else None)
  /\ (forall key, key <> UnitCelsius -> key <> UnitFahrenheit -> key <> UnitKelvin ->
                  mapGet (ConvertTemperature strings celsius unit) key = None)
  /\ (List.length (ConvertTemperature strings celsius unit) <= 2)%nat.
Proof.
  assert (Hother : forall (m : list (string * float64)) key,
             (forall kv, In kv m -> fst kv <> key) -> mapGet m key = None).
  { intros m key Hm. unfold mapGet.
    destruct (find (fun kv => String.eqb (fst kv) key) m) as [kv|] eqn:Hfind;
      [|reflexivity].
    apply find_some in Hfind. destruct Hfind as [Hin Heq].
    apply String.eqb_eq in Heq. destruct (Hm kv Hin Heq). }
  unfold ConvertTemperature.
  destruct (String.eqb_spec (ToLower strings unit) UnitFahrenheit) as [He|Hf];
    [rewrite He
    |destruct (String.eqb_spec (ToLower strings unit) UnitKelvin) as [He|Hk]];
    (split; [reflexivity|]); (split; [reflexivity|]); (split; [reflexivity|]);
    (split; [|simpl; lia]);
    intros key Hc Hfa Hke; apply Hother; simpl;
    intros kv Hin;
    repeat (destruct Hin as [Hin|Hin]; [subst kv; simpl; congruence|]);
    destruct Hin.
Qed.

(** ** Strings: prefixes and first occurrences *)

Lemma substring_all (s : string) : substring 0 (String.length s) s = s.
Proof. induction s as [|c s IH]; simpl; [reflexivity | now rewrite IH]. Qed.

Lemma substring_app_prefix (s r : string) :
  substring 0 (String.length s) (s ++ r)%string = s.
Proof.
  induction s as [|c s IH]; simpl.
  - now destruct r.
  - now rewrite IH.
Qed.

Lemma prefix_empty (s : string) : String.prefix "" s = true.
Proof. now destruct s. Qed.

Lemma prefix_app (p s : string) : String.prefix p (p ++ s)%string = true.
Proof.
  induction p as [|c p IH]; [apply prefix_empty|].
  change (String c p ++ s)%string with (String c (p ++ s)%string).
  change (String.prefix (String c p) (String c (p ++ s)%string))
    with (if ascii_dec c c then String.prefix p (p ++ s)%string else false).
  destruct (ascii_dec c c); [exact IH | contradiction].
Qed.

(** A string that has the prefix [p] is [p] followed by what TrimPrefix
    leaves. *)
Lemma HasPrefix_TrimPrefix (s p : string) :
  HasPrefix s p = true -> s = (p ++ TrimPrefix s p)%string.
Proof.
  unfold TrimPrefix. intros H. rewrite H. unfold HasPrefix in H.
  revert p H. induction s as [|b s IH]; intros p H.
  - destruct p; [reflexivity | discriminate].
  - destruct p as [|a p].
    + simpl. now rewrite substring_all.
    + change (String.prefix (String a p) (String b s))
        with (if ascii_dec a b then String.prefix p s else false) in H.
      destruct (ascii_dec a b) as [->|]; [|discriminate].
      simpl. f_equal. apply IH. exact H.
Qed.

Lemma TrimPrefix_app (p s : string) : TrimPrefix (p ++ s) p = s.
Proof.
  unfold TrimPrefix, HasPrefix. rewrite prefix_app.
  induction p as [|c p IH]; simpl.
  - rewrite Nat.sub_0_r. apply substring_all.
  - exact IH.
Qed.

Lemma index_cons (s1 : string) (b : ascii) (t : string) :
  String.index 0 s1 (String b t)
  = if String.prefix s1 (String b t) then Some O
    else match String.index 0 s1 t with
         | Some n => Some (S n)
         | None => None
         end.
Proof. reflexivity. Qed.

Lemma prefix_cons (a b : ascii) (p s : string) :
  String.prefix (String a p) (String b s)
  = if ascii_dec a b then String.prefix p s else false.
Proof. reflexivity. Qed.

Lemma prefix_degree_mark_app (b : ascii) (t rest : string) :
  String.prefix "'C" (String b t) = false ->
  String.prefix "'C" (String b (t ++ "'C" ++ rest)%string) = false.
Proof.
  rewrite !prefix_cons. destruct (ascii_dec "'" b) as [_|_]; [|reflexivity].
  destruct t as [|c t]; [reflexivity|].
  change (String c t ++ "'C" ++ rest)%string with (String c (t ++ "'C" ++ rest)%string).
  rewrite !prefix_cons. destruct (ascii_dec "C" c) as [_|_]; [|reflexivity].
  now rewrite prefix_empty.
Qed.

(** The first "'C" of a text that has none before position [length t]. *)
Lemma index_degree_mark (t rest : string) :
  String.index 0 "'C" t = None ->
  String.index 0 "'C" (t ++ "'C" ++ rest)%string = Some (String.length t).
Proof.
  induction t as [|b t IH]; intros Hnone.
  - simpl. now rewrite prefix_empty.
  - rewrite index_cons in Hnone.
    destruct (String.prefix "'C" (String b t)) eqn:Hp; [discriminate|].
    destruct (String.index 0 "'C" t) eqn:Ht; [discriminate|].
    change (String b t ++ "'C" ++ rest)%string
      with (String b (t ++ "'C" ++ rest)%string).
    rewrite index_cons, (prefix_degree_mark_app b t rest Hp), (IH eq_refl).
    reflexivity.
Qed.

(** ** The Raspberry Pi probes *)

Lemma flagSet_testbit (value k : Z) :
  0 <= k -> flagSet value (2 ^ k) = Z.testbit value k.
Proof.
  intros Hk. unfold flagSet.
  destruct (Z.testbit value k) eqn:Hbit.
  - destruct (Z.eqb_spec (Z.land value (2 ^ k)) 0) as [Hzero|]; [|reflexivity].
    exfalso.
    assert (H : Z.testbit (Z.land value (2 ^ k)) k = true)
      by (rewrite Z.land_spec, Hbit, Z.pow2_bits_true by exact Hk; reflexivity).
    rewrite Hzero, Z.bits_0 in H. discriminate.
  - destruct (Z.eqb_spec (Z.land value (2 ^ k)) 0) as [|Hnz]; [reflexivity|].
    exfalso. apply Hnz. apply Z.bits_inj'. intros n Hn.
    rewrite Z.land_spec, Z.bits_0, Z.pow2_bits_eqb by exact Hk.
    destruct (Z.eqb_spec k n) as [<-|]; [now rewrite Hbit | apply andb_false_r].
Qed.

Example GetThrottledStatus_sample :
  GetThrottledStatus AsciiStrconv.pkg AsciiStrings.pkg
                     (inr ("throttled=0x50005" ++ String "010" "")%string)
  = Some (mkThrottledStatus true false true false true false true false "50005")
  /\ GetThrottledStatus AsciiStrconv.pkg AsciiStrings.pkg (inr "throttled=50005") = None
  /\ GetThrottledStatus AsciiStrconv.pkg AsciiStrings.pkg (inr "throttled=0x") = None
  /\ GetThrottledStatus AsciiStrconv.pkg AsciiStrings.pkg (inr "throttled=0x100000000")
     = None.
Proof. repeat split; vm_compute; reflexivity. Qed.

(** X11: when GetThrottledStatus reports a status, the trimmed output of
    the command is "throttled=0x" followed by the digits it returns as
    raw_value, those digits parse (base 16, 32 bits) to a value, and the
    eight flags are the bits 0 to 3 (the present state) and 16 to 19 (what
    has occurred) of that value; no other bit of the value is looked at.
    A failing command gives no status. *)
Theorem GetThrottledStatus_decodes_bits (strconv : StrconvPkg) (strings : StringsPkg)
        (out : string) (st : throttledStatus) :
  GetThrottledStatus strconv strings (inr out) = Some st ->
  TrimSpace strings out = ("throttled=0x" ++ raw_value st)%string
  /\ (exists value,
         ParseUint strconv (raw_value st) 16 32 = Some value
         /\ under_voltage_now st = Z.testbit value 0
         /\ arm_frequency_capped st = Z.testbit value 1
         /\ currently_throttled st = Z.testbit value 2
         /\ soft_temp_limit_active st = Z.testbit value 3
         /\ under_voltage_occurred st = Z.testbit value 16
         /\ freq_capped_occurred st = Z.testbit value 17
         /\ throttling_occurred st = Z.testbit value 18
         /\ soft_temp_occurred st = Z.testbit value 19)
  /\ (forall err, GetThrottledStatus strconv strings (inl err) = None).
Proof.
  unfold GetThrottledStatus.
  destruct (HasPrefix (TrimSpace strings out) "throttled=0x") eqn:Hpre;
    [|discriminate].
  simpl negb. cbv iota.
  destruct (ParseUint strconv (TrimPrefix (TrimSpace strings out) "throttled=0x") 16 32)
    as [value|] eqn:Hparse; [|discriminate].
  intros H. injection H as <-. simpl raw_value.
  split; [apply HasPrefix_TrimPrefix; exact Hpre|].
  split; [|reflexivity].
  exists value. split; [exact Hparse|].
  unfold decodeThrottled. simpl.
  change 1 with (2 ^ 0). change 2 with (2 ^ 1) at 2.
  change 4 with (2 ^ 2). change 8 with (2 ^ 3).
  change 65536 with (2 ^ 16). change 131072 with (2 ^ 17).
  change 262144 with (2 ^ 18). change 524288 with (2 ^ 19).
  rewrite !flagSet_testbit by lia. repeat split.
Qed.

Lemma GetThrottledStatus_decodes_bits_witness :
  exists value,
    ParseUint AsciiStrconv.pkg "50005" 16 32 = Some value
    /\ true = Z.testbit value 0
    /\ false = Z.testbit value 1
    /\ true = Z.testbit value 2
    /\ false = Z.testbit value 3
    /\ true = Z.testbit value 16
    /\ false = Z.testbit value 17
    /\ true = Z.testbit value 18
    /\ false = Z.testbit value 19.
Proof.
  destruct (GetThrottledStatus_decodes_bits AsciiStrconv.pkg AsciiStrings.pkg
              ("throttled=0x50005" ++ String "010" "")%string
              (mkThrottledStatus true false true false true false true false "50005")
              eq_refl) as (_ & H & _).
  exact H.
Defined.

Example GetRaspberryPiGPUTemp_sample :
  GetRaspberryPiGPUTemp AsciiStrconv.pkg (inr ("temp=45.2'C" ++ String "010" "")%string)
  = (of_ratio 452 10, true)
  /\ GetRaspberryPiGPUTemp AsciiStrconv.pkg (inr "temp='C") = (S754_zero false, false)
  /\ GetRaspberryPiGPUTemp AsciiStrconv.pkg (inr "45.2'C") = (S754_zero false, false)
  /\ GetRaspberryPiGPUTemp AsciiStrconv.pkg (inr "temp=45.2") = (S754_zero false, false).
Proof. repeat split; vm_compute; reflexivity. Qed.

(** X12: on an output of the form temp=<t>'C..., where <t> holds no "'C",
    GetRaspberryPiGPUTemp hands exactly <t> to ParseFloat and returns its
    value; an empty <t>, or one that does not parse, gives no temperature.
    An output that does not start with "temp=", and a failing command, give
    none either. *)
Theorem GetRaspberryPiGPUTemp_parses_between_markers (strconv : StrconvPkg)
        (t rest : string) :
  String.index 0 "'C" t = None ->
  GetRaspberryPiGPUTemp strconv (inr ("temp=" ++ t ++ "'C" ++ rest)%string)
  = match t with
    | EmptyString => (S754_zero false, false)
    | _ => match ParseFloat strconv t with
           | Some temp => (temp, true)
           | None => (S754_zero false, false)
           end
    end
  /\ (forall out, HasPrefix out "temp=" = false ->
                  GetRaspberryPiGPUTemp strconv (inr out) = (S754_zero false, false))
  /\ (forall err, GetRaspberryPiGPUTemp strconv (inl err) = (S754_zero false, false)).
Proof.
  intros Hnone. split; [|split; [intros out Hout; simpl; now rewrite Hout | reflexivity]].
  unfold GetRaspberryPiGPUTemp.
  assert (Hpre : HasPrefix ("temp=" ++ t ++ "'C" ++ rest) "temp=" = true)
    by apply prefix_app.
  rewrite Hpre.
  assert (Hidx : Index ("temp=" ++ t ++ "'C" ++ rest) "'C"
                 = Z.of_nat (5 + String.length t)).
  { unfold Index.
    change ("temp=" ++ t ++ "'C" ++ rest)%string
      with (String "t" (String "e" (String "m" (String "p" (String "="
              (t ++ "'C" ++ rest)%string))))).
    rewrite !index_cons, !prefix_cons.
    repeat match goal with
           | |- context [ascii_dec ?a ?b] =>
               destruct (ascii_dec a b) as [Habs|_]; [discriminate Habs|]
           end.
    now rewrite (index_degree_mark t rest Hnone). }
  rewrite Hidx. cbv zeta.
  destruct t as [|c t].
  - reflexivity.
  - destruct (Z.gtb_spec (Z.of_nat (5 + String.length (String c t))) 5) as [_|Hle];
      [|simpl String.length in Hle; lia].
    rewrite Nat2Z.id.
    replace (5 + String.length (String c t) - Z.to_nat 5)%nat
      with (String.length (String c t)) by lia.
    change (substring (Z.to_nat 5) (String.length (String c t))
                      ("temp=" ++ String c t ++ "'C" ++ rest))
      with (substring 0 (String.length (String c t))
                      (String c t ++ "'C" ++ rest)).
    now rewrite substring_app_prefix.
Qed.

Lemma GetRaspberryPiGPUTemp_parses_between_markers_witness :
  GetRaspberryPiGPUTemp AsciiStrconv.pkg (inr ("temp=" ++ "45.2" ++ "'C" ++ String "010" ""))%string
  = (of_ratio 452 10, true).
Proof.
  exact (proj1 (GetRaspberryPiGPUTemp_parses_between_markers AsciiStrconv.pkg
                  "45.2" (String "010" "") eq_refl)).
Defined.

(** ** HandleGetDiskMetrics *)

Example HandleGetDiskMetrics_sample :
  (exists disks,
      HandleGetDiskMetrics AsciiStrings.pkg (fun _ => "") EncodingJson.pkg defaultConfig
                           None sampleHost
      = Result disks
      /\ map di_mount_point disks = ["/"])
  /\ (exists disks,
         HandleGetDiskMetrics AsciiStrings.pkg (fun _ => "") EncodingJson.pkg defaultConfig
           (Some (stringArguments "mount_points" "/run, /nope")) sampleHost
         = Result disks
         /\ map di_mount_point disks = ["/run"])
  /\ HandleGetDiskMetrics AsciiStrings.pkg (fun _ => "") EncodingJson.pkg defaultConfig
       (Some (stringArguments "mount_points" "/proc")) proneHost
     = ToolError "Failed to marshal result: json: unsupported value: NaN".
Proof. split; [|split]; [eexists; split; reflexivity .. | reflexivity]. Qed.

(** X13: HandleGetDiskMetrics builds, in order, one entry for each mount
    point it selected whose usage query succeeds; a failing query drops the
    mount point without an error.  With mount points requested (or
    configured) the partition table is not consulted, so even a special
    filesystem is reported when asked for; with none, the selection is the
    partitions that are not tmpfs, devtmpfs or squashfs, and a failing
    partition listing ends the call with a tool error.  The entries are
    returned when every usage percentage among them is finite; a percentage
    that is NaN or infinite ends the call with the marshalling error
    instead.  The human-readable sizes are present exactly when
    human_readable is not switched off. *)
Theorem HandleGetDiskMetrics_reports_selected
        (strings : StringsPkg) (human : Z -> string) (json : JsonPkg) (cfg : Config)
        (arguments : option Arguments) (host : Host) :
  (requestMountPoints strings cfg arguments <> [] ->
   exists diskData,
     map di_mount_point diskData
     = filter (fun mp => match disk_UsageOf host mp with
                         | inr _ => true
                         | inl _ => false
                         end)
              (requestMountPoints strings cfg arguments)
     /\ ((Forall (fun d => unsupportedValue (di_usage_percent d) = false) diskData
          /\ HandleGetDiskMetrics strings human json cfg arguments host = Result diskData)
         \/ (exists d, In d diskData
                       /\ unsupportedValue (di_usage_percent d) = true
                       /\ HandleGetDiskMetrics strings human json cfg arguments host
                          = ToolError ("Failed to marshal result: "
                                       ++ UnsupportedValueError json (di_usage_percent d))
                                      %string)))
  /\ (requestMountPoints strings cfg arguments = [] ->
      forall partitions, disk_Partitions host = inr partitions ->
      exists diskData,
        map di_mount_point diskData
        = filter (fun mp => match disk_UsageOf host mp with
                            | inr _ => true
                            | inl _ => false
                            end)
                 (map Mountpoint
                      (filter (fun p => negb (isSpecialFilesystem (Fstype p)))
                              partitions))
        /\ ((Forall (fun d => unsupportedValue (di_usage_percent d) = false) diskData
             /\ HandleGetDiskMetrics strings human json cfg arguments host
                = Result diskData)
            \/ (exists d, In d diskData
                          /\ unsupportedValue (di_usage_percent d) = true
                          /\ HandleGetDiskMetrics strings human json cfg arguments host
                             = ToolError ("Failed to marshal result: "
                                          ++ UnsupportedValueError json
                                               (di_usage_percent d))%string)))
  /\ (requestMountPoints strings cfg arguments = [] ->
      forall err, disk_Partitions host = inl err ->
      HandleGetDiskMetrics strings human json cfg arguments host
      = ToolError ("Failed to get disk partitions: " ++ err)%string)
  /\ (forall disks d,
         HandleGetDiskMetrics strings human json cfg arguments host = Result disks ->
         In d disks ->
         exists usage,
           disk_UsageOf host (di_mount_point d) = inr usage
           /\ di_total_bytes d = usageTotal usage
           /\ di_used_bytes d = usageUsed usage
           /\ di_free_bytes d = usageFree usage
           /\ di_usage_percent d = usageUsedPercent usage
           /\ di_fstype d = usageFstype usage
           /\ di_total_human d
              = (if requestHumanReadable arguments then Some (human (usageTotal usage))
                 else None)
           /\ di_used_human d
              = (if requestHumanReadable arguments then Some (human (usageUsed usage))
                 else None)
           /\ di_free_human d
              = (if requestHumanReadable arguments then Some (human (usageFree usage))
                 else None))
  /\ ((forall mp usage, disk_UsageOf host mp = inr usage ->
                        unsupportedValue (usageUsedPercent usage) = false) ->
      HandleGetDiskMetrics strings human json cfg arguments host <> Panic
      /\ forall msg,
           HandleGetDiskMetrics strings human json cfg arguments host = ToolError msg ->
           exists err,
             requestMountPoints strings cfg arguments = []
             /\ disk_Partitions host = inl err
             /\ msg = ("Failed to get disk partitions: " ++ err)%string).
Proof.
  pose (entry := fun (hr : bool) (mp : string) =>
                   match disk_UsageOf host mp with
                   | inl _ => None
                   | inr usage =>
                       Some (mkDiskInfo mp (usageTotal usage) (usageUsed usage)
                               (usageFree usage) (usageUsedPercent usage)
                               (usageFstype usage)
                               (if hr then Some (human (usageTotal usage)) else None)
                               (if hr then Some (human (usageUsed usage)) else None)
                               (if hr then Some (human (usageFree usage)) else None))
                   end).
  assert (Hnames : forall (hr : bool) (mps : list string),
             map di_mount_point (forEach mps (entry hr))
             = filter (fun mp => match disk_UsageOf host mp with
                                 | inr _ => true
                                 | inl _ => false
                                 end) mps).
  { intros hr mps. rewrite forEach_flat_map. unfold entry.
    induction mps as [|mp mps IH]; simpl; [reflexivity|].
    destruct (disk_UsageOf host mp); simpl; now rewrite IH. }
  assert (Hout : forall (hr : bool) (mps : list string),
             (Forall (fun d => unsupportedValue (di_usage_percent d) = false)
                     (forEach mps (entry hr))
              /\ marshalResult json (diskFloats (forEach mps (entry hr)))
                               (forEach mps (entry hr))
                 = Result (forEach mps (entry hr)))
             \/ (exists d, In d (forEach mps (entry hr))
                           /\ unsupportedValue (di_usage_percent d) = true
                           /\ marshalResult json (diskFloats (forEach mps (entry hr)))
                                            (forEach mps (entry hr))
                              = ToolError ("Failed to marshal result: "
                                           ++ UnsupportedValueError json
                                                (di_usage_percent d))%string)).
  { intros hr mps.
    destruct (marshalResult_cases json (diskFloats (forEach mps (entry hr)))
                (forEach mps (entry hr))) as [[Hall Hr]|(f & Hin & Hf & Hr)].
    - left. split; [|exact Hr]. unfold diskFloats in Hall.
      now rewrite Forall_map in Hall.
    - right. unfold diskFloats in Hin. apply in_map_iff in Hin.
      destruct Hin as (d & <- & Hd). exists d. repeat split; assumption. }
  assert (Hentry : forall (hr : bool) (mps : list string) (d : diskInfo),
             In d (forEach mps (entry hr)) ->
             exists usage,
               disk_UsageOf host (di_mount_point d) = inr usage
               /\ d = mkDiskInfo (di_mount_point d) (usageTotal usage) (usageUsed usage)
                        (usageFree usage) (usageUsedPercent usage) (usageFstype usage)
                        (if hr then Some (human (usageTotal usage)) else None)
                        (if hr then Some (human (usageUsed usage)) else None)
                        (if hr then Some (human (usageFree usage)) else None)).
  { intros hr mps d Hin. apply forEach_In in Hin. destruct Hin as (mp & _ & Hd).
    unfold entry in Hd. destruct (disk_UsageOf host mp) as [|usage] eqn:Hu;
      [discriminate Hd|].
    injection Hd as <-. simpl. rewrite Hu. exists usage. split; reflexivity. }
  unfold HandleGetDiskMetrics, selectMountPoints.
  fold (entry (requestHumanReadable arguments)).
  set (hr := requestHumanReadable arguments).
  set (mps := requestMountPoints strings cfg arguments).
  repeat match goal with |- _ /\ _ => split end.
  - intros Hne. destruct mps as [|mp mps']; [contradiction|].
    simpl Nat.eqb. cbv iota.
    exists (forEach (mp :: mps') (entry hr)). split; [apply Hnames | apply Hout].
  - intros Hnil partitions Hp. rewrite Hnil, Hp. simpl Nat.eqb. cbv iota. simpl app.
    eexists. split; [|apply Hout].
    rewrite Hnames.
    rewrite (forEach_filter_map partitions _
               (fun p => negb (isSpecialFilesystem (Fstype p))) Mountpoint);
      [reflexivity|].
    intros p. now destruct (isSpecialFilesystem (Fstype p)).
  - intros Hnil err Hp. rewrite Hnil, Hp. reflexivity.
  - intros disks d Hr Hin.
    destruct (if Nat.eqb (List.length mps) 0
              then match disk_Partitions host with
                   | inl err => inl err
                   | inr partitions =>
                       inr (mps ++ forEach partitions
                                     (fun p => if isSpecialFilesystem (Fstype p)
                                               then None else Some (Mountpoint p)))
                   end
              else inr mps) as [err|selected]; [discriminate|].
    apply marshalResult_Result in Hr. destruct Hr as [-> _].
    destruct (Hentry hr selected d Hin) as (usage & Hu & Hd).
    exists usage. split; [exact Hu|]. rewrite Hd. simpl. repeat split.
  - intros Hfin.
    destruct (Nat.eqb (List.length mps) 0) eqn:Hlen.
    + destruct (disk_Partitions host) as [err|partitions] eqn:Hp.
      * split; [discriminate|]. intros msg Hmsg. injection Hmsg as <-.
        exists err. split; [|split; reflexivity].
        destruct mps; [reflexivity | discriminate Hlen].
      * rewrite marshalResult_supported; [split; [discriminate | intros msg H; discriminate H]|].
        unfold diskFloats. rewrite Forall_map. apply Forall_forall. intros d Hin.
        destruct (Hentry hr _ d Hin) as (usage & Hu & ->). simpl.
        exact (Hfin _ _ Hu).
    + rewrite marshalResult_supported; [split; [discriminate | intros msg H; discriminate H]|].
      unfold diskFloats. rewrite Forall_map. apply Forall_forall. intros d Hin.
      destruct (Hentry hr _ d Hin) as (usage & Hu & ->). simpl.
      exact (Hfin _ _ Hu).
Qed.

Lemma HandleGetDiskMetrics_reports_selected_witness :
  exists disks,
    HandleGetDiskMetrics AsciiStrings.pkg (fun _ => "") EncodingJson.pkg defaultConfig
      (Some (stringArguments "mount_points" "/run, /nope")) sampleHost
    = Result disks
    /\ map di_mount_point disks
       = filter (fun mp => match disk_UsageOf sampleHost mp with
                           | inr _ => true
                           | inl _ => false
                           end)
                (requestMountPoints AsciiStrings.pkg defaultConfig
                   (Some (stringArguments "mount_points" "/run, /nope"))).
Proof.
  destruct (proj1 (HandleGetDiskMetrics_reports_selected AsciiStrings.pkg (fun _ => "")
                     EncodingJson.pkg defaultConfig
                     (Some (stringArguments "mount_points" "/run, /nope")) sampleHost))
    as (diskData & Hnames & [[_ Hr]|(d & _ & _ & Herr)]).
  - discriminate.
  - exists diskData. split; [exact Hr | exact Hnames].
  - vm_compute in Herr. discriminate Herr.
Defined.

(** ** HandleGetNetworkMetrics *)

(** Whether the handler reports the interface [name], given the requested
    interfaces. *)
Lemma network_filter (interfaces : list string) (name : string) :
  (if (String.eqb name "lo" && negb (contains interfaces "lo"))%bool then false
   else if (Nat.ltb 0 (List.length interfaces) && negb (contains interfaces name))%bool
        then false else true)
  = match interfaces with
    | [] => string_neq name "lo"
    | _ => contains interfaces name
    end.
Proof.
  destruct interfaces as [|i rest].
  - simpl. unfold string_neq. now destruct (String.eqb name "lo").
  - change (Nat.ltb 0 (List.length (i :: rest))) with true.
    destruct (String.eqb_spec name "lo") as [->|_];
      destruct (contains (i :: rest) "lo"); try reflexivity;
      now destruct (contains (i :: rest) name).
Qed.

(** X14: HandleGetNetworkMetrics reports, in the order of the counters,
    the interfaces that pass its filter: with no interface requested (or
    configured) every interface except the loopback "lo"; with some
    requested, exactly the requested ones, "lo" included if it is among
    them.  A failing [net.Interfaces] is not an error: the interfaces are
    reported without addresses. *)
Theorem HandleGetNetworkMetrics_filter
        (strings : StringsPkg) (cfg : Config) (arguments : option Arguments)
        (host : Host) (netIO : list IOCountersStat) :
  net_IOCounters host = inr netIO ->
  exists reported,
    HandleGetNetworkMetrics strings cfg arguments host = Result reported
    /\ map ni_counters reported
       = filter (fun io => match requestInterfaces strings cfg arguments with
                           | [] => string_neq (ioName io) "lo"
                           | _ => contains (requestInterfaces strings cfg arguments)
                                           (ioName io)
                           end) netIO
    /\ (forall i, In i reported ->
                  ni_interface i = ioName (ni_counters i)
                  /\ (requestInterfaces strings cfg arguments = [] ->
                      ni_interface i <> "lo")
                  /\ (requestInterfaces strings cfg arguments <> [] ->
                      In (ni_interface i) (requestInterfaces strings cfg arguments)))
    /\ (forall err, net_Interfaces host = inl err ->
                    forall i, In i reported -> ni_ip_addresses i = []).
Proof.
  intros Hio. unfold HandleGetNetworkMetrics. rewrite Hio.
  set (interfaces := requestInterfaces strings cfg arguments).
  set (addrMap := buildAddrMap match net_Interfaces host with
                               | inl _ => []
                               | inr l => l
                               end).
  pose (keep := fun io : IOCountersStat =>
                  match interfaces with
                  | [] => string_neq (ioName io) "lo"
                  | _ => contains interfaces (ioName io)
                  end).
  pose (entry := fun io : IOCountersStat =>
                   mkNetInfo (ioName io) io
                             match mapGet addrMap (ioName io) with
                             | Some addrs => addrs
                             | None => []
                             end).
  assert (Hloop : forEach netIO
                    (fun io =>
                       if (String.eqb (ioName io) "lo" && negb (contains interfaces "lo"))%bool
                       then None
                       else if (Nat.ltb 0 (List.length interfaces)
                                && negb (contains interfaces (ioName io)))%bool
                            then None
                            else Some (entry io))
                  = map entry (filter keep netIO)).
  { apply forEach_filter_map. intros io. unfold keep.
    rewrite <- (network_filter interfaces (ioName io)).
    destruct (String.eqb (ioName io) "lo" && negb (contains interfaces "lo"))%bool;
      [reflexivity|].
    now destruct (Nat.ltb 0 (List.length interfaces)
                  && negb (contains interfaces (ioName io)))%bool. }
  exists (map entry (filter keep netIO)).
  split; [f_equal; exact Hloop|]. split; [|split].
  - rewrite map_map. simpl. apply map_id.
  - intros i Hin. apply in_map_iff in Hin. destruct Hin as (io & <- & Hio').
    apply filter_In in Hio'. destruct Hio' as [_ Hkeep]. unfold keep in Hkeep.
    simpl. split; [reflexivity|]. split.
    + intros Hnil. rewrite Hnil in Hkeep. now apply string_neq_true.
    + intros Hne. destruct interfaces as [|i0 rest]; [contradiction|].
      now apply contains_In.
  - intros err Herr i Hin. apply in_map_iff in Hin. destruct Hin as (io & <- & _).
    unfold entry, addrMap. rewrite Herr. reflexivity.
Qed.

Lemma HandleGetNetworkMetrics_filter_witness :
  exists reported,
    HandleGetNetworkMetrics AsciiStrings.pkg defaultConfig
      (Some (stringArguments "interfaces" "lo, eth0")) sampleHost = Result reported
    /\ map ni_interface reported = ["lo"; "eth0"].
Proof.
  destruct (HandleGetNetworkMetrics_filter AsciiStrings.pkg defaultConfig
              (Some (stringArguments "interfaces" "lo, eth0")) sampleHost _ eq_refl)
    as (reported & Hr & _).
  exists reported. split; [exact Hr|].
  injection Hr as <-. reflexivity.
Defined.

(** ** HandleGetDiskIOMetrics *)

(** X15: HandleGetDiskIOMetrics reports every device when no device is
    requested, and otherwise exactly the devices whose name is among the
    requested ones; [total] counts the reported devices.  Requested names
    that match no device are not an error: the result is an empty list with
    total 0. *)
Theorem HandleGetDiskIOMetrics_filter
        (strings : StringsPkg) (human : Z -> string) (arguments : option Arguments)
        (host : Host) (ioCounters : list (string * DiskIOCountersStat)) :
  disk_IOCounters host = inr ioCounters ->
  exists r,
    HandleGetDiskIOMetrics strings human arguments host = Result r
    /\ map (fun d => (dio_device d, dio_counters d)) (dio_devices r)
       = filter (fun entry => match requestDevices strings arguments with
                              | [] => true
                              | _ => contains (requestDevices strings arguments) (fst entry)
                              end) ioCounters
    /\ dio_total r = Z.of_nat (List.length (dio_devices r))
    /\ (requestDevices strings arguments <> [] ->
        (forall entry, In entry ioCounters ->
                       ~ In (fst entry) (requestDevices strings arguments)) ->
        dio_devices r = [] /\ dio_total r = 0).
Proof.
  intros Hio. unfold HandleGetDiskIOMetrics. rewrite Hio.
  set (devices := requestDevices strings arguments).
  pose (keep := fun entry : string * DiskIOCountersStat =>
                  match devices with
                  | [] => true
                  | _ => contains devices (fst entry)
                  end).
  pose (info := fun entry : string * DiskIOCountersStat =>
                  mkDiskIOInfo (fst entry) (snd entry) (human (ReadBytes (snd entry)))
                               (human (WriteBytes (snd entry)))).
  assert (Hloop : forEach ioCounters
                    (fun entry =>
                       if (Nat.ltb 0 (List.length devices)
                           && negb (contains devices (fst entry)))%bool
                       then None else Some (info entry))
                  = map info (filter keep ioCounters)).
  { apply forEach_filter_map. intros entry. unfold keep.
    destruct devices as [|d rest]; [reflexivity|].
    change (Nat.ltb 0 (List.length (d :: rest))) with true.
    now destruct (contains (d :: rest) (fst entry)). }
  exists (mkDiskIOResult (map info (filter keep ioCounters))
                         (Z.of_nat (List.length (map info (filter keep ioCounters))))).
  split; [f_equal; f_equal; [exact Hloop | f_equal; f_equal; exact Hloop]|].
  simpl. split; [|split; [reflexivity|]].
  - rewrite map_map.
    transitivity (map (fun entry => entry) (filter keep ioCounters));
      [apply map_ext; now intros [name io] | apply map_id].
  - intros Hne Hnone.
    assert (Hempty : filter keep ioCounters = []).
    { rewrite <- (filter_false ioCounters). apply filter_ext_in.
      intros entry Hin. unfold keep.
      destruct devices as [|d rest] eqn:Hd; [contradiction|].
      destruct (contains (d :: rest) (fst entry)) eqn:Hc; [|reflexivity].
      apply contains_In in Hc. destruct (Hnone entry Hin Hc). }
    rewrite Hempty. split; reflexivity.
Qed.

Lemma HandleGetDiskIOMetrics_filter_witness :
  exists r,
    HandleGetDiskIOMetrics AsciiStrings.pkg (fun _ => "")
      (Some (stringArguments "devices" "sdb, nvme0n1")) sampleHost = Result r
    /\ dio_devices r = [] /\ dio_total r = 0.
Proof.
  destruct (HandleGetDiskIOMetrics_filter AsciiStrings.pkg (fun _ => "")
              (Some (stringArguments "devices" "sdb, nvme0n1")) sampleHost _ eq_refl)
    as (r & Hr & _ & _ & Hnone).
  exists r. split; [exact Hr|]. apply Hnone.
  - discriminate.
  - intros entry Hin Hdev. simpl in Hin, Hdev.
    destruct Hin as [<-|[<-|[]]]; simpl in Hdev;
      destruct Hdev as [H|[H|[]]]; discriminate H.
Defined.

(** ** HandleGetNetworkConnections *)

Lemma map_filter_comm {A B : Type} (f : A -> B) (g : B -> bool) (l : list A) :
  map f (filter (fun x => g (f x)) l) = filter g (map f l).
Proof.
  induction l as [|x l IH]; simpl; [reflexivity|].
  destruct (g (f x)); simpl; now rewrite IH.
Qed.

(** X16: whatever "kind" argument a request carries, the kind handed to
    [net.Connections] and reported back is one of "tcp", "udp" and "all":
    anything else silently becomes "all".  With a "status" argument the
    connections reported are exactly those whose status equals the
    upper-cased argument, which is echoed as status_filter; without one all
    connections are reported and no status_filter key is set.  The entry of
    a reported connection is fixed by the connection: its type is "tcp" for
    1, "udp" for 2 and "unknown(n)" otherwise, its status and pid are the
    connection's, its local address is "ip:port", and its remote address
    is "ip:port" too, or empty when the remote IP is.  [total] counts the
    reported connections. *)
Theorem HandleGetNetworkConnections_filter
        (strings : StringsPkg) (fmt : FmtPkg) (ToUpper : string -> string)
        (arguments : option Arguments) (host : Host) :
  In (requestKind strings arguments) [kindTCP; kindUDP; kindAll]
  /\ (forall connections,
         net_Connections host (requestKind strings arguments) = inr connections ->
         exists r,
           HandleGetNetworkConnections strings fmt ToUpper arguments host = Result r
           /\ cr_kind r = requestKind strings arguments
           /\ cr_total r = Z.of_nat (List.length (cr_connections r))
           /\ cr_connections r
              = map (fun c =>
                       mkConnInfo
                         (if (connType c =? 1)%Z then "tcp"
                          else if (connType c =? 2)%Z then "udp"
                          else ("unknown(" ++ sprintf_d fmt (connType c) ++ ")")%string)
                         (connStatus c)
                         (IP (Laddr c) ++ ":" ++ sprintf_d fmt (Port (Laddr c)))%string
                         (connPid c)
                         (if String.eqb (IP (Raddr c)) "" then ""
                          else (IP (Raddr c) ++ ":"
                                ++ sprintf_d fmt (Port (Raddr c)))%string))
                    (filter (fun c =>
                               (String.eqb (requestStatusFilter ToUpper arguments) ""
                                || String.eqb (connStatus c)
                                              (requestStatusFilter ToUpper arguments))%bool)
                            connections)
           /\ map ci_status (cr_connections r)
              = filter (fun st => (negb (string_neq (requestStatusFilter ToUpper arguments) "")
                                   || String.eqb st (requestStatusFilter ToUpper arguments))%bool)
                       (map connStatus connections)
           /\ (requestStatusFilter ToUpper arguments <> "" ->
               cr_status_filter r = Some (requestStatusFilter ToUpper arguments)
               /\ forall c, In c (cr_connections r) ->
                            ci_status c = requestStatusFilter ToUpper arguments)
           /\ (requestStatusFilter ToUpper arguments = "" ->
               cr_status_filter r = None
               /\ List.length (cr_connections r) = List.length connections))
  /\ (forall err,
         net_Connections host (requestKind strings arguments) = inl err ->
         HandleGetNetworkConnections strings fmt ToUpper arguments host
         = ToolError ("Failed to get network connections: " ++ err)%string).
Proof.
  split; [|split].
  - unfold requestKind.
    destruct (stringArg arguments "kind") as [k|]; [|simpl; tauto].
    unfold string_neq.
    destruct (String.eqb_spec (ToLower strings k) kindTCP) as [->|]; [simpl; tauto|].
    destruct (String.eqb_spec (ToLower strings k) kindUDP) as [->|]; simpl; tauto.
  - intros connections Hconn. unfold HandleGetNetworkConnections. rewrite Hconn.
    set (kind := requestKind strings arguments).
    set (statusFilter := requestStatusFilter ToUpper arguments).
    pose (keep := fun c : ConnectionStat =>
                    (negb (string_neq statusFilter "")
                     || String.eqb (connStatus c) statusFilter)%bool).
    pose (info := fun c : ConnectionStat =>
                    mkConnInfo (connTypeToString fmt (connType c)) (connStatus c)
                               (formatAddr fmt (Laddr c)) (connPid c)
                               (if string_neq (IP (Raddr c)) ""
                                then formatAddr fmt (Raddr c) else "")).
    assert (Hloop : forEach connections
                      (fun c =>
                         if (string_neq statusFilter ""
                             && string_neq (connStatus c) statusFilter)%bool
                         then None else Some (info c))
                    = map info (filter keep connections)).
    { apply forEach_filter_map. intros c. unfold keep, string_neq.
      destruct (String.eqb statusFilter ""); simpl; [reflexivity|].
      now destruct (String.eqb (connStatus c) statusFilter). }
    exists (mkConnectionsResult (map info (filter keep connections))
              (Z.of_nat (List.length (map info (filter keep connections)))) kind
              (if string_neq statusFilter "" then Some statusFilter else None)).
    split; [f_equal; f_equal; [exact Hloop | f_equal; f_equal; exact Hloop]|].
    simpl. split; [reflexivity|]. split; [reflexivity|]. split; [|split; [|split]].
    + unfold keep, string_neq. rewrite negb_involutive.
      apply map_ext. intros c. unfold info, connTypeToString, formatAddr, string_neq,
                                      kindTCP, kindUDP.
      now destruct (String.eqb (IP (Raddr c)) "").
    + rewrite map_map. simpl.
      apply (map_filter_comm connStatus
               (fun st => (negb (string_neq statusFilter "")
                           || String.eqb st statusFilter)%bool)).
    + intros Hne. apply string_neq_true in Hne. rewrite Hne. split; [reflexivity|].
      intros c Hin. apply in_map_iff in Hin. destruct Hin as (c0 & <- & Hc0).
      apply filter_In in Hc0. destruct Hc0 as [_ Hkeep]. unfold keep in Hkeep.
      rewrite Hne in Hkeep. simpl in Hkeep. simpl. now apply String.eqb_eq.
    + intros Hnil. fold statusFilter in Hnil.
      assert (Hall : filter keep connections = connections).
      { apply forallb_filter_id. apply forallb_forall. intros c _.
        unfold keep. now rewrite Hnil. }
      rewrite Hall, length_map. now rewrite Hnil.
  - intros err Hconn. unfold HandleGetNetworkConnections. now rewrite Hconn.
Qed.

Lemma HandleGetNetworkConnections_filter_witness :
  exists r,
    HandleGetNetworkConnections AsciiStrings.pkg AsciiFmt.pkg asciiToUpper
      (Some (stringArguments "status" "listen")) sampleHost = Result r
    /\ cr_kind r = "all"
    /\ cr_connections r = [mkConnInfo "tcp" "LISTEN" "0.0.0.0:22" 700 ""].
Proof.
  destruct (HandleGetNetworkConnections_filter AsciiStrings.pkg AsciiFmt.pkg asciiToUpper
              (Some (stringArguments "status" "listen")) sampleHost) as (_ & H & _).
  destruct (H _ eq_refl) as (r & Hr & Hkind & _ & Hentries & _).
  exists r. split; [exact Hr|]. split; [exact Hkind|].
  rewrite Hentries. reflexivity.
Defined.

(** The Celsius entry of a conversion result. *)
Lemma ConvertTemperature_celsius (strings : StringsPkg) (celsius : float64)
      (unit : string) :
  mapGet (ConvertTemperature strings celsius unit) UnitCelsius = Some celsius.
Proof.
  unfold ConvertTemperature.
  destruct (String.eqb (ToLower strings unit) UnitFahrenheit); [reflexivity|].
  destruct (String.eqb (ToLower strings unit) UnitKelvin); reflexivity.
Qed.

(** ** HandleGetServiceStatus and getServiceInfo *)

Lemma string_length_app (s r : string) :
  String.length (s ++ r)%string = (String.length s + String.length r)%nat.
Proof. induction s as [|c s IH]; simpl; [reflexivity | now rewrite IH]. Qed.

Lemma substring_app_suffix (s r : string) :
  substring (String.length s) (String.length r) (s ++ r)%string = r.
Proof. induction s as [|c s IH]; simpl; [apply substring_all | exact IH]. Qed.

Lemma HasSuffix_app (s suf : string) : HasSuffix (s ++ suf) suf = true.
Proof.
  unfold HasSuffix. rewrite string_length_app.
  replace (String.length s + String.length suf - String.length suf)%nat
    with (String.length s) by lia.
  rewrite substring_app_suffix, String.eqb_refl.
  replace (Nat.leb (String.length suf) (String.length s + String.length suf)) with true
    by (symmetry; apply Nat.leb_le; lia).
  reflexivity.
Qed.

Lemma substring_split (s : string) (n : nat) :
  (n <= String.length s)%nat ->
  s = (substring 0 n s ++ substring n (String.length s - n) s)%string.
Proof.
  revert n. induction s as [|c s IH]; intros n Hn; destruct n as [|n]; simpl in *.
  - reflexivity.
  - lia.
  - now rewrite substring_all.
  - f_equal. apply IH. lia.
Qed.

Lemma HasSuffix_split (s suf : string) :
  HasSuffix s suf = true -> exists stem, s = (stem ++ suf)%string.
Proof.
  unfold HasSuffix. intros H. apply andb_prop in H. destruct H as [Hlen Heq].
  apply Nat.leb_le in Hlen. apply String.eqb_eq in Heq.
  exists (substring 0 (String.length s - String.length suf) s).
  pose proof (substring_split s (String.length s - String.length suf)) as Hsplit.
  replace (String.length s - (String.length s - String.length suf))%nat
    with (String.length suf) in Hsplit by lia.
  rewrite Heq in Hsplit. apply Hsplit. lia.
Qed.

(** X17: the unit name getServiceInfo hands to systemctl always ends in
    ".service": a name that already ends so is passed as it is, any other
    gets the suffix appended, and doing it twice changes nothing more.  A
    name ends in ".service" when it has at least eight characters and its
    last eight are ".service". *)
Theorem serviceUnitName_suffix (serviceName : string) :
  HasSuffix (serviceUnitName serviceName) ".service" = true
  /\ serviceUnitName (serviceUnitName serviceName) = serviceUnitName serviceName
  /\ (serviceUnitName serviceName = serviceName
      \/ serviceUnitName serviceName = (serviceName ++ ".service")%string)
  /\ (HasSuffix serviceName ".service" = true -> serviceUnitName serviceName = serviceName)
  /\ (HasSuffix serviceName ".service" = false ->
      serviceUnitName serviceName = (serviceName ++ ".service")%string)
  /\ (forall stem, serviceName = (stem ++ ".service")%string ->
                   serviceUnitName serviceName = serviceName)
  /\ (HasSuffix serviceName ".service" = true
      <-> exists stem, serviceName = (stem ++ ".service")%string).
Proof.
  assert (H1 : HasSuffix (serviceUnitName serviceName) ".service" = true).
  { unfold serviceUnitName.
    destruct (HasSuffix serviceName ".service") eqn:H; simpl negb; cbv iota;
      [exact H | apply HasSuffix_app]. }
  split; [exact H1|]. split; [|split; [|split; [|split; [|split]]]].
  - unfold serviceUnitName at 1. now rewrite H1.
  - unfold serviceUnitName. destruct (HasSuffix serviceName ".service"); simpl; auto.
  - intros H. unfold serviceUnitName. now rewrite H.
  - intros H. unfold serviceUnitName. now rewrite H.
  - intros stem ->. unfold serviceUnitName. now rewrite HasSuffix_app.
  - split.
    + apply HasSuffix_split.
    + intros (stem & ->). apply HasSuffix_app.
Qed.

Lemma applyProperty_keeps (strings : StringsPkg) (result : serviceInfo) (line : string) :
  svc_name (applyProperty strings result line) = svc_name result
  /\ svc_available (applyProperty strings result line) = svc_available result
  /\ svc_error (applyProperty strings result line) = svc_error result.
Proof.
  unfold applyProperty.
  destruct (splitAtFirst "=" line) as [[part0 part1]|]; [|repeat split].
  repeat match goal with
         | |- context [String.eqb ?a ?b] => destruct (String.eqb a b)
         end; repeat split.
Qed.

Lemma getServiceInfo_availability (strings : StringsPkg) (host : Host)
      (serviceName : string) :
  svc_name (getServiceInfo strings host serviceName) = serviceName
  /\ svc_available (getServiceInfo strings host serviceName)
     = match systemctl_show host (serviceUnitName serviceName) with
       | inr _ => true
       | inl _ => false
       end
  /\ svc_error (getServiceInfo strings host serviceName)
     = match systemctl_show host (serviceUnitName serviceName) with
       | inr _ => None
       | inl err => Some ("Failed to query service: " ++ err)%string
       end.
Proof.
  unfold getServiceInfo.
  destruct (systemctl_show host (serviceUnitName serviceName)) as [err|output];
    [repeat split|].
  assert (H : forall lines r,
             svc_name (fold_left (applyProperty strings) lines r) = svc_name r
             /\ svc_available (fold_left (applyProperty strings) lines r) = svc_available r
             /\ svc_error (fold_left (applyProperty strings) lines r) = svc_error r).
  { induction lines as [|line lines IH]; intros r; simpl; [repeat split|].
    destruct (IH (applyProperty strings r line)) as (H1 & H2 & H3).
    destruct (applyProperty_keeps strings r line) as (K1 & K2 & K3).
    rewrite H1, H2, H3, K1, K2, K3. repeat split. }
  destruct (H (Split strings (TrimSpace strings output) (String "010" ""))
              (mkServiceInfo serviceName true None None None None None None))
    as (H1 & H2 & H3).
  rewrite H1, H2, H3. repeat split.
Qed.

Example HandleGetServiceStatus_sample :
  HandleGetServiceStatus AsciiStrings.pkg
    (Some (stringArguments "services" "ssh, cron.service")) sampleHost
  = Result
      (mkServiceResult
         [mkServiceInfo "ssh" true None (Some "loaded") (Some "active") (Some "running")
                        (Some "OpenBSD Secure Shell server") (Some "700");
          mkServiceInfo "cron.service" false
                        (Some "Failed to query service: exit status 1")
                        None None None None None]
         2).
Proof. vm_compute. reflexivity. Qed.

(** X18: HandleGetServiceStatus needs at least one service name: without a
    "services" argument, or with one that holds only commas and blanks, it
    returns the tool error "services parameter is required".  Otherwise it
    reports the requested names one by one, in order, and [total] is their
    number; a service whose query fails does not fail the tool: it is
    reported as unavailable, with the error text, and every service whose
    query succeeds is reported as available without an error. *)
Theorem HandleGetServiceStatus_reports_each
        (strings : StringsPkg) (arguments : option Arguments) (host : Host) :
  (requestServices strings arguments = [] ->
   HandleGetServiceStatus strings arguments host
   = ToolError "services parameter is required")
  /\ (requestServices strings arguments <> [] ->
      exists r,
        HandleGetServiceStatus strings arguments host = Result r
        /\ map svc_name (sr_services r) = requestServices strings arguments
        /\ sr_total r = Z.of_nat (List.length (requestServices strings arguments))
        /\ forall info, In info (sr_services r) ->
              (forall err,
                  systemctl_show host (serviceUnitName (svc_name info)) = inl err ->
                  info = mkServiceInfo (svc_name info) false
                           (Some ("Failed to query service: " ++ err)%string)
                           None None None None None)
              /\ (forall output,
                     systemctl_show host (serviceUnitName (svc_name info)) = inr output ->
                     svc_available info = true /\ svc_error info = None)).
Proof.
  unfold HandleGetServiceStatus.
  set (services := requestServices strings arguments).
  split.
  - intros Hnil. now rewrite Hnil.
  - intros Hne. destruct services as [|svc rest] eqn:Hs; [contradiction|].
    rewrite <- Hs. replace (Nat.eqb (List.length services) 0) with false
      by (rewrite Hs; reflexivity).
    rewrite forEach_all.
    eexists. split; [reflexivity|]. simpl. split; [|split].
    + rewrite map_map. rewrite <- (map_id services) at 2. apply map_ext.
      intros name. apply getServiceInfo_availability.
    + now rewrite length_map.
    + intros info Hin. apply in_map_iff in Hin. destruct Hin as (name & <- & _).
      destruct (getServiceInfo_availability strings host name) as (Hn & Ha & He).
      rewrite Hn. split.
      * intros err Herr. unfold getServiceInfo. now rewrite Herr.
      * intros output Hout. rewrite Ha, He, Hout. split; reflexivity.
Qed.

Lemma HandleGetServiceStatus_reports_each_witness :
  HandleGetServiceStatus AsciiStrings.pkg (Some (stringArguments "services" " , ,"))
                         sampleHost
  = ToolError "services parameter is required".
Proof.
  apply (proj1 (HandleGetServiceStatus_reports_each AsciiStrings.pkg
                  (Some (stringArguments "services" " , ,")) sampleHost)).
  reflexivity.
Defined.

(** ** HandleGetThermalStatus *)

(** X19: the thermal report names the platform "raspberry_pi" exactly when
    a throttling status is available, and "generic_linux" otherwise.  With
    the GPU probes disabled in the configuration neither vcgencmd output is
    used: the GPU temperature and the throttling status are unavailable and
    the platform is "generic_linux", whatever the commands would print.
    Each "available" flag tells whether its payload is present, the unit
    reported is the requested one (lower-cased, not validated), and the
    converted maps hold the Celsius readings they were made from. *)
Theorem HandleGetThermalStatus_platform
        (strings : StringsPkg) (strconv : StrconvPkg) (cfg : Config)
        (arguments : option Arguments) (host : Host) :
  (tr_platform (HandleGetThermalStatus strings strconv cfg arguments host) = "raspberry_pi"
   <-> th_available (tr_throttling (HandleGetThermalStatus strings strconv cfg arguments host))
       = true)
  /\ (tr_platform (HandleGetThermalStatus strings strconv cfg arguments host) = "generic_linux"
      <-> th_available (tr_throttling
                          (HandleGetThermalStatus strings strconv cfg arguments host))
          = false)
  /\ (EnableGPU cfg = false ->
      tr_gpu_temperature (HandleGetThermalStatus strings strconv cfg arguments host)
      = mkGpuTemperature false None None
      /\ tr_throttling (HandleGetThermalStatus strings strconv cfg arguments host)
         = mkThrottling false None
      /\ tr_platform (HandleGetThermalStatus strings strconv cfg arguments host)
         = "generic_linux")
  /\ (th_available (tr_throttling (HandleGetThermalStatus strings strconv cfg arguments host))
      = true
      <-> th_status (tr_throttling
                       (HandleGetThermalStatus strings strconv cfg arguments host))
          <> None)
  /\ (match tr_gpu_temperature (HandleGetThermalStatus strings strconv cfg arguments host)
      with
      | mkGpuTemperature true (Some gpuTempC) (Some converted) =>
          mapGet converted UnitCelsius = Some gpuTempC
      | mkGpuTemperature false None None => True
      | _ => False
      end)
  /\ ct_unit (tr_cpu_temperature (HandleGetThermalStatus strings strconv cfg arguments host))
     = requestTempUnit strings cfg arguments
  /\ mapGet (ct_converted (tr_cpu_temperature
                             (HandleGetThermalStatus strings strconv cfg arguments host)))
            UnitCelsius
     = Some (ct_celsius (tr_cpu_temperature
                           (HandleGetThermalStatus strings strconv cfg arguments host))).
Proof.
  unfold HandleGetThermalStatus.
  destruct (GetRaspberryPiTemp strconv strings (os_ReadFile host)) as [cpuTempC hasCPUTemp].
  destruct (EnableGPU cfg).
  - destruct (GetRaspberryPiGPUTemp strconv (vcgencmd_measure_temp host))
      as [gpuTempC [|]];
    destruct (GetThrottledStatus strconv strings (vcgencmd_get_throttled host)) as [st|];
      simpl; repeat split; try discriminate; try reflexivity; try congruence;
      try apply ConvertTemperature_celsius.
  - simpl. repeat split; try discriminate; try reflexivity; try congruence;
      try apply ConvertTemperature_celsius.
Qed.

Lemma HandleGetThermalStatus_platform_witness :
  tr_gpu_temperature
    (HandleGetThermalStatus AsciiStrings.pkg AsciiStrconv.pkg
       (mkConfig "celsius" 10 [] [] false "" "") None sampleHost)
  = mkGpuTemperature false None None
  /\ tr_throttling
       (HandleGetThermalStatus AsciiStrings.pkg AsciiStrconv.pkg
          (mkConfig "celsius" 10 [] [] false "" "") None sampleHost)
     = mkThrottling false None
  /\ tr_platform
       (HandleGetThermalStatus AsciiStrings.pkg AsciiStrconv.pkg
          (mkConfig "celsius" 10 [] [] false "" "") None sampleHost)
     = "generic_linux".
Proof.
  destruct (HandleGetThermalStatus_platform AsciiStrings.pkg AsciiStrconv.pkg
              (mkConfig "celsius" 10 [] [] false "" "") None sampleHost)
    as (_ & _ & H & _).
  apply H. reflexivity.
Defined.

(** ** One line of the systemctl output *)

Lemma splitAtFirst_cons (sep c : ascii) (rest : string) :
  splitAtFirst sep (String c rest)
  = if Ascii.eqb c sep then Some (EmptyString, rest)
    else match splitAtFirst sep rest with
         | Some (before, after) => Some (String c before, after)
         | None => None
         end.
Proof. reflexivity. Qed.

Lemma splitAtFirst_app (key value : string) :
  String.index 0 "=" key = None ->
  splitAtFirst "=" (key ++ "=" ++ value)%string = Some (key, value).
Proof.
  induction key as [|c key IH]; intros Hnone; [reflexivity|].
  rewrite index_cons, prefix_cons, prefix_empty in Hnone.
  destruct (ascii_dec "=" c) as [|Hc]; [discriminate|].
  destruct (String.index 0 "=" key); [discriminate|].
  change (String c key ++ "=" ++ value)%string
    with (String c (key ++ "=" ++ value)%string).
  rewrite splitAtFirst_cons, (IH eq_refl).
  destruct (Ascii.eqb_spec c "="); [congruence | reflexivity].
Qed.

Lemma splitAtFirst_none (line : string) :
  String.index 0 "=" line = None -> splitAtFirst "=" line = None.
Proof.
  induction line as [|c line IH]; intros Hnone; [reflexivity|].
  rewrite index_cons, prefix_cons, prefix_empty in Hnone.
  destruct (ascii_dec "=" c) as [|Hc]; [discriminate|].
  destruct (String.index 0 "=" line); [discriminate|].
  rewrite splitAtFirst_cons, (IH eq_refl).
  destruct (Ascii.eqb_spec c "="); [congruence | reflexivity].
Qed.

(** X20: a line of the systemctl output is read as a key, the text before
    its first "=", and a value, everything after it, so a value may itself
    hold "=" signs; both are trimmed.  A MainPID, LoadState, ActiveState,
    SubState or Description line sets the field of that name and no other;
    a line with any other key, and a line without "=", leaves the result as
    it was. *)
Theorem applyProperty_reads_key_value (strings : StringsPkg) (result : serviceInfo)
        (key value : string) :
  String.index 0 "=" key = None ->
  (TrimSpace strings key = "Description" ->
   applyProperty strings result (key ++ "=" ++ value)
   = mkServiceInfo (svc_name result) (svc_available result) (svc_error result)
                   (svc_load_state result) (svc_active_state result)
                   (svc_sub_state result) (Some (TrimSpace strings value))
                   (svc_main_pid result))
  /\ (TrimSpace strings key = "MainPID" ->
      applyProperty strings result (key ++ "=" ++ value)
      = mkServiceInfo (svc_name result) (svc_available result) (svc_error result)
                      (svc_load_state result) (svc_active_state result)
                      (svc_sub_state result) (svc_description result)
                      (Some (TrimSpace strings value)))
  /\ (TrimSpace strings key = "LoadState" ->
      applyProperty strings result (key ++ "=" ++ value)
      = mkServiceInfo (svc_name result) (svc_available result) (svc_error result)
                      (Some (TrimSpace strings value)) (svc_active_state result)
                      (svc_sub_state result) (svc_description result)
                      (svc_main_pid result))
  /\ (TrimSpace strings key = "ActiveState" ->
      applyProperty strings result (key ++ "=" ++ value)
      = mkServiceInfo (svc_name result) (svc_available result) (svc_error result)
                      (svc_load_state result) (Some (TrimSpace strings value))
                      (svc_sub_state result) (svc_description result)
                      (svc_main_pid result))
  /\ (TrimSpace strings key = "SubState" ->
      applyProperty strings result (key ++ "=" ++ value)
      = mkServiceInfo (svc_name result) (svc_available result) (svc_error result)
                      (svc_load_state result) (svc_active_state result)
                      (Some (TrimSpace strings value)) (svc_description result)
                      (svc_main_pid result))
  /\ (~ In (TrimSpace strings key)
           ["LoadState"; "ActiveState"; "SubState"; "Description"; "MainPID"] ->
      applyProperty strings result (key ++ "=" ++ value) = result)
  /\ applyProperty strings result key = result.
Proof.
  intros Hnone. unfold applyProperty.
  rewrite (splitAtFirst_app key value Hnone), (splitAtFirst_none key Hnone).
  repeat match goal with |- _ /\ _ => split end;
    try (intros ->; reflexivity); try reflexivity.
  intros Hother. simpl in Hother.
  repeat match goal with
         | |- context [String.eqb ?a ?b] =>
             destruct (String.eqb_spec a b) as [Heq|_];
             [exfalso; apply Hother; rewrite Heq; tauto|]
         end.
  now destruct result.
Qed.

Lemma applyProperty_reads_key_value_witness :
  applyProperty AsciiStrings.pkg
    (mkServiceInfo "ssh" true None None None None None None)
    ("Description" ++ "=" ++ " ExecStart=/usr/sbin/sshd -D ")
  = mkServiceInfo "ssh" true None None None None
                  (Some "ExecStart=/usr/sbin/sshd -D") None.
Proof.
  destruct (applyProperty_reads_key_value AsciiStrings.pkg
              (mkServiceInfo "ssh" true None None None None None None)
              "Description" " ExecStart=/usr/sbin/sshd -D " eq_refl) as (H & _).
  exact (H eq_refl).
Defined.

(** ** HandleGetDockerMetrics *)

(** X21: with a "container_id" argument HandleGetDockerMetrics builds
    entries for exactly the containers whose ID or whose name equals it (so
    a container named like another one's ID is reported too), in the order
    docker lists them; without one for them all.  [total] counts the
    entries, and a filter that matches nothing gives an empty list, not an
    error.  A container whose cgroup CPU or memory query fails still has
    its entry, without that section.  The result is returned when the CPU
    times of the entries are finite; one that is NaN or infinite ends the
    call with the marshalling error instead. *)
Theorem HandleGetDockerMetrics_filter
        (human : Z -> string) (json : JsonPkg) (arguments : option Arguments)
        (docker : DockerHost) (containers : list CgroupDockerStat) :
  docker_GetDockerStat docker = inr containers ->
  exists r,
    map con_container (dr_containers r)
    = filter (fun c => (negb (string_neq (requestContainerFilter arguments) "")
                        || String.eqb (ContainerID c) (requestContainerFilter arguments)
                        || String.eqb (containerName c)
                                      (requestContainerFilter arguments))%bool)
             containers
    /\ dr_total r = Z.of_nat (List.length (dr_containers r))
    /\ (forall info, In info (dr_containers r) ->
          (con_cpu info = None
           <-> exists err, docker_CgroupCPU docker (ContainerID (con_container info))
                           = inl err)
          /\ (forall cpuStat,
                con_cpu info = Some cpuStat
                <-> docker_CgroupCPU docker (ContainerID (con_container info))
                    = inr cpuStat)
          /\ (con_memory info = None
              <-> exists err, docker_CgroupMem docker (ContainerID (con_container info))
                              = inl err)
          /\ (forall memStat,
                docker_CgroupMem docker (ContainerID (con_container info)) = inr memStat ->
                con_memory info = Some (memStat, human (memRSS memStat))))
    /\ ((forall info cpuStat,
            In info (dr_containers r) -> con_cpu info = Some cpuStat ->
            unsupportedValue (cpuUser cpuStat) = false
            /\ unsupportedValue (cpuSystem cpuStat) = false
            /\ unsupportedValue (cpuUsageTotal cpuStat) = false) ->
        HandleGetDockerMetrics human json arguments docker = Result r)
    /\ ((HandleGetDockerMetrics human json arguments docker = Result r
         /\ forall info cpuStat,
              In info (dr_containers r) -> con_cpu info = Some cpuStat ->
              unsupportedValue (cpuUser cpuStat) = false
              /\ unsupportedValue (cpuSystem cpuStat) = false
              /\ unsupportedValue (cpuUsageTotal cpuStat) = false)
        \/ (exists info cpuStat f,
               In info (dr_containers r) /\ con_cpu info = Some cpuStat
               /\ In f [cpuSystem cpuStat; cpuUsageTotal cpuStat; cpuUser cpuStat]
               /\ unsupportedValue f = true
               /\ HandleGetDockerMetrics human json arguments docker
                  = ToolError ("Failed to marshal result: "
                               ++ UnsupportedValueError json f)%string)).
Proof.
  intros Hstat.
  set (containerFilter := requestContainerFilter arguments).
  pose (keep := fun c : CgroupDockerStat =>
                  (negb (string_neq containerFilter "")
                   || String.eqb (ContainerID c) containerFilter
                   || String.eqb (containerName c) containerFilter)%bool).
  pose (info := fun c : CgroupDockerStat =>
                  mkContainerInfo c
                    (match docker_CgroupCPU docker (ContainerID c) with
                     | inr cpuStat => Some cpuStat
                     | inl _ => None
                     end)
                    (match docker_CgroupMem docker (ContainerID c) with
                     | inr memStat => Some (memStat, human (memRSS memStat))
                     | inl _ => None
                     end)).
  assert (Hloop : forEach containers
                    (fun c =>
                       if (string_neq containerFilter ""
                           && string_neq (ContainerID c) containerFilter
                           && string_neq (containerName c) containerFilter)%bool
                       then None else Some (info c))
                  = map info (filter keep containers)).
  { apply forEach_filter_map. intros c. unfold keep, string_neq.
    destruct (String.eqb containerFilter ""); simpl; [reflexivity|].
    destruct (String.eqb (ContainerID c) containerFilter); simpl; [reflexivity|].
    now destruct (String.eqb (containerName c) containerFilter). }
  set (containerData := map info (filter keep containers)).
  assert (Heq : HandleGetDockerMetrics human json arguments docker
                = marshalResult json (dockerFloats containerData)
                    (mkDockerResult containerData
                                    (Z.of_nat (List.length containerData)))).
  { unfold HandleGetDockerMetrics. rewrite Hstat.
    unfold containerData. rewrite <- Hloop. reflexivity. }
  rewrite Heq. clear Heq.
  assert (Hfloats : forall f,
             In f (dockerFloats containerData)
             <-> exists i cpuStat,
                   In i containerData /\ con_cpu i = Some cpuStat
                   /\ In f [cpuSystem cpuStat; cpuUsageTotal cpuStat; cpuUser cpuStat]).
  { intros f. unfold dockerFloats. rewrite in_flat_map. split.
    - intros (i & Hi & Hf). destruct (con_cpu i) as [cpuStat|] eqn:Hc; [|destruct Hf].
      exists i, cpuStat. repeat split; assumption.
    - intros (i & cpuStat & Hi & Hc & Hf). exists i. split; [exact Hi|].
      now rewrite Hc. }
  exists (mkDockerResult containerData (Z.of_nat (List.length containerData))).
  simpl. split; [|split; [reflexivity|split; [|split]]].
  - unfold containerData. rewrite map_map. apply map_id.
  - intros i Hin. apply in_map_iff in Hin. destruct Hin as (c & <- & _). simpl.
    destruct (docker_CgroupCPU docker (ContainerID c)) as [e1|cpuStat];
      destruct (docker_CgroupMem docker (ContainerID c)) as [e2|memStat];
      repeat split; try (intros _; eexists; reflexivity);
      try discriminate; try (intros [err Herr]; discriminate Herr);
      try (intros H; injection H as <-; reflexivity);
      try (intros m H; injection H as <-; reflexivity).
  - intros Hfin. apply marshalResult_supported. apply Forall_forall.
    intros f Hf. apply Hfloats in Hf. destruct Hf as (i & cpuStat & Hi & Hc & Hf).
    destruct (Hfin i cpuStat Hi Hc) as (Hu & Hs & Ht).
    simpl in Hf. destruct Hf as [<-|[<-|[<-|[]]]]; assumption.
  - destruct (marshalResult_cases json (dockerFloats containerData)
                (mkDockerResult containerData (Z.of_nat (List.length containerData))))
      as [[Hall Hr]|(f & Hin & Hf & Hr)].
    + left. split; [exact Hr|]. intros i cpuStat Hi Hc.
      rewrite Forall_forall in Hall.
      repeat split; apply Hall, Hfloats; exists i, cpuStat;
        (split; [exact Hi | split; [exact Hc | simpl; tauto]]).
    + right. apply Hfloats in Hin. destruct Hin as (i & cpuStat & Hi & Hc & Hin).
      exists i, cpuStat, f. repeat split; assumption.
Qed.

Lemma HandleGetDockerMetrics_filter_witness :
  exists r,
    HandleGetDockerMetrics (fun _ => "") EncodingJson.pkg
                           (Some (stringArguments "container_id" "web"))
                           sampleDocker = Result r
    /\ map (fun i => ContainerID (con_container i)) (dr_containers r) = ["4f2a"; "web"]
    /\ dr_total r = 2.
Proof.
  destruct (HandleGetDockerMetrics_filter (fun _ => "") EncodingJson.pkg
              (Some (stringArguments "container_id" "web")) sampleDocker _ eq_refl)
    as (r & _ & _ & _ & _ & [[Hr _]|(i & cpuStat & f & _ & _ & _ & _ & Herr)]).
  - exists r. split; [exact Hr|].
    vm_compute in Hr. injection Hr as <-. split; reflexivity.
  - vm_compute in Herr. discriminate Herr.
Defined.

Example HandleGetDockerMetrics_infinite_cpu :
  HandleGetDockerMetrics (fun _ => "") EncodingJson.pkg None
    (mkDockerHost (inr [mkCgroupDockerStat "4f2a" "web" "nginx:1.25" "Up 2 hours" true])
                  (fun id => inr (mkCgroupCPUStat (of_int 1) (S754_infinity false)
                                                  S754_nan))
                  (fun id => inl "no such cgroup"))
  = ToolError "Failed to marshal result: json: unsupported value: +Inf".
Proof. reflexivity. Qed.

(** ** GetRaspberryPiTemp *)

(** X22: GetRaspberryPiTemp reports the first thermal zone, zone 0 before
    zone 1, whose file can be read and whose trimmed content parses as a
    number, and returns that number divided by 1000; a zone 0 file that
    reads but does not parse does not stop the search.  It reports no
    temperature (0 and false) exactly when neither zone yields a number. *)
Theorem GetRaspberryPiTemp_first_zone (strconv : StrconvPkg) (strings : StringsPkg)
        (ReadFile : string -> string + string) :
  let milli := fun path => match ReadFile path with
                           | inr data => ParseFloat strconv (TrimSpace strings data)
                           | inl _ => None
                           end in
  (forall m0, milli "/sys/class/thermal/thermal_zone0/temp" = Some m0 ->
              GetRaspberryPiTemp strconv strings ReadFile
              = (SFdiv prec emax m0 f1000, true))
  /\ (forall m1, milli "/sys/class/thermal/thermal_zone0/temp" = None ->
                 milli "/sys/class/thermal/thermal_zone1/temp" = Some m1 ->
                 GetRaspberryPiTemp strconv strings ReadFile
                 = (SFdiv prec emax m1 f1000, true))
  /\ (snd (GetRaspberryPiTemp strconv strings ReadFile) = false
      <-> milli "/sys/class/thermal/thermal_zone0/temp" = None
          /\ milli "/sys/class/thermal/thermal_zone1/temp" = None)
  /\ (snd (GetRaspberryPiTemp strconv strings ReadFile) = false ->
      fst (GetRaspberryPiTemp strconv strings ReadFile) = S754_zero false).
Proof.
  cbv zeta. unfold GetRaspberryPiTemp, thermalZonePaths. simpl readFirstTemp.
  destruct (ReadFile "/sys/class/thermal/thermal_zone0/temp") as [e0|d0];
    [|destruct (ParseFloat strconv (TrimSpace strings d0)) as [m0|]];
    (destruct (ReadFile "/sys/class/thermal/thermal_zone1/temp") as [e1|d1];
     [|destruct (ParseFloat strconv (TrimSpace strings d1)) as [m1|]]);
    simpl; repeat split; intros; try discriminate; try congruence;
    try tauto;
    try match goal with H : _ /\ _ |- _ => destruct H; discriminate end.
Qed.

Lemma GetRaspberryPiTemp_first_zone_witness :
  GetRaspberryPiTemp AsciiStrconv.pkg AsciiStrings.pkg (os_ReadFile sampleHost)
  = (SFdiv prec emax (of_int 48312) f1000, true).
Proof.
  apply (proj1 (GetRaspberryPiTemp_first_zone AsciiStrconv.pkg AsciiStrings.pkg
                  (os_ReadFile sampleHost))).
  vm_compute. reflexivity.
Defined.
